(** * Deadigations: a shallow embedding of the migration tool

    The development follows [deadigations.go] (the tool with the
    process-wide registry and the singleton constructor), the earlier
    revision of its two engine-facing methods, and the older stand-alone
    variant of the tool in which the registry is a field of
    [MigrationTool]; the latter two sort the registry before calling the
    engine.

    Go values are modelled as follows.
    - [string]: Rocq [string] (a byte sequence); [<] on strings is the
      bytewise lexicographic order.
    - slices: [list]; [append] is [++ [x]]; [sort.SliceStable] sorts the
      slice in place, so the sorted list is written back to the state.
    - pointers to [MigrationTool]: indices into a heap of tool objects.
    - [error]: [option Err], [None] being [nil].
    - [log.Fatal*]: the call never returns; the outcome of the whole
      computation is [Exit].
    - the database, the migration engine and the file system are the
      environment: their answers are the fields of [Env], their invocations
      are recorded in a trace; the clock is a field of the state. *)

From Stdlib Require Import ZArith NArith Ascii String List Sorting.Sorted
  Sorting.Permutation.
From stdpp Require Import base list strings gmap sorting.

Local Open Scope string_scope.
Local Open Scope list_scope.

(** ** Strings *)

Module GoString.

(** The double quote and the layout characters of the templates. *)
Definition dq : string := String (ascii_of_nat 34) EmptyString.
Definition nl : string := String (ascii_of_nat 10) EmptyString.
Definition tab : string := String (ascii_of_nat 9) EmptyString.
Definition space : ascii := ascii_of_nat 32.
Definition underscore : ascii := ascii_of_nat 95.
Definition percent : ascii := ascii_of_nat 37.

(** [a < b] on Go strings. *)
Definition lt (a b : string) : bool := String.ltb a b.

(** [strings.Replace(s, " ", "_", -1)]: the old string is the single
    byte 0x20, so every such byte is replaced and nothing else is. *)
Fixpoint ReplaceSpaces (s : string) : string :=
  match s with
  | EmptyString => EmptyString
  | String c s' =>
      String (if Ascii.eqb c space then underscore else c) (ReplaceSpaces s')
  end.

(** Occurrences of a character. *)
Fixpoint count_char (c : ascii) (s : string) : nat :=
  match s with
  | EmptyString => 0
  | String d s' => (if Ascii.eqb d c then 1 else 0) + count_char c s'
  end.

Definition is_digit (c : ascii) : bool :=
  Nat.leb 48 (nat_of_ascii c) && Nat.leb (nat_of_ascii c) 57.

Fixpoint all_digits (s : string) : bool :=
  match s with
  | EmptyString => true
  | String c s' => is_digit c && all_digits s'
  end.

(** [fmt.Sprintf] restricted to string operands and verbs without flags:
    [%s] and [%v] print the operand, [%%] prints a percent sign, any other
    verb is reported the way [fmt] reports a bad verb, as are missing and
    extra operands. *)
Definition bad_verb (c : ascii) (arg : option string) : string :=
  match arg with
  | Some a => "%!" +:+ String c ("(string=" +:+ a +:+ ")")
  | None => "%!" +:+ String c "(MISSING)"
  end.

Fixpoint extra_args (args : list string) : string :=
  match args with
  | [] => ""
  | [a] => "string=" +:+ a
  | a :: rest => "string=" +:+ a +:+ ", " +:+ extra_args rest
  end.

Fixpoint Sprintf (format : string) (args : list string) : string :=
  match format with
  | EmptyString =>
      match args with
      | [] => ""
      | _ => "%!(EXTRA " +:+ extra_args args +:+ ")"
      end
  | String c rest =>
      if Ascii.eqb c percent then
        match rest with
        | EmptyString => "%!(NOVERB)"
        | String v rest' =>
            if Ascii.eqb v percent then String percent (Sprintf rest' args)
            else if Ascii.eqb v "s" || Ascii.eqb v "v" then
              match args with
              | a :: args' => a +:+ Sprintf rest' args'
              | [] => bad_verb v None +:+ Sprintf rest' []
              end
            else
              match args with
              | a :: args' => bad_verb v (Some a) +:+ Sprintf rest' args'
              | [] => bad_verb v None +:+ Sprintf rest' []
              end
        end
      else String c (Sprintf rest args)
  end.

End GoString.

(** ** The clock *)

Module GoTime.
Import GoString.

(** The civil reading of [time.Now()]. *)
Record Time := mkTime {
  year : Z; month : N; day : N; hour : N; minute : N; second : N }.

Definition digit (u : N) : ascii := ascii_of_N (48 + u mod 10).

(** The [w] low decimal digits of [u], most significant first. *)
Fixpoint fixed (w : nat) (u : N) (acc : string) : string :=
  match w with
  | O => acc
  | S w' => fixed w' (u / 10) (String (digit u) acc)
  end.

(** The decimal digits of [u] without padding. *)
Fixpoint utoa (fuel : nat) (u : N) (acc : string) : string :=
  match fuel with
  | O => acc
  | S f =>
      if (u <? 10)%N then String (digit u) acc
      else utoa f (u / 10) (String (digit u) acc)
  end.

(** [appendInt]: the decimal form of [x], padded with zeros to [width],
    with a minus sign for a negative number. *)
Definition appendInt (x : Z) (width : nat) : string :=
  let u := Z.abs_N x in
  (if (x <? 0)%Z then "-" else "") +:+
  (if (u <? 10 ^ N.of_nat width)%N then fixed width u ""
   else utoa (N.size_nat u) u "").

(** [t.Format("20060102150405")]. *)
Definition Format (t : Time) : string :=
  appendInt (year t) 4 +:+ appendInt (Z.of_N (month t)) 2 +:+
  appendInt (Z.of_N (day t)) 2 +:+ appendInt (Z.of_N (hour t)) 2 +:+
  appendInt (Z.of_N (minute t)) 2 +:+ appendInt (Z.of_N (second t)) 2.

(** A reading of a clock whose year has at most four digits. *)
Definition wall_clock (t : Time) : Prop :=
  (0 <= year t <= 9999)%Z /\
  (1 <= month t <= 12)%N /\ (1 <= day t <= 31)%N /\
  (hour t < 24)%N /\ (minute t < 60)%N /\ (second t < 60)%N.

End GoTime.

(** ** The generated files *)

Module Templates.
Import GoString.

Fixpoint tabs (n : nat) : string :=
  match n with
  | O => ""
  | S n' => tab +:+ tabs n'
  end.

(** A line indented by [n] tabs. *)
Definition ind (n : nat) (s : string) : string := tabs n +:+ s.

(** Lines joined by newlines, none after the last one. *)
Fixpoint unlines (ls : list string) : string :=
  match ls with
  | [] => ""
  | [l] => l
  | l :: rest => l +:+ nl +:+ unlines rest
  end.

Definition migrationTemplate_lines : list string :=
  [ "package migrations";
    "";
    "import (";
    ind 1 (dq +:+ "github.com/Bparsons0904/deadigations" +:+ dq);
    ind 1 (dq +:+ "gorm.io/gorm" +:+ dq);
    ")";
    "";
    "func init() {";
    ind 1 "deadigations.RegisterMigration(deadigations.Migration{";
    ind 2 ("ID:          " +:+ dq +:+ "%s" +:+ dq +:+ ",");
    ind 2 ("Description: " +:+ dq +:+ "Add description of changes" +:+ dq +:+ ",");
    ind 2 "Migrate: func(tx *gorm.DB) error {";
    ind 3 "// Your migration logic goes here.";
    ind 3 "return nil // Replace with actual code";
    ind 2 "},";
    ind 2 "Rollback: func(tx *gorm.DB) error {";
    ind 3 "// Your rollback logic goes here.";
    ind 3 "return nil // Replace with actual code";
    ind 2 "},";
    ind 1 "})";
    "}" ].

Definition transactionMigrationTemplate_lines : list string :=
  [ "package migrations";
    "";
    "import (";
    ind 1 (dq +:+ "github.com/Bparsons0904/deadigations" +:+ dq);
    ind 1 (dq +:+ "gorm.io/gorm" +:+ dq);
    ")";
    "";
    "func init() {";
    ind 1 "deadigations.RegisterMigration(deadigations.Migration{";
    ind 2 ("ID:          " +:+ dq +:+ "%s" +:+ dq +:+ ",");
    ind 2 ("Description: " +:+ dq +:+ "Add description of changes with transaction support" +:+ dq +:+ ",");
    ind 2 "Migrate: func(tx *gorm.DB) error {";
    ind 3 "// Begin transaction";
    ind 3 "err := tx.Transaction(func(tx *gorm.DB) error {";
    ind 4 "// Your first operation";
    ind 4 ("if err := tx.Exec(" +:+ dq +:+ "/* first operation SQL */" +:+ dq +:+ ").Error; err != nil {");
    ind 5 "return err";
    ind 4 "}";
    "";
    ind 4 "// Your second operation";
    ind 4 ("if err := tx.Exec(" +:+ dq +:+ "/* second operation SQL */" +:+ dq +:+ ").Error; err != nil {");
    ind 5 "return err";
    ind 4 "}";
    "";
    ind 4 "// Add more operations as needed";
    "";
    ind 4 "return nil // Commit transaction";
    ind 3 "})";
    ind 3 "return err";
    ind 2 "},";
    ind 2 "Rollback: func(tx *gorm.DB) error {";
    ind 3 "// Begin transaction";
    ind 3 "err := tx.Transaction(func(tx *gorm.DB) error {";
    ind 4 "// Your first rollback operation";
    ind 4 ("if err := tx.Exec(" +:+ dq +:+ "/* first rollback SQL */" +:+ dq +:+ ").Error; err != nil {");
    ind 5 "return err";
    ind 4 "}";
    "";
    ind 4 "// Your second rollback operation";
    ind 4 "if err := tx.AutoMigrate(&Product{}); err != nil {";
    ind 5 "return err";
    ind 4 "}";
    "";
    ind 4 "// Add more rollback operations as needed";
    "";
    ind 4 "return nil // Commit rollback transaction";
    ind 3 "})";
    ind 3 "return err";
    ind 2 "},";
    ind 1 "})";
    "}" ].

(** The line of a generated file that carries the identifier [ts]. *)
Definition ID_line (ts : string) : string :=
  ind 2 ("ID:          " +:+ dq +:+ ts +:+ dq +:+ ",").

(** The raw string literals of [CreateMigrationFile] and
    [CreateTransactionMigrationFile]. *)
Definition migrationTemplate : string :=
  Eval vm_compute in unlines migrationTemplate_lines.

Definition transactionMigrationTemplate : string :=
  Eval vm_compute in unlines transactionMigrationTemplate_lines.

End Templates.

(** ** The environment: database driver, migration engine, file system *)

(** [gormigrate.Options] as the tool fills it in. *)
Record Options := mkOptions {
  TableName : string;
  IDColumnName : string;
  IDColumnSize : Z;
  UseTransaction : bool;
  ValidateUnknownMigrations : bool }.

(** [deadigations.Migration]: what a migration file registers. *)
Record Migration (Action : Type) := mkMigration {
  ID : string;
  Description : string;
  Migrate : Action;
  Rollback : Action }.
Arguments mkMigration {Action}.
Arguments ID {Action}.
Arguments Description {Action}.
Arguments Migrate {Action}.
Arguments Rollback {Action}.

(** [gormigrate.Migration]: what the engine receives. *)
Record GormMigration (Action : Type) := mkGormMigration {
  gID : string;
  gMigrate : Action;
  gRollback : Action }.
Arguments mkGormMigration {Action}.
Arguments gID {Action}.
Arguments gMigrate {Action}.
Arguments gRollback {Action}.

(** Two descriptors that differ at most in [Description]. *)
Definition same_but_description {Action} (a b : Migration Action) : Prop :=
  ID a = ID b /\ Migrate a = Migrate b /\ Rollback a = Rollback b.

(** The part of the file system the scaffolder touches. *)
Record FS := mkFS {
  dirs : gset string;
  files : gmap string string }.

(** How a computation ends: it returns, the process exits (through
    [log.Fatal] or [os.Exit]), or it panics: on a nil pointer, on an index
    out of range, or on a call of a function value that is nil. *)
Inductive Outcome (A : Type) :=
| Ret (a : A)
| Exit
| Panic.
Arguments Ret {A}.
Arguments Exit {A}.
Arguments Panic {A}.

(** The world outside the tool. [Error] is the [Error()] method of Go's
    [error]; [gorm_Open] answers [gorm.Open(postgres.Open(dsn), ...)];
    the two engine functions answer [Migrate()] and [RollbackLast()] of a
    migrator built by [gormigrate.New(db, options, migrations)], acting on
    the contents of the database. A call of the engine runs the [Migrate]
    and [Rollback] functions of the migrations, which are code of the
    user: it returns nil or an error, or it does not return, because the
    process exits or because it panics (the engine calls a [Migrate]
    function that is nil without a check). The three [os_*] functions say
    when the
    operating system refuses [os.MkdirAll], [os.Create] and
    [File.WriteString] (the latter with the number of bytes that still
    reached the file). *)
Record Env := mkEnv {
  DB : Type;
  Err : Type;
  Action : Type;
  Store : Type;
  Error : Err -> string;
  gorm_Open : string -> DB + Err;
  engine_Migrate :
    DB -> Options -> list (GormMigration Action) -> Store ->
    Store * Outcome (option Err);
  engine_RollbackLast :
    DB -> Options -> list (GormMigration Action) -> Store ->
    Store * Outcome (option Err);
  os_MkdirAll_err : FS -> string -> option Err;
  os_Create_err : FS -> string -> option Err;
  os_Write_err : FS -> string -> string -> option (nat * Err) }.

(** [sort.SliceStable]: the insertion sort the library runs on a block of
    up to twenty elements. Element [i] moves left while it is less than its
    left neighbour. The sorted prefix is kept reversed in [racc]. For a
    strict weak order every stable sort returns the same slice, so the
    model also stands for the merging of larger slices. *)
Module GoSort.
Section Stable.
Context {A : Type} (less : A -> A -> bool).

Fixpoint insert_rev (x : A) (racc : list A) : list A :=
  match racc with
  | [] => [x]
  | y :: r => if less x y then y :: insert_rev x r else x :: racc
  end.

Definition SliceStable (data : list A) : list A :=
  rev (fold_left (fun racc x => insert_rev x racc) data []).

(** The sorted order: no element is less than one in front of it. *)
Definition ordered (l : list A) : Prop :=
  StronglySorted (fun a b => less b a = false) l.

(** [out] is [l] sorted by a stable sort: the same elements, in sorted
    order, and elements none of which is less than another (those that
    [p] selects) in the order they have in [l]. *)
Definition stable_sort_of (l out : list A) : Prop :=
  Permutation l out /\ ordered out /\
  forall p : A -> bool,
    (forall a b, p a = true -> p b = true -> less a b = false) ->
    List.filter p out = List.filter p l.
End Stable.
End GoSort.

(** The two comparison functions the tool hands to [sort.SliceStable]:
    [ms[i].ID < ms[j].ID] and [ms[i].ID > ms[j].ID]. *)
Definition less_up {Action} (a b : GormMigration Action) : bool :=
  GoString.lt (gID a) (gID b).
Definition less_down {Action} (a b : GormMigration Action) : bool :=
  GoString.lt (gID b) (gID a).

(** What the program does to the outside, in order. [EvPrint] is
    [log.Println] or [log.Printf], [EvFatal] is [log.Fatal] or [log.Fatalf]
    (followed by the exit of the process), each with the message and
    without the prefix the logger adds. [EvNew] is [gormigrate.New]. *)
Inductive Event (E : Env) :=
| EvPrint (msg : string)
| EvFatal (msg : string)
| EvOpen (dsn : string)
| EvNew (d : DB E) (o : Options) (ms : list (GormMigration (Action E)))
| EvMigrate (d : DB E) (o : Options) (ms : list (GormMigration (Action E)))
| EvRollbackLast (d : DB E) (o : Options)
    (ms : list (GormMigration (Action E)))
| EvMkdirAll (path : string)
| EvCreate (path : string)
| EvWriteString (path content : string)
| EvClose (path : string).
Arguments EvPrint {E}.
Arguments EvFatal {E}.
Arguments EvOpen {E}.
Arguments EvNew {E}.
Arguments EvMigrate {E}.
Arguments EvRollbackLast {E}.
Arguments EvMkdirAll {E}.
Arguments EvCreate {E}.
Arguments EvWriteString {E}.
Arguments EvClose {E}.

(** Computations over a state [S] that may exit or panic. *)
Definition Prog (S A : Type) : Type := S -> Outcome A * S.

#[export] Instance Prog_ret {S} : MRet (Prog S) := fun A a w => (Ret a, w).
#[export] Instance Prog_bind {S} : MBind (Prog S) := fun A B f c w =>
  match c w with
  | (Ret a, w') => f a w'
  | (Exit, w') => (Exit, w')
  | (Panic, w') => (Panic, w')
  end.

Definition get {S} : Prog S S := fun w => (Ret w, w).
Definition exit {S A} : Prog S A := fun w => (Exit, w).
Definition panic {S A} : Prog S A := fun w => (Panic, w).

(** A call into code outside the tool that has ended as [o]. *)
Definition ended {S A} (o : Outcome A) : Prog S A := fun w => (o, w).

(** How a computation ends, and the state it ends in. *)
Definition outcome {S A} (c : Prog S A) (w : S) : Outcome A := fst (c w).
Definition final {S A} (c : Prog S A) (w : S) : S := snd (c w).

(** The identifiers the engine was given, call by call. *)
Definition engine_inputs {E} (tr : list (Event E)) : list (list string) :=
  omap (fun e =>
          match e with
          | EvMigrate _ _ ms => Some (map gID ms)
          | EvRollbackLast _ _ ms => Some (map gID ms)
          | _ => None
          end) tr.

(** The calls that construct or run the engine. *)
Definition engine_events {E} (tr : list (Event E)) : list (Event E) :=
  omap (fun e =>
          match e with
          | EvNew _ _ _ | EvMigrate _ _ _ | EvRollbackLast _ _ _ => Some e
          | _ => None
          end) tr.

(** The calls that touch the file system. *)
Definition fs_events {E} (tr : list (Event E)) : list (Event E) :=
  omap (fun e =>
          match e with
          | EvMkdirAll _ | EvCreate _ | EvWriteString _ _ | EvClose _ => Some e
          | _ => None
          end) tr.

(** The contents written, with the path of the file. *)
Definition written {E} (tr : list (Event E)) : list (string * string) :=
  omap (fun e =>
          match e with
          | EvWriteString p c => Some (p, c)
          | _ => None
          end) tr.

(** The files created. *)
Definition created {E} (tr : list (Event E)) : list string :=
  omap (fun e => match e with EvCreate p => Some p | _ => None end) tr.

(** The connections opened. *)
Definition opened {E} (tr : list (Event E)) : list string :=
  omap (fun e => match e with EvOpen dsn => Some dsn | _ => None end) tr.

(** ** deadigations.go *)

Module Deadigations.
Import GoString GoTime Templates.

Section Tool.
Variable E : Env.

(** [MigrationTool]: the database handle and the engine options. *)
Record MigrationTool := mkTool {
  db : DB E;
  options : Options }.

(** The package variables [registeredMigrations], [once] and [instance],
    the tool objects allocated so far (a pointer is an index, [None] is
    [nil]), and the state of the outside world. *)
Record World := mkWorld {
  registeredMigrations : list (GormMigration (Action E));
  once : bool;
  instance : option nat;
  heap : list MigrationTool;
  fs : FS;
  database : Store E;
  clock : Time;
  trace : list (Event E) }.

#[local] Abbreviation M := (Prog World).

Definition emit (e : Event E) : M unit := fun w =>
  (Ret tt,
   mkWorld (registeredMigrations w) (once w) (instance w) (heap w) (fs w)
     (database w) (clock w) (trace w ++ [e])).

(** The world [w] with the file system [f], after the events [es]. *)
Definition with_fs (w : World) (f : FS) (es : list (Event E)) : World :=
  mkWorld (registeredMigrations w) (once w) (instance w) (heap w) f
    (database w) (clock w) (trace w ++ es).

(** The world [w] after the events [es] and nothing else. *)
Definition traced (w : World) (es : list (Event E)) : World :=
  mkWorld (registeredMigrations w) (once w) (instance w) (heap w) (fs w)
    (database w) (clock w) (trace w ++ es).

Definition set_registry (ms : list (GormMigration (Action E))) : M unit :=
  fun w =>
  (Ret tt,
   mkWorld ms (once w) (instance w) (heap w) (fs w) (database w)
     (clock w) (trace w)).

Definition set_fs (f : FS) : M unit := fun w =>
  (Ret tt,
   mkWorld (registeredMigrations w) (once w) (instance w) (heap w) f
     (database w) (clock w) (trace w)).

Definition set_database (s : Store E) : M unit := fun w =>
  (Ret tt,
   mkWorld (registeredMigrations w) (once w) (instance w) (heap w) (fs w)
     s (clock w) (trace w)).

(** [log.Println], [log.Printf], [log.Fatal], [log.Fatalf]. *)
Definition Println (msg : string) : M unit := emit (EvPrint msg).
Definition Printf (format : string) (args : list string) : M unit :=
  emit (EvPrint (Sprintf format args)).
Definition Fatal {A} (msg : string) : M A := emit (EvFatal msg) ;; exit.
Definition Fatalf {A} (format : string) (args : list string) : M A :=
  emit (EvFatal (Sprintf format args)) ;; exit.

(** [m.db] and [m.options] on a receiver [m]: a nil pointer panics. *)
Definition deref (m : option nat) : M MigrationTool := fun w =>
  match m with
  | Some p =>
      match heap w !! p with
      | Some t => (Ret t, w)
      | None => (Panic, w)
      end
  | None => (Panic, w)
  end.

(** [args[i]]: out of range panics. *)
Definition index (args : list string) (i : nat) : M string :=
  match args !! i with
  | Some a => mret a
  | None => panic
  end.

(** *** The registry *)

Definition RegisterMigration (migration : Migration (Action E)) : M unit :=
  let gormMigration :=
    mkGormMigration (ID migration) (Migrate migration)
      (Rollback migration) in
  w ← get;
  set_registry (registeredMigrations w ++ [gormMigration]).

(** The [init] functions of the migration files, run in order: one
    call of [RegisterMigration] each. *)
Fixpoint RegisterAll (ms : list (Migration (Action E))) : M unit :=
  match ms with
  | [] => mret tt
  | x :: rest => RegisterMigration x ;; RegisterAll rest
  end.

(** *** The singleton constructor *)

Definition default_options : Options :=
  mkOptions "migrations" "id" 255 true false.

(** [&MigrationTool{...}]: a fresh object, addressed by its index. *)
Definition alloc (t : MigrationTool) : M (option nat) := fun w =>
  (Ret (Some (length (heap w))),
   mkWorld (registeredMigrations w) (once w) (instance w) (heap w ++ [t])
     (fs w) (database w) (clock w) (trace w)).

Definition set_instance (p : option nat) : M unit := fun w =>
  (Ret tt,
   mkWorld (registeredMigrations w) (once w) p (heap w) (fs w)
     (database w) (clock w) (trace w)).

Definition set_once : M unit := fun w =>
  (Ret tt,
   mkWorld (registeredMigrations w) true (instance w) (heap w) (fs w)
     (database w) (clock w) (trace w)).

(** The function passed to [once.Do]. *)
Definition construct (dsn : string) : M unit :=
  emit (EvOpen dsn) ;;
  match gorm_Open E dsn with
  | inr err =>
      Fatalf "Failed to connect to the database: %v" [Error E err]
  | inl d =>
      p ← alloc (mkTool d default_options);
      set_instance p
  end.

(** [once.Do(f)]: [f] runs if no call has completed before, and the
    call is marked as done when [f] returns. *)
Definition once_Do (f : M unit) : M unit :=
  w ← get;
  if once w then mret tt else f ;; set_once.

Definition NewMigrationTool (dsn : string) : M (option nat) :=
  once_Do (construct dsn) ;;
  w ← get;
  mret (instance w).

(** *** Apply and roll back *)

(** [gormigrate.New(db, options, migrations)] followed by [Migrate()]
    or [RollbackLast()] on the migrator. *)
Definition engine_run (rollback : bool) (d : DB E) (o : Options)
    (ms : list (GormMigration (Action E))) : M (option (Err E)) :=
  emit (EvNew d o ms) ;;
  emit (if rollback then EvRollbackLast d o ms else EvMigrate d o ms) ;;
  w ← get;
  let r := (if rollback then engine_RollbackLast E else engine_Migrate E)
             d o ms (database w) in
  set_database (fst r) ;;
  ended (snd r).

Definition MigrateUp (m : option nat) : M (option (Err E)) :=
  w ← get;
  if Nat.eqb (length (registeredMigrations w)) 0 then
    Println "No migrations registered" ;;
    mret None
  else
    t ← deref m;
    err ← engine_run false (db t) (options t) (registeredMigrations w);
    match err with
    | Some e => mret (Some e)
    | None =>
        Println "Migrations applied successfully!" ;;
        mret None
    end.

Definition MigrateDown (m : option nat) : M (option (Err E)) :=
  w ← get;
  if Nat.eqb (length (registeredMigrations w)) 0 then
    Println "No migrations registered" ;;
    mret None
  else
    t ← deref m;
    err ← engine_run true (db t) (options t) (registeredMigrations w);
    match err with
    | Some e => mret (Some e)
    | None =>
        Println "Last migration rolled back successfully!" ;;
        mret None
    end.

(** The earlier revision of the two methods, kept in the same file:
    the package registry is sorted in place before the migrator is
    built. *)
Definition MigrateUp_earlier (m : option nat) : M (option (Err E)) :=
  w ← get;
  if Nat.eqb (length (registeredMigrations w)) 0 then
    Println "No migrations registered" ;;
    mret None
  else
    set_registry (GoSort.SliceStable less_up (registeredMigrations w)) ;;
    w ← get;
    t ← deref m;
    err ← engine_run false (db t) (options t) (registeredMigrations w);
    match err with
    | Some e => mret (Some e)
    | None =>
        Println "Migrations applied successfully!" ;;
        mret None
    end.

Definition MigrateDown_earlier (m : option nat) : M (option (Err E)) :=
  w ← get;
  if Nat.eqb (length (registeredMigrations w)) 0 then
    Println "No migrations registered" ;;
    mret None
  else
    set_registry (GoSort.SliceStable less_down (registeredMigrations w)) ;;
    w ← get;
    t ← deref m;
    err ← engine_run true (db t) (options t) (registeredMigrations w);
    match err with
    | Some e => mret (Some e)
    | None =>
        Println "Last migration rolled back successfully!" ;;
        mret None
    end.

(** *** The file system calls *)

(** The directory [path] and the directories above it. *)
Fixpoint parents (pre path : string) : list string :=
  match path with
  | EmptyString => [pre]
  | String c rest =>
      (if Ascii.eqb c "/" then [pre] else []) ++
      parents (pre +:+ String c EmptyString) rest
  end.

(** [os.MkdirAll(path, os.ModePerm)]: no error if the directory exists. *)
Definition MkdirAll (path : string) : M (option (Err E)) :=
  emit (EvMkdirAll path) ;;
  w ← get;
  match os_MkdirAll_err E (fs w) path with
  | Some e => mret (Some e)
  | None =>
      set_fs (mkFS (dirs (fs w) ∪ list_to_set (parents "" path))
                (files (fs w))) ;;
      mret None
  end.

(** [os.Create(path)]: the file is created, or truncated if it exists. *)
Definition Create (path : string) : M (option (Err E)) :=
  emit (EvCreate path) ;;
  w ← get;
  match os_Create_err E (fs w) path with
  | Some e => mret (Some e)
  | None =>
      set_fs (mkFS (dirs (fs w)) (<[path := ""]> (files (fs w)))) ;;
      mret None
  end.

(** [file.WriteString(content)] on the file opened at [path]: the bytes
    follow what the file holds; a failed write leaves the bytes that
    were written before the error. *)
Definition WriteString (path content : string) : M (option (Err E)) :=
  emit (EvWriteString path content) ;;
  w ← get;
  let old := default "" (files (fs w) !! path) in
  match os_Write_err E (fs w) path content with
  | Some (n, e) =>
      set_fs (mkFS (dirs (fs w))
                (<[path := old +:+ String.substring 0 n content]>
                   (files (fs w)))) ;;
      mret (Some e)
  | None =>
      set_fs (mkFS (dirs (fs w))
                (<[path := old +:+ content]> (files (fs w)))) ;;
      mret None
  end.

Definition Close (path : string) : M unit := emit (EvClose path).

(** *** The scaffolder *)

(** The directory of the generated files and the path of the file
    generated for [name] at the time [t]. *)
Definition migrations_dir : string := "./migrator/migrations".

Definition file_path (t : Time) (name : string) : string :=
  Sprintf "./migrator/migrations/%s"
    [Sprintf "%s_%s.go" [Format t; ReplaceSpaces name]].

(** The common body of the two scaffolding methods, which differ in the
    template and in the message they log. *)
Definition scaffold (template logfmt name : string) : M (option (Err E)) :=
  w ← get;
  let timestamp := Format (clock w) in
  let filename := Sprintf "%s_%s.go" [timestamp; ReplaceSpaces name] in
  let filePath := Sprintf "./migrator/migrations/%s" [filename] in
  err ← MkdirAll "./migrator/migrations";
  match err with
  | Some e => mret (Some e)
  | None =>
      err ← Create filePath;
      match err with
      | Some e => mret (Some e)
      | None =>
          let content := Sprintf template [timestamp] in
          err ← WriteString filePath content;
          match err with
          | Some e => Close filePath ;; mret (Some e)
          | None =>
              Printf logfmt [filePath] ;;
              Close filePath ;;
              mret None
          end
      end
  end.

Definition CreateMigrationFile (m : option nat) (name : string)
    : M (option (Err E)) :=
  scaffold migrationTemplate "Migration file created: %s" name.

Definition CreateTransactionMigrationFile (m : option nat) (name : string)
    : M (option (Err E)) :=
  scaffold transactionMigrationTemplate
    "Transaction migration file created: %s" name.

(** Either scaffolding method, and the template it writes. *)
Definition Create_ (tx : bool) (m : option nat) (name : string)
    : M (option (Err E)) :=
  if tx then CreateTransactionMigrationFile m name
  else CreateMigrationFile m name.

Definition template_ (tx : bool) : string :=
  if tx then transactionMigrationTemplate else migrationTemplate.

(** *** The dispatcher *)

Definition Run (m : option nat) (args : list string) : M unit :=
  if Nat.ltb 1 (length args) then
    cmd ← index args 1;
    if String.eqb cmd "-up" then
      err ← MigrateUp m;
      match err with
      | Some e => Fatalf "Migration failed: %v" [Error E e]
      | None => mret tt
      end
    else if String.eqb cmd "-down" then
      err ← MigrateDown m;
      match err with
      | Some e => Fatalf "Rollback failed: %v" [Error E e]
      | None => mret tt
      end
    else if String.eqb cmd "-create" then
      (if Nat.ltb (length args) 3 then
         Fatal "Please provide a name for the migration"
       else mret tt) ;;
      migrationName ← index args 2;
      err ← CreateMigrationFile m migrationName;
      match err with
      | Some e => Fatalf "Failed to create migration file: %v" [Error E e]
      | None => mret tt
      end
    else if String.eqb cmd "-create-tx" then
      (if Nat.ltb (length args) 3 then
         Fatal "Please provide a name for the transaction migration"
       else mret tt) ;;
      migrationName ← index args 2;
      err ← CreateTransactionMigrationFile m migrationName;
      match err with
      | Some e =>
          Fatalf "Failed to create transaction migration file: %v"
            [Error E e]
      | None => mret tt
      end
    else
      Fatal "Invalid command. Use -up, -down, -create, or -create-tx"
  else
    Println "No command provided. Use -up, -down, -create, or -create-tx".

End Tool.
End Deadigations.

(** ** The stand-alone tool

    The variant of the tool in which [MigrationTool] carries the registry
    it was given ([registeredMigrations] is a field, there is no package
    variable) and both directions sort it in place before they build the
    migrator. Of this variant the two engine-facing methods are embedded. *)

Module Standalone.

Section Tool.
Variable E : Env.

Record MigrationTool := mkTool {
  db : DB E;
  registeredMigrations : list (GormMigration (Action E));
  options : Options }.

(** The tool objects, the database and the trace. *)
Record World := mkWorld {
  heap : list MigrationTool;
  database : Store E;
  trace : list (Event E) }.

#[local] Abbreviation M := (Prog World).

Definition emit (e : Event E) : M unit := fun w =>
  (Ret tt, mkWorld (heap w) (database w) (trace w ++ [e])).

Definition set_database (s : Store E) : M unit := fun w =>
  (Ret tt, mkWorld (heap w) s (trace w)).

Definition Println (msg : string) : M unit := emit (EvPrint msg).

Definition deref (m : option nat) : M MigrationTool := fun w =>
  match m with
  | Some p =>
      match heap w !! p with
      | Some t => (Ret t, w)
      | None => (Panic, w)
      end
  | None => (Panic, w)
  end.

(** Writing the elements of [m.registeredMigrations] in place. *)
Definition store_registry (m : option nat)
    (ms : list (GormMigration (Action E))) : M unit := fun w =>
  match m with
  | Some p =>
      match heap w !! p with
      | Some t =>
          (Ret tt,
           mkWorld (<[p := mkTool (db t) ms (options t)]> (heap w))
             (database w) (trace w))
      | None => (Panic, w)
      end
  | None => (Panic, w)
  end.

Definition engine_run (rollback : bool) (d : DB E) (o : Options)
    (ms : list (GormMigration (Action E))) : M (option (Err E)) :=
  emit (EvNew d o ms) ;;
  emit (if rollback then EvRollbackLast d o ms else EvMigrate d o ms) ;;
  w ← get;
  let r := (if rollback then engine_RollbackLast E else engine_Migrate E)
             d o ms (database w) in
  set_database (fst r) ;;
  ended (snd r).

Definition MigrateUp (m : option nat) : M (option (Err E)) :=
  t ← deref m;
  if Nat.eqb (length (registeredMigrations t)) 0 then
    Println "No migrations registered" ;;
    mret None
  else
    store_registry m
      (GoSort.SliceStable less_up (registeredMigrations t)) ;;
    t ← deref m;
    err ← engine_run false (db t) (options t) (registeredMigrations t);
    match err with
    | Some e => mret (Some e)
    | None =>
        Println "Migrations applied successfully!" ;;
        mret None
    end.

Definition MigrateDown (m : option nat) : M (option (Err E)) :=
  t ← deref m;
  if Nat.eqb (length (registeredMigrations t)) 0 then
    Println "No migrations registered" ;;
    mret None
  else
    store_registry m
      (GoSort.SliceStable less_down (registeredMigrations t)) ;;
    t ← deref m;
    err ← engine_run true (db t) (options t) (registeredMigrations t);
    match err with
    | Some e => mret (Some e)
    | None =>
        Println "Last migration rolled back successfully!" ;;
        mret None
    end.

End Tool.
End Standalone.

(** ** Reading a generated file

    The functions below look at the text of a generated file the way a
    reader does: line by line, by indentation and by the leading words of a
    line. *)

Module Generated.
Import GoString Templates.

(** [strings.Split(s, "\n")]. *)
Fixpoint split_lines (s : string) : list string :=
  match s with
  | EmptyString => [EmptyString]
  | String c s' =>
      if Ascii.eqb c (ascii_of_nat 10) then EmptyString :: split_lines s'
      else
        match split_lines s' with
        | l :: ls => String c l :: ls
        | [] => [String c EmptyString]
        end
  end.

Fixpoint strip_tabs (s : string) : string :=
  match s with
  | String c s' => if Ascii.eqb c (ascii_of_nat 9) then strip_tabs s' else s
  | EmptyString => EmptyString
  end.

Fixpoint strip_spaces (s : string) : string :=
  match s with
  | String c s' => if Ascii.eqb c space then strip_spaces s' else s
  | EmptyString => EmptyString
  end.

Fixpoint drop (n : nat) (s : string) : string :=
  match n, s with
  | S n', String _ s' => drop n' s'
  | _, _ => s
  end.

(** The text of a line in front of a trailing [ // ...] comment. *)
Fixpoint strip_comment (s : string) : string :=
  if String.prefix " //" s then EmptyString
  else
    match s with
    | String c s' => String c (strip_comment s')
    | EmptyString => EmptyString
    end.

(** The lines that open a call of [deadigations.RegisterMigration]. *)
Definition registration_calls (ls : list string) : list string :=
  filter (fun l => String.prefix "deadigations.RegisterMigration("
                     (strip_tabs l) = true) ls.

(** What follows [name:] on the first line that starts with it. *)
Fixpoint field (name : string) (ls : list string) : option string :=
  match ls with
  | [] => None
  | l :: rest =>
      if String.prefix (name +:+ ":") (strip_tabs l) then
        Some (strip_spaces (drop (S (String.length name)) (strip_tabs l)))
      else field name rest
  end.

(** The lines up to, and without, the first line equal to [closing]. *)
Fixpoint until (closing : string) (ls : list string) : list string :=
  match ls with
  | [] => []
  | l :: rest => if String.eqb l closing then [] else l :: until closing rest
  end.

(** The lines between the first line equal to [opening] and the next line
    equal to [closing]. Both are compared with their indentation, so the
    closing line of a nested block is not taken for that of the block. *)
Fixpoint block (opening closing : string) (ls : list string) : list string :=
  match ls with
  | [] => []
  | l :: rest =>
      if String.eqb l opening then until closing rest
      else block opening closing rest
  end.

(** The body of the function literal assigned to the field [name]. *)
Definition body (name : string) (ls : list string) : list string :=
  block (ind 2 (name +:+ ": func(tx *gorm.DB) error {")) (ind 2 "},") ls.

(** The body of the function literal passed to [tx.Transaction]. *)
Definition transaction (ls : list string) : list string :=
  block (ind 3 "err := tx.Transaction(func(tx *gorm.DB) error {")
    (ind 3 "})") ls.

(** The code of some lines: no blank lines, no comment lines, no lines
    that only close a brace, no indentation, no trailing comments. *)
Definition statements (ls : list string) : list string :=
  map strip_comment
    (filter (fun l => negb (String.prefix "//" l) && negb (String.eqb l "")
                      && negb (String.eqb l "}") = true)
       (map strip_tabs ls)).

(** The statements of a block at the indentation [n], those nested
    deeper left out. *)
Definition statements_at (n : nat) (ls : list string) : list string :=
  statements
    (filter (fun l => String.prefix (tabs n) l
                      && negb (String.prefix (tabs (S n)) l) = true) ls).

End Generated.

(** ** Concrete environments and states *)

Module Demo.

(** A database that accepts every connection string but the empty one, an
    engine that records the identifiers it is given, in the order given,
    and an operating system that refuses nothing. *)
Definition env : Env :=
  mkEnv string string nat (list (list string))
    (fun e => e)
    (fun dsn => if String.eqb dsn "" then inr "empty dsn" else inl dsn)
    (fun _ _ ms s => (s ++ [map gID ms], Ret None))
    (fun _ _ ms s => (s ++ [map gID ms], Ret None))
    (fun _ _ => None)
    (fun _ _ => None)
    (fun _ _ _ => None).

(** The same, with an operating system that refuses to create files. *)
Definition readonly : Env :=
  mkEnv string string nat (list (list string))
    (fun e => e)
    (fun dsn => if String.eqb dsn "" then inr "empty dsn" else inl dsn)
    (fun _ _ ms s => (s ++ [map gID ms], Ret None))
    (fun _ _ ms s => (s ++ [map gID ms], Ret None))
    (fun _ _ => None)
    (fun _ _ => Some "permission denied")
    (fun _ _ _ => None).

(** The same as [env], with a disk that is full: no byte is written. *)
Definition diskfull : Env :=
  mkEnv string string nat (list (list string))
    (fun e => e)
    (fun dsn => if String.eqb dsn "" then inr "empty dsn" else inl dsn)
    (fun _ _ ms s => (s ++ [map gID ms], Ret None))
    (fun _ _ ms s => (s ++ [map gID ms], Ret None))
    (fun _ _ => None)
    (fun _ _ => None)
    (fun _ _ _ => Some (0, "no space left on device")).

Definition noon : GoTime.Time := GoTime.mkTime 2024 8 3 12 0 5.

(** The state of a process that has just started. *)
Definition start (E : Env) (s : Store E) : Deadigations.World E :=
  Deadigations.mkWorld E [] false None [] (mkFS ∅ ∅) s noon [].

(** A migration with the identifier [id]; the actions are numbered. *)
Definition mig (id descr : string) (n : nat) : Migration nat :=
  mkMigration id descr n (S n).

(** Three migrations, registered with the identifiers 3, 1 and 2. *)
Definition three : list (Migration nat) :=
  [mig "3" "third" 0; mig "1" "first" 2; mig "2" "second" 4].

(** The process after the tool was constructed, and after the three
    migrations were registered as well. *)
Definition ready : Deadigations.World env :=
  final (Deadigations.NewMigrationTool env "host=db") (start env []).

Definition registered : Deadigations.World env :=
  final (Deadigations.RegisterAll env three) ready.

(** A stand-alone tool that was given the same three migrations. *)
Definition standalone : Standalone.World env :=
  Standalone.mkWorld env
    [Standalone.mkTool env "host=db"
       (map (fun x => mkGormMigration (ID x) (Migrate x) (Rollback x)) three)
       Deadigations.default_options]
    [] [].

(** The file the scaffolder makes for the name [add users] at [noon]. *)
Definition add_users : string :=
  "./migrator/migrations/20240803120005_add_users.go".

End Demo.

(** ** The stand-alone tool as a whole

    The rest of the stand-alone variant: its scaffolder, which writes to
    [./migrations], and [NewMigrationTool], which there is the whole
    program: it opens the database, builds the tool around the registry it
    is given and dispatches on the command line. *)

Module StandaloneMain.
Import GoString GoTime Templates.

Definition migrationTemplate_lines : list string :=
  [ "package migrations";
    "";
    "import (";
    ind 1 (dq +:+ "gorm.io/gorm" +:+ dq);
    ")";
    "";
    "func init() {";
    ind 1 "RegisterMigration(Migration{";
    ind 2 ("ID:          " +:+ dq +:+ "%s" +:+ dq +:+ ",");
    ind 2 ("Description: " +:+ dq +:+ "Add description of changes" +:+ dq +:+ ",");
    ind 2 "Migrate: func(tx *gorm.DB) error {";
    ind 3 "// Your migration logic goes here.";
    ind 3 "return nil // Replace with actual code";
    ind 2 "},";
    ind 2 "Rollback: func(tx *gorm.DB) error {";
    ind 3 "// Your rollback logic goes here.";
    ind 3 "return nil // Replace with actual code";
    ind 2 "},";
    ind 1 "})";
    "}" ].

(** The raw string literal of [CreateMigrationFile]. *)
Definition migrationTemplate : string :=
  Eval vm_compute in unlines migrationTemplate_lines.

Section Tool.
Variable E : Env.

(** The tool objects, the database and the trace, as the two
    engine-facing methods see them, with the file system and the clock. *)
Record World := mkWorld {
  core : Standalone.World E;
  fs : FS;
  clock : Time }.

#[local] Abbreviation M := (Prog World).

(** A computation of the two engine-facing methods, run in the program. *)
Definition lift {A} (c : Prog (Standalone.World E) A) : M A := fun w =>
  (fst (c (core w)), mkWorld (snd (c (core w))) (fs w) (clock w)).

Definition emit (e : Event E) : M unit := lift (Standalone.emit E e).

Definition set_fs (f : FS) : M unit := fun w =>
  (Ret tt, mkWorld (core w) f (clock w)).

Definition Println (msg : string) : M unit := emit (EvPrint msg).
Definition Printf (format : string) (args : list string) : M unit :=
  emit (EvPrint (Sprintf format args)).
Definition Fatal {A} (msg : string) : M A := emit (EvFatal msg) ;; exit.
Definition Fatalf {A} (format : string) (args : list string) : M A :=
  emit (EvFatal (Sprintf format args)) ;; exit.

(** [args[i]]: out of range panics. *)
Definition index (args : list string) (i : nat) : M string :=
  match args !! i with
  | Some a => mret a
  | None => panic
  end.

(** [&MigrationTool{...}]: a fresh object, addressed by its index. *)
Definition alloc (t : Standalone.MigrationTool E) : M (option nat) := fun w =>
  (Ret (Some (length (Standalone.heap E (core w)))),
   mkWorld
     (Standalone.mkWorld E (Standalone.heap E (core w) ++ [t])
        (Standalone.database E (core w)) (Standalone.trace E (core w)))
     (fs w) (clock w)).

Definition MigrateUp (m : option nat) : M (option (Err E)) :=
  lift (Standalone.MigrateUp E m).

Definition MigrateDown (m : option nat) : M (option (Err E)) :=
  lift (Standalone.MigrateDown E m).

(** [os.MkdirAll], [os.Create], [file.WriteString] and [file.Close], as in
    [deadigations.go]. *)
Definition MkdirAll (path : string) : M (option (Err E)) :=
  emit (EvMkdirAll path) ;;
  w ← get;
  match os_MkdirAll_err E (fs w) path with
  | Some e => mret (Some e)
  | None =>
      set_fs (mkFS (dirs (fs w) ∪ list_to_set (Deadigations.parents "" path))
                (files (fs w))) ;;
      mret None
  end.

Definition Create (path : string) : M (option (Err E)) :=
  emit (EvCreate path) ;;
  w ← get;
  match os_Create_err E (fs w) path with
  | Some e => mret (Some e)
  | None =>
      set_fs (mkFS (dirs (fs w)) (<[path := ""]> (files (fs w)))) ;;
      mret None
  end.

Definition WriteString (path content : string) : M (option (Err E)) :=
  emit (EvWriteString path content) ;;
  w ← get;
  let old := default "" (files (fs w) !! path) in
  match os_Write_err E (fs w) path content with
  | Some (n, e) =>
      set_fs (mkFS (dirs (fs w))
                (<[path := old +:+ String.substring 0 n content]>
                   (files (fs w)))) ;;
      mret (Some e)
  | None =>
      set_fs (mkFS (dirs (fs w))
                (<[path := old +:+ content]> (files (fs w)))) ;;
      mret None
  end.

Definition Close (path : string) : M unit := emit (EvClose path).

Definition CreateMigrationFile (m : option nat) (name : string)
    : M (option (Err E)) :=
  w ← get;
  let timestamp := Format (clock w) in
  let filename := Sprintf "%s_%s.go" [timestamp; ReplaceSpaces name] in
  let filePath := Sprintf "./migrations/%s" [filename] in
  err ← MkdirAll "./migrations";
  match err with
  | Some e => mret (Some e)
  | None =>
      err ← Create filePath;
      match err with
      | Some e => mret (Some e)
      | None =>
          let content := Sprintf migrationTemplate [timestamp] in
          err ← WriteString filePath content;
          match err with
          | Some e => Close filePath ;; mret (Some e)
          | None =>
              Printf "Migration file created: %s" [filePath] ;;
              Close filePath ;;
              mret None
          end
      end
  end.

(** The switch on [args[1]]. *)
Definition dispatch (migrationTool : option nat) (args : list string)
    : M unit :=
  if Nat.ltb 1 (length args) then
    cmd ← index args 1;
    if String.eqb cmd "-up" then
      err ← MigrateUp migrationTool;
      match err with
      | Some e => Fatalf "Migration failed: %v" [Error E e]
      | None => mret tt
      end
    else if String.eqb cmd "-down" then
      err ← MigrateDown migrationTool;
      match err with
      | Some e => Fatalf "Rollback failed: %v" [Error E e]
      | None => mret tt
      end
    else if String.eqb cmd "-create" then
      (if Nat.ltb (length args) 3 then
         Fatal "Please provide a name for the migration"
       else mret tt) ;;
      migrationName ← index args 2;
      err ← CreateMigrationFile migrationTool migrationName;
      match err with
      | Some e => Fatalf "Failed to create migration file: %v" [Error E e]
      | None => mret tt
      end
    else
      Fatal "Invalid command. Use -up, -down, or -create"
  else
    Println "No command provided. Use -up, -down, or -create".

Definition NewMigrationTool (dsn : string)
    (registeredMigrations : list (GormMigration (Action E)))
    (args : list string) : M unit :=
  emit (EvOpen dsn) ;;
  match gorm_Open E dsn with
  | inr err => Fatalf "Failed to connect to the database: %v" [Error E err]
  | inl d =>
      migrationTool ←
        alloc (Standalone.mkTool E d registeredMigrations
                 Deadigations.default_options);
      dispatch migrationTool args
  end.

End Tool.
End StandaloneMain.

(** ** Notions used to state what the code guarantees *)

Module Chronology.
Import GoTime.

(** The order of two clock readings: by year, then month, day, hour,
    minute and second. *)
Definition then_ (c d : comparison) : comparison :=
  match c with
  | Eq => d
  | _ => c
  end.

Definition civil_compare (a b : Time) : comparison :=
  then_ (Z.compare (year a) (year b))
    (then_ (N.compare (month a) (month b))
       (then_ (N.compare (day a) (day b))
          (then_ (N.compare (hour a) (hour b))
             (then_ (N.compare (minute a) (minute b))
                (N.compare (second a) (second b)))))).

(** The number a string of decimal digits stands for. *)
Definition digit_value (c : ascii) : N := N_of_ascii c - 48.

Fixpoint decimal_from (acc : N) (s : string) : N :=
  match s with
  | EmptyString => acc
  | String c s' => decimal_from (10 * acc + digit_value c) s'
  end.

Definition decimal (s : string) : N := decimal_from 0 s.

(** A timestamp read as YYYYMMDDHHMMSS: four digits of year, then two
    digits each of month, day, hour, minute and second. *)
Definition read (ts : string) : Time :=
  mkTime (Z.of_N (decimal (String.substring 0 4 ts)))
    (decimal (String.substring 4 2 ts))
    (decimal (String.substring 6 2 ts))
    (decimal (String.substring 8 2 ts))
    (decimal (String.substring 10 2 ts))
    (decimal (String.substring 12 2 ts)).

End Chronology.

(** The files closed. *)
Definition closed {E} (tr : list (Event E)) : list string :=
  omap (fun e => match e with EvClose p => Some p | _ => None end) tr.

(** The fatal messages logged. *)
Definition fatal {E} (tr : list (Event E)) : list string :=
  omap (fun e => match e with EvFatal msg => Some msg | _ => None end) tr.

(** The engines built: the handle and the options each was given. *)
Definition engines {E} (tr : list (Event E)) : list (DB E * Options) :=
  omap (fun e => match e with EvNew d o _ => Some (d, o) | _ => None end) tr.

(** The package variables of [deadigations.go] agree: once the constructor
    has completed, [instance] points to a tool object. *)
Definition constructed (E : Env) (w : Deadigations.World E) : Prop :=
  Deadigations.once E w = true ->
  exists p t,
    Deadigations.instance E w = Some p /\ Deadigations.heap E w !! p = Some t.

(** A program as the README sets it up: the [init] functions of the
    migration files register [xs], then [main] constructs the tool for
    [dsn] and runs it on the command line [args]. *)
Definition program (E : Env) (xs : list (Migration (Action E)))
    (dsn : string) (args : list string) : Prog (Deadigations.World E) unit :=
  Deadigations.RegisterAll E xs ;;
  m ← Deadigations.NewMigrationTool E dsn;
  Deadigations.Run E m args.

(** ** More concrete states *)

Module Samples.
Import Demo.

(** One second after [noon]. *)
Definition later : GoTime.Time := GoTime.mkTime 2024 8 3 12 0 6.

(** The constructed tool of [ready]. *)
Definition tool : Deadigations.MigrationTool env :=
  Deadigations.mkTool env "host=db" Deadigations.default_options.

(** The three migrations of [three] as the engine receives them. *)
Definition entries : list (GormMigration nat) :=
  map (fun x => mkGormMigration (ID x) (Migrate x) (Rollback x)) three.

(** The tool of [standalone]. *)
Definition standalone_tool : Standalone.MigrationTool env :=
  Standalone.mkTool env "host=db" entries Deadigations.default_options.

(** The process after three migrations were registered in ascending
    order and the tool was constructed. *)
Definition in_order : Deadigations.World env :=
  final
    (Deadigations.RegisterAll env
       [mig "1" "first" 2; mig "2" "second" 4; mig "3" "third" 0])
    ready.

(** The stand-alone program before it starts. *)
Definition main_start : StandaloneMain.World env :=
  StandaloneMain.mkWorld env (Standalone.mkWorld env [] [] [])
    (mkFS ∅ ∅) noon.

(** An engine that calls the functions of the migrations: an action is a
    function value, [None] being nil, and [Migrate()] panics when one of
    the migrations it is to apply has a [Migrate] function that is nil.
    The rest is as in [env]. *)
Definition fragile : Env :=
  mkEnv string string (option nat) (list (list string))
    (fun e => e)
    (fun dsn => if String.eqb dsn "" then inr "empty dsn" else inl dsn)
    (fun _ _ ms s =>
       if forallb (fun g => bool_decide (is_Some (gMigrate g))) ms
       then (s ++ [map gID ms], Ret None)
       else (s, Panic))
    (fun _ _ ms s => (s ++ [map gID ms], Ret None))
    (fun _ _ => None)
    (fun _ _ => None)
    (fun _ _ _ => None).

(** The registration [Migration{ID: "1"}]: no description, no
    functions. *)
Definition bare : list (Migration (option nat)) :=
  [mkMigration "1" "" None None].

(** The process of [fragile] after the tool was constructed and [bare] was
    registered. *)
Definition bare_registered : Deadigations.World fragile :=
  final (Deadigations.RegisterAll fragile bare)
    (final (Deadigations.NewMigrationTool fragile "host=db")
       (start fragile [])).

End Samples.

(** * Properties *)

(** ** The order on strings *)

Section StringOrder.

Lemma ascii_compare_lt_trans a b c :
  Ascii.compare a b = Lt -> Ascii.compare b c = Lt -> Ascii.compare a c = Lt.
Proof.
  unfold Ascii.compare. rewrite !N.compare_lt_iff. lia.
Qed.

Lemma compare_lt_trans a : forall b c,
  String.compare a b = Lt -> String.compare b c = Lt ->
  String.compare a c = Lt.
Proof.
  induction a as [|x a IH]; intros [|y b] [|z c]; simpl; try congruence.
  destruct (Ascii.compare x y) eqn:Hxy; try congruence;
    destruct (Ascii.compare y z) eqn:Hyz; try congruence; intros H1 H2.
  - apply Ascii.compare_eq_iff in Hxy, Hyz. subst.
    unfold Ascii.compare. rewrite N.compare_refl. eauto.
  - apply Ascii.compare_eq_iff in Hxy. subst. now rewrite Hyz.
  - apply Ascii.compare_eq_iff in Hyz. subst. now rewrite Hxy.
  - now rewrite (ascii_compare_lt_trans _ _ _ Hxy Hyz).
Qed.

Lemma compare_refl a : String.compare a a = Eq.
Proof.
  induction a as [|x a IH]; simpl; [reflexivity|].
  unfold Ascii.compare. now rewrite N.compare_refl.
Qed.

Lemma lt_irrefl a : GoString.lt a a = false.
Proof.
  unfold GoString.lt, String.ltb. now rewrite compare_refl.
Qed.

Lemma lt_asym a b : GoString.lt a b = true -> GoString.lt b a = false.
Proof.
  unfold GoString.lt, String.ltb. rewrite (String.compare_antisym b a).
  destruct (String.compare a b); simpl; congruence.
Qed.

Lemma lt_trans a b c :
  GoString.lt a b = true -> GoString.lt b c = true -> GoString.lt a c = true.
Proof.
  unfold GoString.lt, String.ltb.
  destruct (String.compare a b) eqn:Hab; try congruence.
  destruct (String.compare b c) eqn:Hbc; try congruence.
  now rewrite (compare_lt_trans _ _ _ Hab Hbc).
Qed.

(** Two strings neither of which is less than the other are equal. *)
Lemma lt_total a b :
  GoString.lt a b = false -> GoString.lt b a = false -> a = b.
Proof.
  unfold GoString.lt, String.ltb. rewrite (String.compare_antisym b a).
  destruct (String.compare a b) eqn:H; simpl; try congruence.
  intros _ _. now apply String.compare_eq_iff.
Qed.

(** [>=] is transitive. *)
Lemma ge_trans a b c :
  GoString.lt a b = false -> GoString.lt b c = false ->
  GoString.lt a c = false.
Proof.
  intros Hab Hbc. destruct (GoString.lt a c) eqn:Hac; [|reflexivity].
  destruct (GoString.lt b a) eqn:Hba.
  - now rewrite (lt_trans _ _ _ Hba Hac) in Hbc.
  - rewrite (lt_total a b Hab Hba) in Hac. congruence.
Qed.

End StringOrder.

(** ** The stable sort *)

Section SortFacts.
Context {A : Type} (less : A -> A -> bool).
Import GoSort.

Lemma insert_rev_perm x r : Permutation (x :: r) (insert_rev less x r).
Proof.
  induction r as [|y r IH]; simpl; [reflexivity|].
  destruct (less x y); [|reflexivity].
  rewrite <- IH. apply perm_swap.
Qed.

Lemma fold_insert_perm l : forall racc,
  Permutation (l ++ racc)
    (fold_left (fun racc x => insert_rev less x racc) l racc).
Proof.
  induction l as [|x l IH]; intros racc; simpl; [reflexivity|].
  rewrite <- IH, <- insert_rev_perm. apply Permutation_middle.
Qed.

Lemma SliceStable_perm l : Permutation l (SliceStable less l).
Proof.
  unfold SliceStable. rewrite <- Permutation_rev, <- fold_insert_perm.
  now rewrite app_nil_r.
Qed.

Lemma SliceStable_length l : length (SliceStable less l) = length l.
Proof. symmetry. apply Permutation_length, SliceStable_perm. Qed.

Lemma SliceStable_nil_iff l : SliceStable less l = [] <-> l = [].
Proof.
  split; intros H.
  - pose proof (SliceStable_length l) as Hl. rewrite H in Hl.
    destruct l; [reflexivity|discriminate].
  - now subst.
Qed.

(** Stability: elements none of which is less than another keep their
    relative order. *)
Lemma insert_rev_filter (p : A -> bool) x r :
  (forall a b, p a = true -> p b = true -> less a b = false) ->
  List.filter p (insert_rev less x r) = List.filter p (x :: r).
Proof.
  intros Hp. induction r as [|y r IH]; [reflexivity|].
  cbn [insert_rev]. destruct (less x y) eqn:Hxy; [|reflexivity].
  cbn [List.filter] in *. rewrite IH.
  destruct (p x) eqn:Hx, (p y) eqn:Hy; try reflexivity.
  rewrite (Hp x y Hx Hy) in Hxy. discriminate.
Qed.

Lemma fold_insert_filter (p : A -> bool) l :
  (forall a b, p a = true -> p b = true -> less a b = false) ->
  forall racc,
    List.filter p (fold_left (fun racc x => insert_rev less x racc) l racc)
    = rev (List.filter p l) ++ List.filter p racc.
Proof.
  intros Hp. induction l as [|x l IH]; intros racc; [reflexivity|].
  cbn [fold_left]. rewrite IH, insert_rev_filter by assumption.
  cbn [List.filter]. destruct (p x); [|reflexivity].
  cbn [rev]. now rewrite <- app_assoc.
Qed.

Lemma SliceStable_stable (p : A -> bool) l :
  (forall a b, p a = true -> p b = true -> less a b = false) ->
  List.filter p (SliceStable less l) = List.filter p l.
Proof.
  intros Hp. unfold SliceStable.
  rewrite List.filter_rev, fold_insert_filter by assumption.
  cbn [List.filter]. now rewrite app_nil_r, rev_involutive.
Qed.

(** Sortedness, for a comparison that is asymmetric and whose negation
    is transitive (a strict weak order). *)
Hypothesis less_asym : forall a b, less a b = true -> less b a = false.
Hypothesis geq_trans : forall a b c,
  less a b = false -> less b c = false -> less a c = false.

Lemma insert_rev_sorted x r :
  StronglySorted (fun a b => less a b = false) r ->
  StronglySorted (fun a b => less a b = false) (insert_rev less x r).
Proof.
  induction 1 as [|y r Hr IH Hy]; cbn [insert_rev].
  - repeat constructor.
  - destruct (less x y) eqn:Hxy.
    + constructor; [exact IH|].
      rewrite <- insert_rev_perm. constructor; [|exact Hy].
      now apply less_asym.
    + constructor; [now constructor|].
      constructor; [exact Hxy|].
      eapply Forall_impl; [exact Hy|]. intros z Hz. cbn in Hz.
      now apply (geq_trans x y z).
Qed.

Lemma fold_insert_sorted l : forall racc,
  StronglySorted (fun a b => less a b = false) racc ->
  StronglySorted (fun a b => less a b = false)
    (fold_left (fun racc x => insert_rev less x racc) l racc).
Proof.
  induction l as [|x l IH]; intros racc Hr; [exact Hr|].
  cbn [fold_left]. now apply IH, insert_rev_sorted.
Qed.

Lemma rev_sorted (R : A -> A -> Prop) l :
  StronglySorted R l -> StronglySorted (fun a b => R b a) (rev l).
Proof.
  induction 1 as [|x l Hl IH Hx]; cbn [rev]; [constructor|].
  apply StronglySorted_app_2; [|exact IH|repeat constructor].
  intros a b Ha Hb. apply list_elem_of_In in Ha.
  apply list_elem_of_singleton in Hb. subst b.
  apply in_rev in Ha. rewrite Forall_forall in Hx.
  apply Hx. now apply list_elem_of_In.
Qed.

Lemma SliceStable_ordered l : ordered less (SliceStable less l).
Proof.
  unfold ordered, SliceStable.
  apply (rev_sorted (fun a b => less a b = false)).
  apply fold_insert_sorted. constructor.
Qed.

Lemma SliceStable_sorts l : stable_sort_of less l (SliceStable less l).
Proof.
  split; [apply SliceStable_perm|]. split; [apply SliceStable_ordered|].
  intros p Hp. now apply SliceStable_stable.
Qed.

Lemma less_irrefl a : less a a = false.
Proof.
  destruct (less a a) eqn:H; [|reflexivity].
  now rewrite (less_asym a a H) in H.
Qed.

(** Two sorted arrangements of the same elements that keep the elements
    of every class in the same order are the same list. *)
Lemma ordered_unique l1 : forall l2,
  Permutation l1 l2 -> ordered less l1 -> ordered less l2 ->
  (forall p : A -> bool,
     (forall a b, p a = true -> p b = true -> less a b = false) ->
     List.filter p l1 = List.filter p l2) ->
  l1 = l2.
Proof.
  induction l1 as [|x1 t1 IH]; intros l2 Hperm Ho1 Ho2 Hst.
  - apply Permutation_nil in Hperm. now subst.
  - destruct l2 as [|x2 t2].
    { apply Permutation_sym, Permutation_nil in Hperm. discriminate. }
    apply StronglySorted_inv in Ho1 as [Ho1 Hx1].
    apply StronglySorted_inv in Ho2 as [Ho2 Hx2].
    rewrite Forall_forall in Hx1, Hx2.
    assert (H21 : less x2 x1 = false).
    { assert (Hin : In x2 (x1 :: t1))
        by (eapply Permutation_in;
            [apply Permutation_sym; exact Hperm|now left]).
      destruct Hin as [->|Hin]; [apply less_irrefl|].
      apply Hx1. now apply list_elem_of_In. }
    assert (H12 : less x1 x2 = false).
    { assert (Hin : In x1 (x2 :: t2))
        by (eapply Permutation_in; [exact Hperm|now left]).
      destruct Hin as [->|Hin]; [apply less_irrefl|].
      apply Hx2. now apply list_elem_of_In. }
    set (p := fun a => negb (less a x1) && negb (less x1 a)).
    assert (Hp : forall a b, p a = true -> p b = true -> less a b = false).
    { intros a b [Ha1 Ha2]%andb_prop [Hb1 Hb2]%andb_prop.
      apply negb_true_iff in Ha1, Ha2, Hb1, Hb2.
      now apply (geq_trans a x1 b). }
    assert (Hx : x1 = x2).
    { pose proof (Hst p Hp) as Hf. cbn [List.filter] in Hf.
      assert (Hp1 : p x1 = true) by (unfold p; now rewrite less_irrefl).
      assert (Hp2 : p x2 = true) by (unfold p; now rewrite H21, H12).
      rewrite Hp1, Hp2 in Hf. congruence. }
    subst x2. f_equal. apply IH.
    + eapply Permutation_cons_inv. exact Hperm.
    + exact Ho1.
    + exact Ho2.
    + intros q Hq. pose proof (Hst q Hq) as Hf. cbn [List.filter] in Hf.
      destruct (q x1); congruence.
Qed.

(** Every stable sort returns what [SliceStable] returns. *)
Lemma stable_sort_unique l out :
  stable_sort_of less l out -> out = SliceStable less l.
Proof.
  intros (Hperm & Hord & Hst).
  destruct (SliceStable_sorts l) as (Hperm' & Hord' & Hst').
  apply ordered_unique; [|exact Hord|exact Hord'|].
  - now rewrite <- Hperm.
  - intros p Hp. now rewrite Hst, Hst'.
Qed.

End SortFacts.

(** ** The registry *)

Ltac run :=
  unfold outcome, final;
  cbv beta iota delta
    [mbind mret Prog_bind Prog_ret get exit panic ended
     Deadigations.emit Deadigations.set_registry Deadigations.set_fs
     Deadigations.set_database Deadigations.Println Deadigations.Printf
     Deadigations.Fatal Deadigations.Fatalf Deadigations.deref
     Deadigations.index Deadigations.alloc Deadigations.set_instance
     Deadigations.set_once Deadigations.once_Do Deadigations.construct
     Deadigations.engine_run Deadigations.Close
     Standalone.emit Standalone.set_database Standalone.Println
     Standalone.deref Standalone.store_registry Standalone.engine_run];
  cbn [Deadigations.registeredMigrations Deadigations.once
       Deadigations.instance Deadigations.heap Deadigations.fs
       Deadigations.database Deadigations.clock Deadigations.trace
       Standalone.heap Standalone.database Standalone.trace fst snd].

#[global] Arguments GoString.Sprintf : simpl never.
#[global] Arguments GoTime.Format : simpl never.

Section RegistryFacts.
Variable E : Env.
Import Deadigations.

Lemma RegisterMigration_eq (x : Migration (Action E)) (w : World E) :
  RegisterMigration E x w =
  (Ret tt,
   mkWorld E
     (registeredMigrations E w ++
      [mkGormMigration (ID x) (Migrate x) (Rollback x)])
     (once E w) (instance E w) (heap E w) (fs E w) (database E w)
     (clock E w) (trace E w)).
Proof. reflexivity. Qed.

Lemma RegisterAll_eq (xs : list (Migration (Action E))) : forall w,
  RegisterAll E xs w =
  (Ret tt,
   mkWorld E
     (registeredMigrations E w ++
      map (fun x => mkGormMigration (ID x) (Migrate x) (Rollback x)) xs)
     (once E w) (instance E w) (heap E w) (fs E w) (database E w)
     (clock E w) (trace E w)).
Proof.
  induction xs as [|x xs IH]; intros w; cbn [RegisterAll map].
  - rewrite app_nil_r. now destruct w.
  - unfold mbind, Prog_bind. rewrite RegisterMigration_eq, IH. cbn.
    now rewrite <- app_assoc.
Qed.

End RegistryFacts.

Section RegistryClaims.
Variable E : Env.
Import Deadigations.

(** C8. [RegisterMigration] appends exactly one entry, built from the
    descriptor, to the end of the registry: the call returns for every
    registry and every descriptor (there is no check of the identifier,
    be it empty or registered before), the entries registered before stay
    where they were, and nothing else in the state changes. *)
Theorem RegisterMigration_appends (x : Migration (Action E)) (w : World E) :
  let entry := mkGormMigration (ID x) (Migrate x) (Rollback x) in
  let w' := final (RegisterMigration E x) w in
  outcome (RegisterMigration E x) w = Ret tt /\
  registeredMigrations E w' = registeredMigrations E w ++ [entry] /\
  length (registeredMigrations E w') = S (length (registeredMigrations E w)) /\
  take (length (registeredMigrations E w)) (registeredMigrations E w')
    = registeredMigrations E w /\
  registeredMigrations E w' !! length (registeredMigrations E w)
    = Some entry /\
  (once E w', instance E w', heap E w', fs E w', database E w', clock E w',
   trace E w')
  = (once E w, instance E w, heap E w, fs E w, database E w, clock E w,
     trace E w).
Proof.
  cbn zeta. unfold outcome, final. rewrite RegisterMigration_eq. cbn.
  repeat split.
  - rewrite length_app. cbn. lia.
  - now rewrite take_app_length.
  - now rewrite list_lookup_middle.
Qed.

(** C9. The [Description] of a descriptor is discarded: descriptors that
    differ only in it leave the same registry entry, and after two runs of
    registrations that differ only in descriptions [MigrateUp] and
    [MigrateDown] behave alike: same result, same final state, same calls
    of the engine. *)
Theorem Description_noninterference
    (xs ys : list (Migration (Action E))) (m : option nat) (w : World E) :
  Forall2 same_but_description xs ys ->
  (forall x y, same_but_description x y ->
     RegisterMigration E x w = RegisterMigration E y w) /\
  (RegisterAll E xs ;; MigrateUp E m) w
    = (RegisterAll E ys ;; MigrateUp E m) w /\
  (RegisterAll E xs ;; MigrateDown E m) w
    = (RegisterAll E ys ;; MigrateDown E m) w.
Proof.
  intros H.
  assert (Hmap :
    map (fun x : Migration (Action E) =>
           mkGormMigration (ID x) (Migrate x) (Rollback x)) xs
    = map (fun x => mkGormMigration (ID x) (Migrate x) (Rollback x)) ys).
  { induction H as [|x y xs ys (Hi & Hm & Hr) _ IH]; cbn; [reflexivity|].
    now rewrite Hi, Hm, Hr, IH. }
  split; [|split].
  - intros x y (Hi & Hm & Hr). rewrite !RegisterMigration_eq.
    now rewrite Hi, Hm, Hr.
  - unfold mbind, Prog_bind. now rewrite !RegisterAll_eq, Hmap.
  - unfold mbind, Prog_bind. now rewrite !RegisterAll_eq, Hmap.
Qed.

End RegistryClaims.

(** ** Apply and roll back on the package registry *)

Section EngineClaims.
Variable E : Env.
Import Deadigations.

Lemma traced_events (w : World E) es :
  engine_events (trace E (traced E w es))
  = engine_events (trace E w) ++ engine_events es.
Proof. unfold engine_events. cbn. apply omap_app. Qed.

(** C2. With no migration registered [MigrateUp] and [MigrateDown] return
    nil; all they do is log one line, so the engine is neither built nor
    run, whatever the receiver is. *)
Theorem empty_registry_no_engine (m : option nat) (w : World E) :
  registeredMigrations E w = [] ->
  MigrateUp E m w
    = (Ret None, traced E w [EvPrint "No migrations registered"]) /\
  MigrateDown E m w
    = (Ret None, traced E w [EvPrint "No migrations registered"]) /\
  engine_events (trace E (final (MigrateUp E m) w))
    = engine_events (trace E w) /\
  engine_events (trace E (final (MigrateDown E m) w))
    = engine_events (trace E w).
Proof.
  intros Hreg.
  assert (Hup : MigrateUp E m w
    = (Ret None, traced E w [EvPrint "No migrations registered"])).
  { unfold MigrateUp. run. now rewrite Hreg. }
  assert (Hdown : MigrateDown E m w
    = (Ret None, traced E w [EvPrint "No migrations registered"])).
  { unfold MigrateDown. run. now rewrite Hreg. }
  unfold final. rewrite Hup, Hdown. cbn [snd].
  rewrite traced_events. cbn. rewrite app_nil_r. auto.
Qed.

(** The state after the engine has run on [ms]. *)
Lemma engine_run_eq (rollback : bool) d o ms (w : World E) :
  engine_run E rollback d o ms w =
  let r := (if rollback then engine_RollbackLast E else engine_Migrate E)
             d o ms (database E w) in
  (snd r,
   mkWorld E (registeredMigrations E w) (once E w) (instance E w)
     (heap E w) (fs E w) (fst r) (clock E w)
     (trace E w ++
      [EvNew d o ms;
       if rollback then EvRollbackLast d o ms else EvMigrate d o ms])).
Proof.
  unfold engine_run. run. cbn. now rewrite <- app_assoc.
Qed.

(** With a registry that is not empty, [MigrateUp] and [MigrateDown] hand
    the registry to the engine as it stands. *)
Lemma Migrate_eq (rollback : bool) (p : nat) t (w : World E) :
  registeredMigrations E w <> [] ->
  heap E w !! p = Some t ->
  let ms := registeredMigrations E w in
  let r := (if rollback then engine_RollbackLast E else engine_Migrate E)
             (db E t) (options E t) ms (database E w) in
  (if rollback then MigrateDown E (Some p) else MigrateUp E (Some p)) w =
  (snd r,
   mkWorld E ms (once E w) (instance E w) (heap E w) (fs E w) (fst r)
     (clock E w)
     (trace E w ++
      [EvNew (db E t) (options E t) ms;
       if rollback then EvRollbackLast (db E t) (options E t) ms
       else EvMigrate (db E t) (options E t) ms] ++
      match snd r with
      | Ret None =>
          [EvPrint (if rollback
                    then "Last migration rolled back successfully!"
                    else "Migrations applied successfully!")]
      | _ => []
      end)).
Proof.
  intros Hne Hp. cbn zeta.
  destruct (registeredMigrations E w) as [|g gs] eqn:Hreg; [congruence|].
  destruct rollback; unfold MigrateDown, MigrateUp; run;
    rewrite Hreg; cbn [length Nat.eqb]; rewrite Hp; cbn;
    match goal with
    | |- context [snd (?f ?a ?b ?c ?d)] =>
        destruct (f a b c d) as [s [[e|]| |]]
    end; cbn; rewrite <- ?app_assoc; cbn; rewrite ?app_nil_r, ?Hreg;
    reflexivity.
Qed.

End EngineClaims.

(** ** The singleton constructor *)

Section SingletonClaims.
Variable E : Env.
Import Deadigations.

(** A call that returns leaves [once] set and returns [instance]. *)
Lemma NewMigrationTool_returns dsn (w w1 : World E) p :
  NewMigrationTool E dsn w = (Ret p, w1) ->
  once E w1 = true /\ instance E w1 = p.
Proof.
  unfold NewMigrationTool. run.
  destruct (once E w) eqn:Ho; cbn.
  - intros [= <- <-]. auto.
  - destruct (gorm_Open E dsn) as [d|e]; cbn; [|discriminate].
    intros [= <- <-]. auto.
Qed.

(** A call on a state in which [once] is set changes nothing. *)
Lemma NewMigrationTool_done dsn (w : World E) :
  once E w = true -> NewMigrationTool E dsn w = (Ret (instance E w), w).
Proof. intros Ho. unfold NewMigrationTool. run. now rewrite Ho. Qed.

(** C3. [NewMigrationTool] is a singleton constructor. If a first call
    with [dsn1] returns, a second call with any [dsn2] returns the same
    pointer and leaves the whole state as it is: the heap of tool objects
    (so the instance's fields) and the trace (so no connection is
    opened). When the first call is the first of the process, it opens
    exactly one connection, with [dsn1], and the instance it allocates
    holds that connection and the fixed options. *)
Theorem NewMigrationTool_singleton dsn1 dsn2 (w w1 : World E) p :
  NewMigrationTool E dsn1 w = (Ret p, w1) ->
  NewMigrationTool E dsn2 w1 = (Ret p, w1) /\
  opened (trace E (final (NewMigrationTool E dsn2) w1))
    = opened (trace E w1) /\
  (once E w = false ->
   exists d,
     gorm_Open E dsn1 = inl d /\
     p = Some (length (heap E w)) /\
     heap E w1 = heap E w ++ [mkTool E d default_options] /\
     opened (trace E w1) = opened (trace E w) ++ [dsn1]).
Proof.
  intros H1. destruct (NewMigrationTool_returns _ _ _ _ H1) as [Ho Hi].
  assert (H2 : NewMigrationTool E dsn2 w1 = (Ret p, w1)).
  { rewrite NewMigrationTool_done by exact Ho. now rewrite Hi. }
  split; [exact H2|]. split.
  - unfold final. now rewrite H2.
  - intros Hw. revert H1. unfold NewMigrationTool. run. rewrite Hw. cbn.
    destruct (gorm_Open E dsn1) as [d|e]; cbn; [|discriminate].
    intros [= <- <-]. exists d. cbn. repeat split.
    unfold opened. now rewrite omap_app.
Qed.

End SingletonClaims.

(** ** The dispatcher *)

Section DispatcherClaims.
Variable E : Env.
Import Deadigations.

(** C7. [Run] with [-create] or [-create-tx] and fewer than three
    arguments ends the process with the usage message of the command:
    the only thing that happens is the fatal log, so no directory is
    made, no file is created or written, and the file system is as it
    was. *)
Theorem Run_create_without_name (m : option nat) (args : list string)
    (w : World E) :
  length args < 3 ->
  args !! 1 = Some "-create" \/ args !! 1 = Some "-create-tx" ->
  let msg :=
    if String.eqb (default "" (args !! 1)) "-create"
    then "Please provide a name for the migration"
    else "Please provide a name for the transaction migration" in
  Run E m args w = (Exit, traced E w [EvFatal msg]) /\
  fs E (final (Run E m args) w) = fs E w /\
  fs_events (trace E (final (Run E m args) w)) = fs_events (trace E w).
Proof.
  intros Hlen Hcmd. cbn zeta.
  assert (Hrun : Run E m args w =
    (Exit, traced E w [EvFatal
       (if String.eqb (default "" (args !! 1)) "-create"
        then "Please provide a name for the migration"
        else "Please provide a name for the transaction migration")])).
  { destruct args as [|a0 [|a1 [|a2 rest]]]; cbn in Hlen, Hcmd;
      try lia; try (destruct Hcmd; discriminate).
    destruct Hcmd as [[= ->]|[= ->]]; reflexivity. }
  rewrite Hrun. unfold final. rewrite Hrun. cbn.
  split; [reflexivity|]. split; [reflexivity|].
  unfold fs_events. rewrite omap_app. cbn. now rewrite app_nil_r.
Qed.

(** C10. [Run] without a subcommand logs the usage hint and returns: the
    process goes on and nothing but the log changes. [Run] with a
    subcommand that is none of the four ends the process with a fatal
    log. *)
Theorem Run_missing_or_unknown (m : option nat) (args : list string)
    (w : World E) :
  (length args < 2 ->
   Run E m args w =
   (Ret tt,
    traced E w
      [EvPrint
         "No command provided. Use -up, -down, -create, or -create-tx"])) /\
  (forall cmd,
     args !! 1 = Some cmd ->
     cmd <> "-up" -> cmd <> "-down" -> cmd <> "-create" ->
     cmd <> "-create-tx" ->
     Run E m args w =
     (Exit,
      traced E w
        [EvFatal
           "Invalid command. Use -up, -down, -create, or -create-tx"])).
Proof.
  split.
  - intros Hlen. destruct args as [|a0 [|a1 rest]]; cbn in Hlen; try lia;
      reflexivity.
  - intros cmd Hcmd Hup Hdown Hcreate Htx.
    destruct args as [|a0 [|a1 rest]]; cbn in Hcmd; try discriminate.
    injection Hcmd as ->. unfold Run. cbn [length Nat.ltb Nat.leb].
    run. cbn [lookup list_lookup].
    apply String.eqb_neq in Hup, Hdown, Hcreate, Htx.
    now rewrite Hup, Hdown, Hcreate, Htx.
Qed.

End DispatcherClaims.

(** ** Strings, the timestamp and [Sprintf] *)

Section StringFacts.
Import GoString GoTime.

Lemma length_app s t :
  String.length (s +:+ t) = String.length s + String.length t.
Proof. induction s as [|c s IH]; cbn; [reflexivity|]. now rewrite <- IH. Qed.

Lemma app_assoc_s (s t u : string) : (s +:+ t) +:+ u = s +:+ (t +:+ u).
Proof.
  induction s as [|c s IH]; [reflexivity|].
  change (String c ((s +:+ t) +:+ u) = String c (s +:+ (t +:+ u))).
  now rewrite IH.
Qed.

Lemma app_nil_r_s (s : string) : s +:+ "" = s.
Proof.
  induction s as [|c s IH]; [reflexivity|].
  change (String c (s +:+ "") = String c s). now rewrite IH.
Qed.

Lemma all_digits_app s t :
  all_digits (s +:+ t) = all_digits s && all_digits t.
Proof.
  induction s as [|c s IH]; [reflexivity|].
  change (is_digit c && all_digits (s +:+ t)
          = is_digit c && all_digits s && all_digits t).
  rewrite IH. now destruct (is_digit c).
Qed.

Lemma count_char_app c s t :
  count_char c (s +:+ t) = count_char c s + count_char c t.
Proof.
  induction s as [|d s IH]; [reflexivity|].
  change ((if Ascii.eqb d c then 1 else 0) + count_char c (s +:+ t)
          = (if Ascii.eqb d c then 1 else 0) + count_char c s
            + count_char c t).
  rewrite IH. lia.
Qed.

(** A string of digits holds no other character. *)
Lemma all_digits_count c s :
  is_digit c = false -> all_digits s = true -> count_char c s = 0.
Proof.
  intros Hc. induction s as [|d s IH]; [reflexivity|]. cbn.
  intros [Hd Hs]%andb_prop. rewrite (IH Hs).
  destruct (Ascii.eqb_spec d c) as [->|_]; [congruence|reflexivity].
Qed.

Lemma digit_is_digit u : is_digit (digit u) = true.
Proof.
  unfold is_digit, digit, nat_of_ascii.
  assert (Hr : (u mod 10 < 10)%N) by (apply N.mod_lt; discriminate).
  rewrite N_ascii_embedding by lia.
  generalize dependent (u mod 10)%N. intros r Hr.
  apply andb_true_intro. split; apply Nat.leb_le; lia.
Qed.

Lemma fixed_length w : forall u acc,
  String.length (fixed w u acc) = w + String.length acc.
Proof.
  induction w as [|w IH]; intros u acc; cbn; [reflexivity|].
  rewrite IH. cbn. lia.
Qed.

Lemma fixed_digits w : forall u acc,
  all_digits acc = true -> all_digits (fixed w u acc) = true.
Proof.
  induction w as [|w IH]; intros u acc Hacc; cbn; [exact Hacc|].
  apply IH. cbn. now rewrite digit_is_digit.
Qed.

Lemma appendInt_fixed (n : N) (w : nat) :
  (n < 10 ^ N.of_nat w)%N -> appendInt (Z.of_N n) w = fixed w n "".
Proof.
  intros Hn. unfold appendInt. rewrite Zabs2N.id.
  destruct (Z.ltb_spec (Z.of_N n) 0) as [H|_]; [lia|].
  destruct (N.ltb_spec n (10 ^ N.of_nat w)) as [_|H]; [reflexivity|lia].
Qed.

(** The timestamp of a wall clock: fourteen decimal digits. *)
Lemma Format_wall_clock t :
  wall_clock t ->
  String.length (Format t) = 14 /\ all_digits (Format t) = true.
Proof.
  intros (Hy & Hmo & Hd & Hh & Hmi & Hs). unfold Format.
  rewrite <- (Z2N.id (year t)) by lia.
  rewrite !appendInt_fixed by (cbn; lia).
  rewrite !length_app, !all_digits_app, !fixed_length.
  rewrite !fixed_digits by reflexivity. split; reflexivity.
Qed.

Lemma digit_value_digit u : Chronology.digit_value (digit u) = (u mod 10)%N.
Proof.
  unfold Chronology.digit_value, digit.
  assert (Hr : (u mod 10 < 10)%N) by (apply N.mod_lt; discriminate).
  rewrite N_ascii_embedding by lia.
  generalize dependent (u mod 10)%N. intros r Hr. lia.
Qed.

(** The timestamp of a wall clock, read as YYYYMMDDHHMMSS, is the
    reading of the clock. *)
Lemma Format_read t : wall_clock t -> Chronology.read (Format t) = t.
Proof.
  destruct t as [y mo d h mi s].
  intros (Hy & Hmo & Hd & Hh & Hmi & Hs). cbn in Hy, Hmo, Hd, Hh, Hmi, Hs.
  unfold Format. cbn [year month day hour minute second].
  remember (Z.to_N y) as yn eqn:Hyn.
  assert (Hyy : y = Z.of_N yn) by lia.
  assert (Hylt : (yn < 10000)%N) by lia. clear Hyn Hy. subst y.
  rewrite !appendInt_fixed by (cbn; lia).
  cbv beta iota delta
    [fixed String.append String.substring Chronology.read
     Chronology.decimal Chronology.decimal_from].
  rewrite !digit_value_digit.
  f_equal; [f_equal|..]; zify; Z.to_euclidean_division_equations; lia.
Qed.

(** [strings.Replace] of spaces, character by character. *)
Lemma ReplaceSpaces_length s :
  String.length (ReplaceSpaces s) = String.length s.
Proof. induction s as [|c s IH]; cbn; [reflexivity|]. now rewrite IH. Qed.

Lemma ReplaceSpaces_get s : forall i,
  String.get i (ReplaceSpaces s)
  = (fun c => if Ascii.eqb c space then underscore else c)
      <$> String.get i s.
Proof.
  induction s as [|c s IH]; intros [|i]; cbn; try reflexivity. apply IH.
Qed.

Lemma ReplaceSpaces_no_space s : count_char space (ReplaceSpaces s) = 0.
Proof.
  induction s as [|c s IH]; cbn; [reflexivity|]. rewrite IH.
  destruct (Ascii.eqb_spec c space) as [->|Hc]; [reflexivity|].
  destruct (Ascii.eqb_spec c space); [contradiction|reflexivity].
Qed.

(** The three formats of the scaffolder. *)
Lemma Sprintf_filename ts name :
  Sprintf "%s_%s.go" [ts; name] = ts +:+ "_" +:+ name +:+ ".go".
Proof. reflexivity. Qed.

Lemma Sprintf_path file :
  Sprintf "./migrator/migrations/%s" [file]
  = "./migrator/migrations/" +:+ file.
Proof.
  transitivity ("./migrator/migrations/" +:+ (file +:+ ""));
    [reflexivity|]. now rewrite app_nil_r_s.
Qed.

End StringFacts.

(** ** The scaffolder *)

Section ScaffoldFacts.
Variable E : Env.
Import GoString GoTime Deadigations.

Lemma file_path_eq t name :
  file_path t name
  = "./migrator/migrations/" +:+ Format t +:+ "_" +:+ ReplaceSpaces name
    +:+ ".go".
Proof. unfold file_path. now rewrite Sprintf_filename, Sprintf_path. Qed.

Lemma MkdirAll_eq path (w : World E) :
  MkdirAll E path w =
  match os_MkdirAll_err E (fs E w) path with
  | Some e => (Ret (Some e), traced E w [EvMkdirAll path])
  | None =>
      (Ret None,
       with_fs E w
         (mkFS (dirs (fs E w) ∪ list_to_set (parents "" path))
            (files (fs E w)))
         [EvMkdirAll path])
  end.
Proof.
  unfold MkdirAll. run. now destruct (os_MkdirAll_err E (fs E w) path).
Qed.

Lemma Create_eq path (w : World E) :
  Create E path w =
  match os_Create_err E (fs E w) path with
  | Some e => (Ret (Some e), traced E w [EvCreate path])
  | None =>
      (Ret None,
       with_fs E w (mkFS (dirs (fs E w)) (<[path := ""]> (files (fs E w))))
         [EvCreate path])
  end.
Proof.
  unfold Create. run. now destruct (os_Create_err E (fs E w) path).
Qed.

Lemma WriteString_eq path content (w : World E) :
  WriteString E path content w =
  let old := default "" (files (fs E w) !! path) in
  match os_Write_err E (fs E w) path content with
  | Some (n, e) =>
      (Ret (Some e),
       with_fs E w
         (mkFS (dirs (fs E w))
            (<[path := old +:+ String.substring 0 n content]>
               (files (fs E w))))
         [EvWriteString path content])
  | None =>
      (Ret None,
       with_fs E w
         (mkFS (dirs (fs E w)) (<[path := old +:+ content]> (files (fs E w))))
         [EvWriteString path content])
  end.
Proof.
  unfold WriteString. run.
  now destruct (os_Write_err E (fs E w) path content) as [[n e]|].
Qed.

Lemma with_fs_with_fs (w : World E) f es f' es' :
  with_fs E (with_fs E w f es) f' es' = with_fs E w f' (es ++ es').
Proof. unfold with_fs. cbn. now rewrite <- app_assoc. Qed.

Lemma traced_with_fs (w : World E) f es es' :
  traced E (with_fs E w f es) es' = with_fs E w f (es ++ es').
Proof. unfold with_fs, traced. cbn. now rewrite <- app_assoc. Qed.

Lemma bind_eq {S A B} (c : Prog S A) (f : A -> Prog S B) (w : S) :
  (c ≫= f) w =
  match c w with
  | (Ret a, w') => f a w'
  | (Exit, w') => (Exit, w')
  | (Panic, w') => (Panic, w')
  end.
Proof. reflexivity. Qed.

(** What [scaffold] does, by what the operating system answers. [fs1] is
    the file system after [os.MkdirAll], [fs2] after [os.Create]. *)
Lemma scaffold_eq template logfmt name (w : World E) :
  let path := file_path (clock E w) name in
  let content := Sprintf template [Format (clock E w)] in
  let fs1 :=
    mkFS (dirs (fs E w) ∪ list_to_set (parents "" migrations_dir))
      (files (fs E w)) in
  let fs2 := mkFS (dirs fs1) (<[path := ""]> (files fs1)) in
  scaffold E template logfmt name w =
  match os_MkdirAll_err E (fs E w) migrations_dir with
  | Some e => (Ret (Some e), traced E w [EvMkdirAll migrations_dir])
  | None =>
      match os_Create_err E fs1 path with
      | Some e =>
          (Ret (Some e),
           with_fs E w fs1 [EvMkdirAll migrations_dir; EvCreate path])
      | None =>
          match os_Write_err E fs2 path content with
          | Some (n, e) =>
              (Ret (Some e),
               with_fs E w
                 (mkFS (dirs fs1)
                    (<[path := String.substring 0 n content]> (files fs1)))
                 [EvMkdirAll migrations_dir; EvCreate path;
                  EvWriteString path content; EvClose path])
          | None =>
              (Ret None,
               with_fs E w
                 (mkFS (dirs fs1) (<[path := content]> (files fs1)))
                 [EvMkdirAll migrations_dir; EvCreate path;
                  EvWriteString path content;
                  EvPrint (Sprintf logfmt [path]); EvClose path])
          end
      end
  end.
Proof.
  cbn zeta. unfold scaffold, file_path, migrations_dir.
  rewrite bind_eq. unfold get at 1. cbv beta iota zeta.
  set (path := Sprintf "./migrator/migrations/%s" _).
  set (dir := "./migrator/migrations").
  set (content := Sprintf template _).
  rewrite bind_eq, MkdirAll_eq.
  destruct (os_MkdirAll_err E (fs E w) dir) as [e|]; [reflexivity|].
  rewrite bind_eq, Create_eq. cbn [fs with_fs dirs files].
  destruct (os_Create_err E _ _) as [e|].
  { unfold mret, Prog_ret. now rewrite traced_with_fs. }
  rewrite with_fs_with_fs, bind_eq, WriteString_eq.
  cbn [fs with_fs dirs files]. rewrite lookup_insert_eq. cbn [default].
  destruct (os_Write_err E _ _ _) as [[n e]|].
  - rewrite with_fs_with_fs, insert_insert_eq.
    unfold Close. run. unfold with_fs. cbn [trace].
    rewrite <- !app_assoc. reflexivity.
  - rewrite with_fs_with_fs, insert_insert_eq.
    unfold Close. run. unfold with_fs. cbn [trace].
    rewrite <- !app_assoc. reflexivity.
Qed.

End ScaffoldFacts.

Section ScaffoldClaims.
Variable E : Env.
Import GoString GoTime Deadigations.

Lemma Create_scaffold tx m name :
  Create_ E tx m name =
  scaffold E (template_ tx)
    (if tx then "Transaction migration file created: %s"
     else "Migration file created: %s") name.
Proof. now destruct tx. Qed.

(** C4. For a wall clock and every name, both scaffolding methods create
    the file [<timestamp>_<name>.go] in the migrations directory: the
    timestamp is the clock reading as fourteen decimal digits, which read
    as YYYYMMDDHHMMSS (four digits of year, then two each of month, day,
    hour, minute and second) give back the clock reading at the call, and
    the name is copied character by character, a space becoming an
    underscore and every other character staying as it is. The file is
    the one and only file the call creates, as soon as the directory could
    be made, and it is the file that holds the content when the call
    succeeds. *)
Theorem scaffold_filename (tx : bool) (m : option nat) (name : string)
    (w : World E) :
  wall_clock (clock E w) ->
  let ts := Format (clock E w) in
  let slug := ReplaceSpaces name in
  let path := "./migrator/migrations/" +:+ ts +:+ "_" +:+ slug +:+ ".go" in
  let w' := final (Create_ E tx m name) w in
  String.length ts = 14 /\ all_digits ts = true /\
  Chronology.read ts = clock E w /\
  String.length slug = String.length name /\
  (forall i,
     String.get i slug
     = (fun c => if Ascii.eqb c space then underscore else c)
         <$> String.get i name) /\
  (os_MkdirAll_err E (fs E w) migrations_dir = None ->
   created (trace E w') = created (trace E w) ++ [path]) /\
  (outcome (Create_ E tx m name) w = Ret None ->
   files (fs E w') !! path = Some (Sprintf (template_ tx) [ts])).
Proof.
  intros Hclock. cbn zeta.
  destruct (Format_wall_clock _ Hclock) as [Hlen Hdig].
  split; [exact Hlen|]. split; [exact Hdig|].
  split; [exact (Format_read _ Hclock)|].
  split; [apply ReplaceSpaces_length|].
  split; [apply ReplaceSpaces_get|].
  rewrite <- file_path_eq. unfold outcome, final.
  rewrite Create_scaffold, scaffold_eq. cbn zeta.
  destruct (os_MkdirAll_err E (fs E w) migrations_dir) as [e|].
  { split; [discriminate|]. cbn. discriminate. }
  destruct (os_Create_err E _ _) as [e|].
  { split; [|cbn; discriminate]. intros _. unfold created. cbn.
    now rewrite omap_app. }
  destruct (os_Write_err E _ _ _) as [[n e]|].
  { split; [|cbn; discriminate]. intros _. unfold created. cbn.
    now rewrite omap_app. }
  split; intros _.
  - unfold created. cbn. now rewrite omap_app.
  - cbn. apply lookup_insert_eq.
Qed.

(** C6, as the code has it. Both scaffolding methods return the error of
    the operating system when the directory cannot be made, when the file
    cannot be created ([fs1] is the file system once the directory
    exists) or when the content cannot be written ([fs2] is the file
    system once the file is created). A file that exists at the path is
    no error of its own: when the operating system reports none, the call
    returns nil and the file holds the new content and nothing of what it
    held before. *)
Theorem scaffold_errors (tx : bool) (m : option nat) (name : string)
    (w : World E) :
  let path := file_path (clock E w) name in
  let content := Sprintf (template_ tx) [Format (clock E w)] in
  let fs1 :=
    mkFS (dirs (fs E w) ∪ list_to_set (parents "" migrations_dir))
      (files (fs E w)) in
  let fs2 := mkFS (dirs fs1) (<[path := ""]> (files fs1)) in
  let c := Create_ E tx m name in
  (forall e,
     os_MkdirAll_err E (fs E w) migrations_dir = Some e ->
     outcome c w = Ret (Some e) /\ fs E (final c w) = fs E w) /\
  (forall e,
     os_MkdirAll_err E (fs E w) migrations_dir = None ->
     os_Create_err E fs1 path = Some e ->
     outcome c w = Ret (Some e) /\
     files (fs E (final c w)) = files (fs E w)) /\
  (forall n e,
     os_MkdirAll_err E (fs E w) migrations_dir = None ->
     os_Create_err E fs1 path = None ->
     os_Write_err E fs2 path content = Some (n, e) ->
     outcome c w = Ret (Some e) /\
     files (fs E (final c w)) !! path
       = Some (String.substring 0 n content)) /\
  (os_MkdirAll_err E (fs E w) migrations_dir = None ->
   os_Create_err E fs1 path = None ->
   os_Write_err E fs2 path content = None ->
   outcome c w = Ret None /\
   files (fs E (final c w)) = <[path := content]> (files (fs E w)) /\
   files (fs E (final c w)) !! path = Some content).
Proof.
  cbn zeta. unfold outcome, final. rewrite Create_scaffold, scaffold_eq.
  cbn zeta. split; [|split; [|split]].
  - intros e Hm. now rewrite Hm.
  - intros e Hm Hc. now rewrite Hm, Hc.
  - intros n e Hm Hc Hw. rewrite Hm, Hc, Hw. cbn.
    split; [reflexivity|apply lookup_insert_eq].
  - intros Hm Hc Hw. rewrite Hm, Hc, Hw. cbn.
    split; [reflexivity|]. split; [reflexivity|apply lookup_insert_eq].
Qed.

End ScaffoldClaims.

(** ** The text of the generated files *)

Section ContentFacts.
Import GoString GoTime Templates Generated.

Lemma split_lines_nonempty s : split_lines s <> [].
Proof.
  destruct s as [|c s]; cbn; [discriminate|].
  destruct (Ascii.eqb c (ascii_of_nat 10)); [discriminate|].
  destruct (split_lines s); discriminate.
Qed.

(** Splitting a text that starts with a piece free of newlines. *)
Lemma split_lines_app ts post :
  count_char (ascii_of_nat 10) ts = 0 ->
  split_lines (ts +:+ post)
  = (ts +:+ hd "" (split_lines post)) :: tl (split_lines post).
Proof.
  induction ts as [|c ts IH]; intros Hts.
  - change ("" +:+ post) with post.
    change ("" +:+ hd "" (split_lines post)) with (hd "" (split_lines post)).
    pose proof (split_lines_nonempty post).
    now destruct (split_lines post).
  - cbn in Hts.
    change (String c ts +:+ post) with (String c (ts +:+ post)).
    cbn [split_lines].
    destruct (Ascii.eqb c (ascii_of_nat 10)); [discriminate|].
    now rewrite IH by exact Hts.
Qed.

(** Splitting a text at a known prefix. *)
Lemma split_lines_cons c s :
  split_lines (String c s) =
  if Ascii.eqb c (ascii_of_nat 10) then "" :: split_lines s
  else String c (hd "" (split_lines s)) :: tl (split_lines s).
Proof.
  cbn [split_lines]. pose proof (split_lines_nonempty s).
  now destruct (split_lines s).
Qed.

(** Splitting a text made of two pieces. *)
Lemma split_lines_append a b :
  split_lines (a +:+ b)
  = List.removelast (split_lines a) ++
    (List.last (split_lines a) "" +:+ hd "" (split_lines b))
    :: tl (split_lines b).
Proof.
  induction a as [|c a IH].
  - change ("" +:+ b) with b. cbn.
    change ("" +:+ hd "" (split_lines b)) with (hd "" (split_lines b)).
    pose proof (split_lines_nonempty b). now destruct (split_lines b).
  - change (String c a +:+ b) with (String c (a +:+ b)).
    rewrite !split_lines_cons, IH.
    pose proof (split_lines_nonempty a) as Ha.
    destruct (Ascii.eqb c (ascii_of_nat 10)).
    + destruct (split_lines a) as [|l ls]; [contradiction|]. reflexivity.
    + destruct (split_lines a) as [|l [|l2 ls]]; [contradiction| |];
        reflexivity.
Qed.

(** The lines of the two generated files: those of the template, with
    the timestamp on the tenth. *)
Lemma plain_lines ts :
  count_char (ascii_of_nat 10) ts = 0 ->
  split_lines (Sprintf migrationTemplate [ts])
  = <[9 := ID_line ts]> migrationTemplate_lines.
Proof.
  intros Hts.
  assert (Hc : Sprintf migrationTemplate [ts]
               = String.substring 0 174 migrationTemplate +:+
                 (ts +:+ String.substring 176 297 migrationTemplate))
    by reflexivity.
  rewrite Hc, split_lines_append, split_lines_app by exact Hts.
  reflexivity.
Qed.

Lemma transaction_lines ts :
  count_char (ascii_of_nat 10) ts = 0 ->
  split_lines (Sprintf transactionMigrationTemplate [ts])
  = <[9 := ID_line ts]> transactionMigrationTemplate_lines.
Proof.
  intros Hts.
  assert (Hc : Sprintf transactionMigrationTemplate [ts]
               = String.substring 0 174 transactionMigrationTemplate +:+
                 (ts +:+
                  String.substring 176 1013 transactionMigrationTemplate))
    by reflexivity.
  rewrite Hc, split_lines_append, split_lines_app by exact Hts.
  reflexivity.
Qed.

End ContentFacts.

Section ContentClaims.
Variable E : Env.
Import GoString GoTime Templates Generated Deadigations.

(** C5. When the file can be created, [CreateMigrationFile] writes one
    text to it. The text holds exactly one call of [RegisterMigration];
    its [ID] field is the timestamp, fourteen digits between quotes; the
    bodies of [Migrate] and of [Rollback] hold, besides a comment, the
    single statement [return nil]. The text written by
    [CreateTransactionMigrationFile] has the same call and the same [ID]
    field; the bodies of [Migrate] and of [Rollback] are each a call of
    [tx.Transaction] on a function literal, followed by [return err], and
    that function literal holds two placeholder operations and then
    [return nil]. *)
Theorem generated_content (m : option nat) (name : string) (w : World E) :
  let ts := Format (clock E w) in
  let path := file_path (clock E w) name in
  let fs1 :=
    mkFS (dirs (fs E w) ∪ list_to_set (parents "" migrations_dir))
      (files (fs E w)) in
  wall_clock (clock E w) ->
  os_MkdirAll_err E (fs E w) migrations_dir = None ->
  os_Create_err E fs1 path = None ->
  exists plain tx,
    written (trace E (final (CreateMigrationFile E m name) w))
      = written (trace E w) ++ [(path, plain)] /\
    written (trace E (final (CreateTransactionMigrationFile E m name) w))
      = written (trace E w) ++ [(path, tx)] /\
    String.length ts = 14 /\ all_digits ts = true /\
    let P := split_lines plain in
    let T := split_lines tx in
    let call := ind 1 "deadigations.RegisterMigration(deadigations.Migration{" in
    let wrapped name :=
      body name T
      = [ind 3 "// Begin transaction";
         ind 3 "err := tx.Transaction(func(tx *gorm.DB) error {"] ++
        transaction (body name T) ++ [ind 3 "})"; ind 3 "return err"] in
    registration_calls P = [call] /\
    field "ID" P = Some (dq +:+ ts +:+ dq +:+ ",") /\
    statements (body "Migrate" P) = ["return nil"] /\
    statements (body "Rollback" P) = ["return nil"] /\
    registration_calls T = [call] /\
    field "ID" T = Some (dq +:+ ts +:+ dq +:+ ",") /\
    wrapped "Migrate" /\ wrapped "Rollback" /\
    statements_at 4 (transaction (body "Migrate" T))
    = ["if err := tx.Exec(" +:+ dq +:+ "/* first operation SQL */" +:+ dq
         +:+ ").Error; err != nil {";
       "if err := tx.Exec(" +:+ dq +:+ "/* second operation SQL */" +:+ dq
         +:+ ").Error; err != nil {";
       "return nil"] /\
    statements_at 4 (transaction (body "Rollback" T))
    = ["if err := tx.Exec(" +:+ dq +:+ "/* first rollback SQL */" +:+ dq
         +:+ ").Error; err != nil {";
       "if err := tx.AutoMigrate(&Product{}); err != nil {";
       "return nil"].
Proof.
  cbn zeta. intros Hclock Hmk Hcr.
  destruct (Format_wall_clock _ Hclock) as [Hlen Hdig].
  assert (Hnl : count_char (ascii_of_nat 10) (Format (clock E w)) = 0)
    by (apply all_digits_count; [reflexivity|exact Hdig]).
  exists (Sprintf migrationTemplate [Format (clock E w)]),
         (Sprintf transactionMigrationTemplate [Format (clock E w)]).
  split; [|split].
  - unfold final, CreateMigrationFile. rewrite scaffold_eq. cbn zeta.
    rewrite Hmk, Hcr. unfold written.
    destruct (os_Write_err E _ _ _) as [[n e]|]; cbn;
      now rewrite omap_app.
  - unfold final, CreateTransactionMigrationFile. rewrite scaffold_eq.
    cbn zeta. rewrite Hmk, Hcr. unfold written.
    destruct (os_Write_err E _ _ _) as [[n e]|]; cbn;
      now rewrite omap_app.
  - split; [exact Hlen|]. split; [exact Hdig|].
    rewrite plain_lines, transaction_lines by exact Hnl.
    generalize (Format (clock E w)). intros ts.
    repeat split; vm_compute; reflexivity.
Qed.

End ContentClaims.

(** ** The order in which the engine receives the migrations *)


Section OrderFacts.
Variable E : Env.

Lemma less_up_asym (a b : GormMigration (Action E)) :
  less_up a b = true -> less_up b a = false.
Proof. apply lt_asym. Qed.

Lemma less_up_geq_trans (a b c : GormMigration (Action E)) :
  less_up a b = false -> less_up b c = false -> less_up a c = false.
Proof. apply ge_trans. Qed.

Lemma less_down_asym (a b : GormMigration (Action E)) :
  less_down a b = true -> less_down b a = false.
Proof. apply lt_asym. Qed.

Lemma less_down_geq_trans (a b c : GormMigration (Action E)) :
  less_down a b = false -> less_down b c = false -> less_down a c = false.
Proof. unfold less_down. intros H1 H2. exact (ge_trans _ _ _ H2 H1). Qed.

Lemma sorted_up (ms : list (GormMigration (Action E))) :
  GoSort.stable_sort_of less_up ms (GoSort.SliceStable less_up ms).
Proof.
  split; [apply SliceStable_perm|]. split.
  - apply SliceStable_ordered; [apply less_up_asym|apply less_up_geq_trans].
  - intros p Hp. now apply SliceStable_stable.
Qed.

Lemma sorted_down (ms : list (GormMigration (Action E))) :
  GoSort.stable_sort_of less_down ms (GoSort.SliceStable less_down ms).
Proof.
  split; [apply SliceStable_perm|]. split.
  - apply SliceStable_ordered;
      [apply less_down_asym|apply less_down_geq_trans].
  - intros p Hp. now apply SliceStable_stable.
Qed.

(** The stand-alone tool sorts the registry it holds, in place, and
    hands the sorted registry to the engine. *)
Lemma Standalone_Migrate_eq (rollback : bool) (p : nat) t
    (w : Standalone.World E) :
  Standalone.heap E w !! p = Some t ->
  Standalone.registeredMigrations E t <> [] ->
  let ms :=
    GoSort.SliceStable (if rollback then less_down else less_up)
      (Standalone.registeredMigrations E t) in
  let d := Standalone.db E t in
  let o := Standalone.options E t in
  let r := (if rollback then engine_RollbackLast E else engine_Migrate E)
             d o ms (Standalone.database E w) in
  (if rollback then Standalone.MigrateDown E (Some p)
   else Standalone.MigrateUp E (Some p)) w =
  (snd r,
   Standalone.mkWorld E
     (<[p := Standalone.mkTool E d ms o]> (Standalone.heap E w)) (fst r)
     (Standalone.trace E w ++
      [EvNew d o ms;
       if rollback then EvRollbackLast d o ms else EvMigrate d o ms] ++
      match snd r with
      | Ret None =>
          [EvPrint (if rollback
                    then "Last migration rolled back successfully!"
                    else "Migrations applied successfully!")]
      | _ => []
      end)).
Proof.
  intros Hp Hne. cbn zeta.
  assert (Hlt : p < length (Standalone.heap E w))
    by (eapply lookup_lt_Some; exact Hp).
  assert (Hlen :
    Nat.eqb (length (Standalone.registeredMigrations E t)) 0 = false)
    by (destruct (Standalone.registeredMigrations E t);
        [congruence|reflexivity]).
  destruct rollback; unfold Standalone.MigrateDown, Standalone.MigrateUp;
    run; rewrite Hp, Hlen; run; rewrite Hp; run;
    rewrite list_lookup_insert_eq by exact Hlt;
    cbn [Standalone.db Standalone.options Standalone.registeredMigrations];
    [destruct (engine_RollbackLast E _ _ _ _) as [s [[e|]| |]]
    |destruct (engine_Migrate E _ _ _ _) as [s [[e|]| |]]];
    run; rewrite <- ?app_assoc; cbn [app]; rewrite ?app_nil_r;
    reflexivity.
Qed.


Lemma engine_inputs_app (tr tr' : list (Event E)) :
  engine_inputs (tr ++ tr') = engine_inputs tr ++ engine_inputs tr'.
Proof. apply omap_app. Qed.


End OrderFacts.

Section OrderClaims.
Variable E : Env.


End OrderClaims.

(** ** The claims at concrete inputs *)

Section Instances.
Import Demo.



(** C2 at the process in which nothing was registered. *)
Lemma empty_registry_no_engine_witness :
  Deadigations.registeredMigrations env ready = [] /\
  Deadigations.MigrateUp env (Some 0) ready
    = (Ret None,
       Deadigations.traced env ready [EvPrint "No migrations registered"]).
Proof.
  split; [reflexivity|].
  exact (proj1 (empty_registry_no_engine env (Some 0) ready eq_refl)).
Defined.

(** C3 at two calls with different connection strings. *)
Lemma NewMigrationTool_singleton_witness :
  Deadigations.NewMigrationTool env "host=db" (start env [])
    = (Ret (Some 0), ready) /\
  Deadigations.NewMigrationTool env "host=other" ready
    = (Ret (Some 0), ready).
Proof.
  assert (H : Deadigations.NewMigrationTool env "host=db" (start env [])
              = (Ret (Some 0), ready)) by reflexivity.
  split; [exact H|].
  exact (proj1 (NewMigrationTool_singleton env "host=db" "host=other"
                  (start env []) ready (Some 0) H)).
Defined.

(** C7 at the arguments [migrator -create]. *)
Lemma Run_create_without_name_witness :
  length ["migrator"; "-create"] < 3 /\
  Deadigations.Run env (Some 0) ["migrator"; "-create"] ready
    = (Exit,
       Deadigations.traced env ready
         [EvFatal "Please provide a name for the migration"]).
Proof.
  assert (Hlen : length ["migrator"; "-create"] < 3) by (cbn; lia).
  split; [exact Hlen|].
  exact (proj1 (Run_create_without_name env (Some 0)
                  ["migrator"; "-create"] ready Hlen
                  (or_introl eq_refl))).
Defined.

(** C10 at the arguments [migrator] and [migrator -status]. *)
Lemma Run_missing_or_unknown_witness :
  Deadigations.Run env (Some 0) ["migrator"] ready
    = (Ret tt,
       Deadigations.traced env ready
         [EvPrint
            "No command provided. Use -up, -down, -create, or -create-tx"])
  /\
  Deadigations.Run env (Some 0) ["migrator"; "-status"] ready
    = (Exit,
       Deadigations.traced env ready
         [EvFatal
            "Invalid command. Use -up, -down, -create, or -create-tx"]).
Proof.
  split.
  - apply (proj1 (Run_missing_or_unknown env (Some 0) ["migrator"] ready)).
    cbn. lia.
  - apply (proj2 (Run_missing_or_unknown env (Some 0)
                    ["migrator"; "-status"] ready) "-status");
      [reflexivity|discriminate..].
Defined.

(** C9 at two descriptors of the migration 1 with different descriptions. *)
Lemma Description_noninterference_witness :
  Forall2 same_but_description
    [mig "1" "first" 2] [mig "1" "add users" 2] /\
  (Deadigations.RegisterAll env [mig "1" "first" 2] ;;
   Deadigations.MigrateUp env (Some 0)) ready
  = (Deadigations.RegisterAll env [mig "1" "add users" 2] ;;
     Deadigations.MigrateUp env (Some 0)) ready.
Proof.
  assert (H : Forall2 same_but_description
                [mig "1" "first" 2] [mig "1" "add users" 2])
    by (repeat constructor).
  split; [exact H|].
  exact (proj1 (proj2 (Description_noninterference env _ _ (Some 0) ready H))).
Defined.

Lemma noon_wall_clock : GoTime.wall_clock noon.
Proof. unfold GoTime.wall_clock. cbn. lia. Qed.

(** C6, as the specification has it, fails: a second call in the same
    second, with the same name, finds the file of the first call in its
    way and still returns nil; the file is created again and holds the
    content of the template. *)
Lemma second_call_overwrites :
  let c := Deadigations.CreateMigrationFile env (Some 0) "add users" in
  let first := final c ready in
  let second := final c first in
  outcome c ready = Ret None /\
  Deadigations.clock env first = Deadigations.clock env ready /\
  files (Deadigations.fs env first) !! add_users
    = Some (GoString.Sprintf Templates.migrationTemplate ["20240803120005"])
  /\
  outcome c first = Ret None /\
  created (Deadigations.trace env second) = [add_users; add_users] /\
  files (Deadigations.fs env second) !! add_users
    = Some (GoString.Sprintf Templates.migrationTemplate ["20240803120005"]).
Proof.
  cbn zeta. repeat split; vm_compute; reflexivity.
Qed.

(** C6 at a file system that refuses to create files, at a full disk, and
    at one that refuses nothing. *)
Lemma scaffold_errors_witness :
  os_Create_err readonly
    (mkFS (dirs (Deadigations.fs readonly (start readonly [])) ∪
           list_to_set
             (Deadigations.parents "" Deadigations.migrations_dir))
       (files (Deadigations.fs readonly (start readonly []))))
    (Deadigations.file_path
       (Deadigations.clock readonly (start readonly [])) "add users")
    = Some "permission denied" /\
  outcome (Deadigations.Create_ readonly false None "add users")
    (start readonly [])
    = Ret (Some "permission denied") /\
  outcome (Deadigations.Create_ diskfull true None "add users")
    (start diskfull [])
    = Ret (Some "no space left on device") /\
  outcome (Deadigations.Create_ env false None "add users") (start env [])
    = Ret None.
Proof.
  split; [reflexivity|]. split; [|split].
  - exact (proj1 (proj1 (proj2 (scaffold_errors readonly false None
                                  "add users" (start readonly [])))
                    "permission denied" eq_refl eq_refl)).
  - exact (proj1 (proj1 (proj2 (proj2
                    (scaffold_errors diskfull true None "add users"
                       (start diskfull []))))
                    0 "no space left on device" eq_refl eq_refl eq_refl)).
  - exact (proj1 (proj2 (proj2 (proj2
                    (scaffold_errors env false None "add users"
                       (start env []))))
                    eq_refl eq_refl eq_refl)).
Defined.

(** C4 at the name [add users] and the clock reading [noon]. *)
Lemma scaffold_filename_witness :
  GoTime.wall_clock noon /\
  Chronology.read (GoTime.Format (Deadigations.clock env ready))
  = Deadigations.clock env ready /\
  GoTime.Format (Deadigations.clock env ready) = "20240803120005" /\
  created
    (Deadigations.trace env
       (final (Deadigations.Create_ env false (Some 0) "add users") ready))
  = created (Deadigations.trace env ready) ++
    ["./migrator/migrations/" +:+ GoTime.Format noon +:+ "_" +:+
     GoString.ReplaceSpaces "add users" +:+ ".go"] /\
  "./migrator/migrations/" +:+ GoTime.Format noon +:+ "_" +:+
  GoString.ReplaceSpaces "add users" +:+ ".go" = add_users.
Proof.
  split; [exact noon_wall_clock|].
  split; [|split; [reflexivity|split; [|reflexivity]]].
  - exact (proj1 (proj2 (proj2
             (scaffold_filename env false (Some 0) "add users" ready
                noon_wall_clock)))).
  - apply (scaffold_filename env false (Some 0) "add users" ready
             noon_wall_clock).
    reflexivity.
Defined.

(** C5 at the name [add users] and the clock reading [noon]. *)
Lemma generated_content_witness :
  GoTime.wall_clock noon /\
  exists plain tx,
    written
      (Deadigations.trace env
         (final (Deadigations.CreateMigrationFile env (Some 0) "add users")
            ready))
    = [(add_users, plain)] /\
    written
      (Deadigations.trace env
         (final
            (Deadigations.CreateTransactionMigrationFile env (Some 0)
               "add users") ready))
    = [(add_users, tx)] /\
    Generated.field "ID" (Generated.split_lines plain)
    = Some (GoString.dq +:+ "20240803120005" +:+ GoString.dq +:+ ",") /\
    Generated.statements
      (Generated.body "Migrate" (Generated.split_lines plain))
    = ["return nil"] /\
    length
      (Generated.statements_at 4
         (Generated.transaction
            (Generated.body "Rollback" (Generated.split_lines tx))))
    = 3.
Proof.
  split; [exact noon_wall_clock|].
  destruct (generated_content env (Some 0) "add users" ready
              noon_wall_clock eq_refl eq_refl)
    as (plain & tx & Hp & Ht & _ & _ & _ & Hid & Hm & _ & _ & _ & _ & _
        & _ & Hr).
  exists plain, tx. split; [exact Hp|]. split; [exact Ht|].
  split; [exact Hid|]. split; [exact Hm|]. now rewrite Hr.
Defined.

End Instances.

(** * Further properties of the code *)

(** ** Timestamps sort like the clock *)

Section ChronologyFacts.
Import GoString GoTime Chronology.

Lemma fixed_acc w : forall u acc, fixed w u acc = fixed w u "" +:+ acc.
Proof.
  induction w as [|w IH]; intros u acc; cbn [fixed]; [reflexivity|].
  rewrite (IH _ (String (digit u) acc)), (IH _ (String (digit u) "")).
  now rewrite app_assoc_s.
Qed.

(** Strings of equal length in front decide the comparison. *)
Lemma compare_app a : forall b x y,
  String.length a = String.length b ->
  String.compare (a +:+ x) (b +:+ y)
  = then_ (String.compare a b) (String.compare x y).
Proof.
  induction a as [|c a IH]; intros [|d b] x y Hlen; try discriminate.
  - reflexivity.
  - change (String.compare (String c (a +:+ x)) (String d (b +:+ y))
            = then_ (String.compare (String c a) (String d b))
                (String.compare x y)).
    cbn [String.compare]. injection Hlen as Hlen.
    destruct (Ascii.compare c d); [now apply IH|reflexivity..].
Qed.

Lemma digit_compare u v :
  Ascii.compare (digit u) (digit v) = N.compare (u mod 10) (v mod 10).
Proof.
  unfold Ascii.compare, digit.
  assert (Hu : (u mod 10 < 10)%N) by (apply N.mod_lt; discriminate).
  assert (Hv : (v mod 10 < 10)%N) by (apply N.mod_lt; discriminate).
  rewrite !N_ascii_embedding by lia.
  generalize dependent (u mod 10)%N. intros a Ha.
  generalize dependent (v mod 10)%N. intros b Hb.
  destruct (N.compare_spec a b) as [H|H|H];
    destruct (N.compare_spec (48 + a) (48 + b)); lia || reflexivity.
Qed.

Lemma compare_by_digits u v :
  N.compare u v
  = then_ (N.compare (u / 10) (v / 10)) (N.compare (u mod 10) (v mod 10)).
Proof.
  pose proof (N.div_mod u 10 ltac:(discriminate)) as Hu.
  pose proof (N.div_mod v 10 ltac:(discriminate)) as Hv.
  assert (Hru : (u mod 10 < 10)%N) by (apply N.mod_lt; discriminate).
  assert (Hrv : (v mod 10 < 10)%N) by (apply N.mod_lt; discriminate).
  generalize dependent (u mod 10)%N. intros ru Hu Hru.
  generalize dependent (v mod 10)%N. intros rv Hv Hrv.
  generalize dependent (u / 10)%N. intros qu Hu.
  generalize dependent (v / 10)%N. intros qv Hv.
  subst u v.
  destruct (N.compare_spec qu qv) as [H|H|H]; cbn [then_].
  - subst qv. destruct (N.compare_spec ru rv);
      destruct (N.compare_spec (10 * qu + ru) (10 * qu + rv));
      lia || reflexivity.
  - apply N.compare_lt_iff. lia.
  - apply N.compare_gt_iff. lia.
Qed.

(** Numbers printed with the same number of digits compare as numbers. *)
Lemma fixed_compare w : forall u v,
  (u < 10 ^ N.of_nat w)%N -> (v < 10 ^ N.of_nat w)%N ->
  String.compare (fixed w u "") (fixed w v "") = N.compare u v.
Proof.
  induction w as [|w IH]; intros u v Hu Hv.
  - cbn in Hu, Hv. assert (u = 0%N) by lia. assert (v = 0%N) by lia.
    now subst.
  - cbn [fixed].
    rewrite (fixed_acc w (u / 10)%N), (fixed_acc w (v / 10)%N).
    rewrite compare_app by now rewrite !fixed_length.
    rewrite Nat2N.inj_succ, N.pow_succ_r' in Hu, Hv.
    rewrite IH by (apply N.Div0.div_lt_upper_bound; lia).
    rewrite (compare_by_digits u v). f_equal.
    cbn [String.compare]. rewrite digit_compare.
    now destruct (N.compare (u mod 10) (v mod 10)).
Qed.

Lemma then_Eq c d : then_ c d = Eq -> c = Eq /\ d = Eq.
Proof. destruct c; cbn; auto; discriminate. Qed.

Lemma Format_compare t1 t2 :
  wall_clock t1 -> wall_clock t2 ->
  String.compare (Format t1) (Format t2) = civil_compare t1 t2.
Proof.
  intros (Hy1 & Hmo1 & Hd1 & Hh1 & Hmi1 & Hs1)
         (Hy2 & Hmo2 & Hd2 & Hh2 & Hmi2 & Hs2).
  unfold Format, civil_compare.
  rewrite <- (Z2N.id (year t1)), <- (Z2N.id (year t2)) by lia.
  rewrite !appendInt_fixed by (cbn; lia).
  rewrite !compare_app by (now rewrite ?length_app, !fixed_length).
  rewrite !fixed_compare by (cbn; lia).
  now rewrite N2Z.inj_compare.
Qed.

Lemma Format_inj t1 t2 :
  wall_clock t1 -> wall_clock t2 -> Format t1 = Format t2 -> t1 = t2.
Proof.
  intros H1 H2 Heq. pose proof (Format_compare t1 t2 H1 H2) as Hc.
  rewrite Heq, compare_refl in Hc. symmetry in Hc.
  unfold civil_compare in Hc.
  apply then_Eq in Hc as [Hy Hc]. apply then_Eq in Hc as [Hmo Hc].
  apply then_Eq in Hc as [Hd Hc]. apply then_Eq in Hc as [Hh Hc].
  apply then_Eq in Hc as [Hmi Hs].
  apply Z.compare_eq in Hy. apply N.compare_eq in Hmo, Hd, Hh, Hmi, Hs.
  destruct t1, t2. cbn in *. congruence.
Qed.

(** X1. The timestamps of the scaffolder sort like the clock: for two
    readings of a wall clock, the comparison of the two timestamps as
    strings (the comparison the sort of the registry uses) is the
    comparison of the readings; so a later second gives a greater
    identifier, and two readings with the same timestamp are the same
    second. *)
Theorem timestamps_sort_like_the_clock t1 t2 :
  wall_clock t1 -> wall_clock t2 ->
  String.compare (Format t1) (Format t2) = civil_compare t1 t2 /\
  (GoString.lt (Format t1) (Format t2) = true <-> civil_compare t1 t2 = Lt) /\
  (Format t1 = Format t2 -> t1 = t2).
Proof.
  intros H1 H2. pose proof (Format_compare t1 t2 H1 H2) as Hc.
  split; [exact Hc|]. split.
  - unfold GoString.lt, String.ltb. rewrite Hc.
    destruct (civil_compare t1 t2); split; congruence.
  - now apply Format_inj.
Qed.

End ChronologyFacts.

(** ** The paths of the generated files *)

Section PathFacts.
Import GoString GoTime Deadigations.

Lemma app_inj_length a : forall b x y,
  String.length a = String.length b ->
  a +:+ x = b +:+ y -> a = b /\ x = y.
Proof.
  induction a as [|c a IH]; intros [|d b] x y Hlen Heq; try discriminate.
  - auto.
  - change (String c (a +:+ x) = String d (b +:+ y)) in Heq.
    injection Heq as -> Heq. injection Hlen as Hlen.
    destruct (IH b x y Hlen Heq) as [-> ->]. auto.
Qed.

Lemma app_cancel_r a b c : a +:+ c = b +:+ c -> a = b.
Proof.
  intros Heq. apply (app_inj_length a b c c); [|exact Heq].
  apply (f_equal String.length) in Heq. rewrite !length_app in Heq. lia.
Qed.

(** X2. Two calls of the scaffolder write to the same path exactly when
    their clock readings are the same second and their names are equal
    once spaces are underscores: names that differ in anything else, or
    calls in different seconds, never collide, while [add users] and
    [add_users] in one second do. *)
Theorem file_path_collision t1 t2 n1 n2 :
  wall_clock t1 -> wall_clock t2 ->
  file_path t1 n1 = file_path t2 n2
  <-> t1 = t2 /\ ReplaceSpaces n1 = ReplaceSpaces n2.
Proof.
  intros H1 H2. rewrite !file_path_eq. split.
  - intros Heq. apply String.app_inj in Heq.
    destruct (Format_wall_clock _ H1) as [L1 _].
    destruct (Format_wall_clock _ H2) as [L2 _].
    apply app_inj_length in Heq as [Hts Heq]; [|congruence].
    apply String.app_inj in Heq. apply app_cancel_r in Heq.
    split; [|exact Heq]. now apply Format_inj.
  - intros [-> ->]. reflexivity.
Qed.

End PathFacts.

(** ** What the scaffolder touches *)

Section ScaffoldFrame.
Variable E : Env.
Import GoString GoTime Deadigations.

Lemma parents_migrations_dir :
  parents "" migrations_dir = ["."; "./migrator"; "./migrator/migrations"].
Proof. reflexivity. Qed.

(** X3. The scaffolder returns its errors: it never ends the process and
    never panics. It leaves the registry, the singleton, the database and
    the clock as they are, it changes no file but the one it names, and it
    removes no directory. *)
Theorem scaffold_frame (tx : bool) (m : option nat) (name : string)
    (w : World E) :
  let c := Create_ E tx m name in
  let w' := final c w in
  (exists r, outcome c w = Ret r) /\
  (registeredMigrations E w', once E w', instance E w', heap E w',
   database E w', clock E w')
  = (registeredMigrations E w, once E w, instance E w, heap E w,
     database E w, clock E w) /\
  (forall p, p <> file_path (clock E w) name ->
     files (fs E w') !! p = files (fs E w) !! p) /\
  dirs (fs E w) ⊆ dirs (fs E w').
Proof.
  cbn zeta. unfold outcome, final. rewrite Create_scaffold, scaffold_eq.
  cbn zeta.
  destruct (os_MkdirAll_err E (fs E w) migrations_dir) as [e|].
  { cbn. split; [eauto|]. split; [reflexivity|]. split; [auto|set_solver]. }
  destruct (os_Create_err E _ _) as [e|].
  { cbn. split; [eauto|]. split; [reflexivity|]. split; [auto|set_solver]. }
  destruct (os_Write_err E _ _ _) as [[n e]|]; cbn;
    (split; [eauto|]); (split; [reflexivity|]);
    (split; [|set_solver]); intros p Hp; now rewrite lookup_insert_ne.
Qed.

(** X4. The file is closed exactly when it was created: once, as the last
    thing the call does (after the log line when the write succeeded, and
    also when the write failed), and not at all when the directory or the
    file could not be made. *)
Theorem scaffold_closes_what_it_creates (tx : bool) (m : option nat)
    (name : string) (w : World E) :
  let path := file_path (clock E w) name in
  let fs1 :=
    mkFS (dirs (fs E w) ∪ list_to_set (parents "" migrations_dir))
      (files (fs E w)) in
  let w' := final (Create_ E tx m name) w in
  match os_MkdirAll_err E (fs E w) migrations_dir,
        os_Create_err E fs1 path with
  | None, None =>
      closed (trace E w') = closed (trace E w) ++ [path] /\
      exists es, trace E w' = trace E w ++ es ++ [EvClose path]
  | _, _ => closed (trace E w') = closed (trace E w)
  end.
Proof.
  cbn zeta. unfold final. rewrite Create_scaffold, scaffold_eq. cbn zeta.
  destruct (os_MkdirAll_err E (fs E w) migrations_dir) as [e|].
  { unfold closed. cbn. rewrite omap_app. cbn. now rewrite app_nil_r. }
  destruct (os_Create_err E _ _) as [e|].
  { unfold closed. cbn. rewrite omap_app. cbn. now rewrite app_nil_r. }
  destruct (os_Write_err E _ _ _) as [[n e]|]; cbn; split.
  - unfold closed. now rewrite omap_app.
  - now eexists [_; _; _].
  - unfold closed. now rewrite omap_app.
  - now eexists [_; _; _; _].
Qed.

(** X5. Once the directory could be made, it and the directory above it
    exist, and making it again changes nothing: whatever a later call of
    the scaffolder does, the set of directories stays the same. *)
Theorem scaffold_directories (tx tx' : bool) (m m' : option nat)
    (name name' : string) (w : World E) :
  os_MkdirAll_err E (fs E w) migrations_dir = None ->
  let w' := final (Create_ E tx m name) w in
  "./migrator/migrations" ∈ dirs (fs E w') /\
  "./migrator" ∈ dirs (fs E w') /\
  dirs (fs E (final (Create_ E tx' m' name') w')) = dirs (fs E w').
Proof.
  intros Hmk. cbn zeta.
  assert (Hd : dirs (fs E (final (Create_ E tx m name) w))
               = dirs (fs E w) ∪ list_to_set (parents "" migrations_dir)).
  { unfold final. rewrite Create_scaffold, scaffold_eq. cbn zeta.
    rewrite Hmk. destruct (os_Create_err E _ _) as [e|]; [reflexivity|].
    now destruct (os_Write_err E _ _ _) as [[n e]|]. }
  rewrite parents_migrations_dir in Hd.
  split; [rewrite Hd; clear; set_solver|].
  split; [rewrite Hd; clear; set_solver|].
  generalize dependent (final (Create_ E tx m name) w). intros w' Hd.
  unfold final. rewrite Create_scaffold, scaffold_eq. cbn zeta.
  rewrite parents_migrations_dir.
  destruct (os_MkdirAll_err E (fs E w') migrations_dir) as [e|];
    [reflexivity|].
  destruct (os_Create_err E _ _) as [e|];
    [|destruct (os_Write_err E _ _ _) as [[n e]|]]; cbn;
    rewrite Hd, <- (assoc_L (∪)); f_equal; apply (idemp_L (∪)).
Qed.

End ScaffoldFrame.

(** ** The dispatcher, command by command *)

Section DispatchFacts.
Variable E : Env.
Import GoString GoTime Deadigations.

Lemma Sprintf_migration_failed a :
  Sprintf "Migration failed: %v" [a] = "Migration failed: " +:+ a.
Proof.
  transitivity ("Migration failed: " +:+ (a +:+ "")); [reflexivity|].
  now rewrite app_nil_r_s.
Qed.

Lemma Sprintf_rollback_failed a :
  Sprintf "Rollback failed: %v" [a] = "Rollback failed: " +:+ a.
Proof.
  transitivity ("Rollback failed: " +:+ (a +:+ "")); [reflexivity|].
  now rewrite app_nil_r_s.
Qed.

Lemma Sprintf_create_failed a :
  Sprintf "Failed to create migration file: %v" [a]
  = "Failed to create migration file: " +:+ a.
Proof.
  transitivity ("Failed to create migration file: " +:+ (a +:+ ""));
    [reflexivity|]. now rewrite app_nil_r_s.
Qed.

Lemma Sprintf_create_tx_failed a :
  Sprintf "Failed to create transaction migration file: %v" [a]
  = "Failed to create transaction migration file: " +:+ a.
Proof.
  transitivity
    ("Failed to create transaction migration file: " +:+ (a +:+ ""));
    [reflexivity|]. now rewrite app_nil_r_s.
Qed.

Lemma Sprintf_connect_failed a :
  Sprintf "Failed to connect to the database: %v" [a]
  = "Failed to connect to the database: " +:+ a.
Proof.
  transitivity ("Failed to connect to the database: " +:+ (a +:+ ""));
    [reflexivity|]. now rewrite app_nil_r_s.
Qed.

(** [Run] on [-up] and [-down]. *)
Lemma Run_engine_eq (rollback : bool) (m : option nat) (args : list string)
    (w : World E) :
  args !! 1 = Some (if rollback then "-down" else "-up") ->
  Run E m args w =
  match (if rollback then MigrateDown E m else MigrateUp E m) w with
  | (Ret None, w') => (Ret tt, w')
  | (Ret (Some e), w') =>
      (Exit,
       traced E w'
         [EvFatal ((if rollback then "Rollback failed: "
                    else "Migration failed: ") +:+ Error E e)])
  | (Exit, w') => (Exit, w')
  | (Panic, w') => (Panic, w')
  end.
Proof.
  intros Hcmd. destruct args as [|a0 [|a1 rest]]; try discriminate.
  cbn in Hcmd. injection Hcmd as ->. unfold Run.
  cbn [length Nat.ltb Nat.leb]. unfold index. cbn [lookup list_lookup].
  rewrite bind_eq. unfold mret at 1, Prog_ret at 1.
  destruct rollback; cbn [String.eqb Ascii.eqb Bool.eqb];
    rewrite bind_eq;
    [destruct (MigrateDown E m w) as [[[e|]| |] w']
    |destruct (MigrateUp E m w) as [[[e|]| |] w']];
    try reflexivity; unfold Fatalf; run;
    rewrite ?Sprintf_migration_failed, ?Sprintf_rollback_failed;
    reflexivity.
Qed.

(** [Run] on [-create] and [-create-tx], with a name. *)
Lemma Run_create_eq (tx : bool) (m : option nat) (args : list string)
    (name : string) (w : World E) :
  args !! 1 = Some (if tx then "-create-tx" else "-create") ->
  args !! 2 = Some name ->
  Run E m args w =
  match Create_ E tx m name w with
  | (Ret None, w') => (Ret tt, w')
  | (Ret (Some e), w') =>
      (Exit,
       traced E w'
         [EvFatal ((if tx then "Failed to create transaction migration file: "
                    else "Failed to create migration file: ")
                   +:+ Error E e)])
  | (Exit, w') => (Exit, w')
  | (Panic, w') => (Panic, w')
  end.
Proof.
  intros Hcmd Hname. destruct args as [|a0 [|a1 [|a2 rest]]]; try discriminate.
  cbn in Hcmd, Hname. injection Hcmd as ->. injection Hname as ->.
  unfold Run. cbn [length Nat.ltb Nat.leb]. unfold index.
  cbn [lookup list_lookup]. rewrite bind_eq.
  unfold mret at 1, Prog_ret at 1.
  destruct tx; cbn [String.eqb Ascii.eqb Bool.eqb];
    rewrite bind_eq; unfold mret at 1, Prog_ret at 1;
    rewrite bind_eq; unfold mret at 1, Prog_ret at 1;
    rewrite bind_eq; unfold Create_;
    [destruct (CreateTransactionMigrationFile E m name w) as [[[e|]| |] w']
    |destruct (CreateMigrationFile E m name w) as [[[e|]| |] w']];
    try reflexivity; unfold Fatalf; run;
    rewrite ?Sprintf_create_failed, ?Sprintf_create_tx_failed;
    reflexivity.
Qed.

End DispatchFacts.

(** ** The constructor, the invariant of the package variables, and the
    program as a whole *)

Section ProgramFacts.
Variable E : Env.
Import GoString GoTime Deadigations.

Lemma empty_registry_no_engine_frame (m : option nat) (w : World E) :
  registeredMigrations E w = [] ->
  MigrateUp E m w
    = (Ret None, traced E w [EvPrint "No migrations registered"]) /\
  MigrateDown E m w
    = (Ret None, traced E w [EvPrint "No migrations registered"]).
Proof.
  intros Hreg. split; unfold MigrateUp, MigrateDown; run; now rewrite Hreg.
Qed.

Lemma NewMigrationTool_connects dsn d (w : World E) :
  once E w = false -> gorm_Open E dsn = inl d ->
  NewMigrationTool E dsn w =
  (Ret (Some (length (heap E w))),
   mkWorld E (registeredMigrations E w) true (Some (length (heap E w)))
     (heap E w ++ [mkTool E d default_options]) (fs E w) (database E w)
     (clock E w) (trace E w ++ [EvOpen dsn])).
Proof.
  intros Ho Hd. unfold NewMigrationTool. run. rewrite Ho. run.
  rewrite Hd. run. reflexivity.
Qed.

Lemma NewMigrationTool_refused dsn err (w : World E) :
  once E w = false -> gorm_Open E dsn = inr err ->
  NewMigrationTool E dsn w =
  (Exit,
   traced E w
     [EvOpen dsn;
      EvFatal ("Failed to connect to the database: " +:+ Error E err)]).
Proof.
  intros Ho Hd. unfold NewMigrationTool. run. rewrite Ho. run.
  rewrite Hd. run. rewrite Sprintf_connect_failed. unfold traced.
  now rewrite <- app_assoc.
Qed.

Lemma Run_unknown_eq (m : option nat) (args : list string) (w : World E) :
  (length args < 2 ->
   Run E m args w =
   (Ret tt,
    traced E w
      [EvPrint
         "No command provided. Use -up, -down, -create, or -create-tx"])) /\
  (forall cmd,
     args !! 1 = Some cmd ->
     cmd <> "-up" -> cmd <> "-down" -> cmd <> "-create" ->
     cmd <> "-create-tx" ->
     Run E m args w =
     (Exit,
      traced E w
        [EvFatal
           "Invalid command. Use -up, -down, -create, or -create-tx"])).
Proof.
  split.
  - intros Hlen. destruct args as [|a0 [|a1 rest]]; cbn in Hlen; try lia;
      reflexivity.
  - intros cmd Hcmd Hup Hdown Hcreate Htx.
    destruct args as [|a0 [|a1 rest]]; cbn in Hcmd; try discriminate.
    injection Hcmd as ->. unfold Run. cbn [length Nat.ltb Nat.leb].
    run. cbn [lookup list_lookup].
    apply String.eqb_neq in Hup, Hdown, Hcreate, Htx.
    now rewrite Hup, Hdown, Hcreate, Htx.
Qed.

(** What [MigrateUp] and [MigrateDown] leave alone, however they end. *)
Lemma Migrate_frame (rollback : bool) (m : option nat) (w : World E) :
  let c := if rollback then MigrateDown E m else MigrateUp E m in
  (registeredMigrations E (final c w), once E (final c w),
   instance E (final c w), heap E (final c w), fs E (final c w),
   clock E (final c w))
  = (registeredMigrations E w, once E w, instance E w, heap E w, fs E w,
     clock E w).
Proof.
  cbn zeta. unfold final.
  destruct (decide (registeredMigrations E w = [])) as [Hreg|Hne].
  - destruct (empty_registry_no_engine_frame m w Hreg) as [Hu Hd].
    destruct rollback; rewrite ?Hu, ?Hd; reflexivity.
  - assert (Hlen : Nat.eqb (length (registeredMigrations E w)) 0 = false)
      by (destruct (registeredMigrations E w); [congruence|reflexivity]).
    destruct m as [p|]; [destruct (heap E w !! p) as [t|] eqn:Hp|].
    + pose proof (Migrate_eq E rollback p t w Hne Hp) as Heq.
      cbn zeta in Heq. destruct rollback; rewrite Heq; reflexivity.
    + destruct rollback; unfold MigrateDown, MigrateUp; run; rewrite Hlen;
        run; rewrite Hp; reflexivity.
    + destruct rollback; unfold MigrateDown, MigrateUp; run; rewrite Hlen;
        reflexivity.
Qed.

Lemma Create_frame (tx : bool) (m : option nat) (name : string)
    (w : World E) :
  let c := Create_ E tx m name in
  (exists r, outcome c w = Ret r) /\
  (registeredMigrations E (final c w), once E (final c w),
   instance E (final c w), heap E (final c w), clock E (final c w))
  = (registeredMigrations E w, once E w, instance E w, heap E w, clock E w).
Proof.
  cbn zeta. unfold outcome, final. rewrite Create_scaffold, scaffold_eq.
  cbn zeta.
  destruct (os_MkdirAll_err E (fs E w) migrations_dir) as [e|]; [cbn; eauto|].
  destruct (os_Create_err E _ _) as [e|]; [cbn; eauto|].
  destruct (os_Write_err E _ _ _) as [[n e]|]; cbn; eauto.
Qed.

(** The second argument, when there is one, is one of the four commands
    or none of them. *)
Lemma command_cases (cmd : string) :
  cmd = "-up" \/ cmd = "-down" \/ cmd = "-create" \/ cmd = "-create-tx" \/
  (cmd <> "-up" /\ cmd <> "-down" /\ cmd <> "-create" /\ cmd <> "-create-tx").
Proof.
  destruct (String.eqb_spec cmd "-up"); [auto|].
  destruct (String.eqb_spec cmd "-down"); [auto|].
  destruct (String.eqb_spec cmd "-create"); [auto|].
  destruct (String.eqb_spec cmd "-create-tx"); [auto 6|]. auto 10.
Qed.

(** A panic of [MigrateUp] or [MigrateDown] on a receiver that points to
    a tool is a panic of the engine. *)
Lemma Migrate_panic (rollback : bool) (p : nat) t (w : World E) :
  heap E w !! p = Some t ->
  let c := if rollback then MigrateDown E (Some p)
           else MigrateUp E (Some p) in
  let ms := registeredMigrations E w in
  outcome c w = Panic ->
  ms <> [] /\
  snd ((if rollback then engine_RollbackLast E else engine_Migrate E)
         (db E t) (options E t) ms (database E w)) = Panic /\
  trace E (final c w)
  = trace E w ++
    [EvNew (db E t) (options E t) ms;
     if rollback then EvRollbackLast (db E t) (options E t) ms
     else EvMigrate (db E t) (options E t) ms].
Proof.
  intros Hp. cbn zeta. unfold outcome, final.
  destruct (decide (registeredMigrations E w = [])) as [Hreg|Hne].
  - destruct (empty_registry_no_engine_frame (Some p) w Hreg) as [Hu Hd].
    destruct rollback; rewrite ?Hu, ?Hd; discriminate.
  - pose proof (Migrate_eq E rollback p t w Hne Hp) as Heq.
    cbn zeta in Heq.
    destruct rollback; rewrite Heq; cbn [fst snd trace];
      match goal with
      | |- context [snd ?r] => destruct (snd r) as [[?|]| |]
      end; try discriminate; intros _;
      (split; [exact Hne|]); (split; [reflexivity|]);
      now rewrite app_nil_r.
Qed.

(** However [Run] ends, it leaves the package variables, the tool objects
    and the clock as they were; on a receiver that points to a tool it
    panics only when the command is [-up] or [-down] and the engine
    panics. *)
Lemma Run_frame (m : option nat) (args : list string) (w : World E) :
  let c := Run E m args in
  (registeredMigrations E (final c w), once E (final c w),
   instance E (final c w), heap E (final c w), clock E (final c w))
  = (registeredMigrations E w, once E w, instance E w, heap E w, clock E w)
  /\ (forall p t,
        m = Some p -> heap E w !! p = Some t ->
        outcome c w = Panic ->
        exists rollback : bool,
          let ms := registeredMigrations E w in
          args !! 1 = Some (if rollback then "-down" else "-up") /\
          ms <> [] /\
          snd ((if rollback then engine_RollbackLast E
                else engine_Migrate E)
                 (db E t) (options E t) ms (database E w)) = Panic /\
          trace E (final c w)
          = trace E w ++
            [EvNew (db E t) (options E t) ms;
             if rollback then EvRollbackLast (db E t) (options E t) ms
             else EvMigrate (db E t) (options E t) ms]).
Proof.
  cbn zeta. destruct args as [|a0 [|cmd rest]];
    [split; [reflexivity|intros; discriminate]..|].
  destruct (command_cases cmd)
    as [->|[->|[->|[->|(Hup & Hdown & Hcreate & Htx)]]]].
  - unfold outcome, final.
    rewrite (Run_engine_eq E false m (a0 :: "-up" :: rest) w eq_refl).
    pose proof (Migrate_frame false m w) as Hf. cbn zeta in Hf.
    unfold final in Hf. split.
    + destruct (MigrateUp E m w) as [[[e|]| |] w']; cbn in Hf |- *;
        congruence.
    + intros p t -> Hp Hpanic. exists false. cbn zeta.
      split; [reflexivity|].
      pose proof (Migrate_panic false p t w Hp) as Hmp. cbn zeta in Hmp.
      unfold outcome, final in Hmp.
      destruct (MigrateUp E (Some p) w) as [[[e|]| |] w'];
        try discriminate. exact (Hmp eq_refl).
  - unfold outcome, final.
    rewrite (Run_engine_eq E true m (a0 :: "-down" :: rest) w eq_refl).
    pose proof (Migrate_frame true m w) as Hf. cbn zeta in Hf.
    unfold final in Hf. split.
    + destruct (MigrateDown E m w) as [[[e|]| |] w']; cbn in Hf |- *;
        congruence.
    + intros p t -> Hp Hpanic. exists true. cbn zeta.
      split; [reflexivity|].
      pose proof (Migrate_panic true p t w Hp) as Hmp. cbn zeta in Hmp.
      unfold outcome, final in Hmp.
      destruct (MigrateDown E (Some p) w) as [[[e|]| |] w'];
        try discriminate. exact (Hmp eq_refl).
  - destruct rest as [|name rest]; [split; [reflexivity|intros; discriminate]|].
    unfold outcome, final.
    rewrite (Run_create_eq E false m (a0 :: "-create" :: name :: rest) name w
               eq_refl eq_refl).
    destruct (Create_frame false m name w) as [[r Hr] Hf].
    unfold outcome, final in Hr, Hf.
    destruct (Create_ E false m name w) as [[[e|]| |] w']; try discriminate;
      (split; [cbn in Hf |- *; congruence|intros; discriminate]).
  - destruct rest as [|name rest]; [split; [reflexivity|intros; discriminate]|].
    unfold outcome, final.
    rewrite (Run_create_eq E true m (a0 :: "-create-tx" :: name :: rest) name
               w eq_refl eq_refl).
    destruct (Create_frame true m name w) as [[r Hr] Hf].
    unfold outcome, final in Hr, Hf.
    destruct (Create_ E true m name w) as [[[e|]| |] w']; try discriminate;
      (split; [cbn in Hf |- *; congruence|intros; discriminate]).
  - unfold outcome, final.
    rewrite (proj2 (Run_unknown_eq m (a0 :: cmd :: rest) w) cmd eq_refl
               Hup Hdown Hcreate Htx).
    split; [reflexivity|intros; discriminate].
Qed.

(** [Run] on [-up] and [-down] with a tool and a registry to work on. *)
Lemma Run_engine_with_tool (rollback : bool) (p : nat) t
    (args : list string) (w : World E) :
  registeredMigrations E w <> [] ->
  heap E w !! p = Some t ->
  args !! 1 = Some (if rollback then "-down" else "-up") ->
  let ms := registeredMigrations E w in
  let d := db E t in
  let o := options E t in
  let r := (if rollback then engine_RollbackLast E else engine_Migrate E)
             d o ms (database E w) in
  let after log :=
    mkWorld E ms (once E w) (instance E w) (heap E w) (fs E w) (fst r)
      (clock E w)
      (trace E w ++
       [EvNew d o ms;
        if rollback then EvRollbackLast d o ms else EvMigrate d o ms] ++
       log) in
  Run E (Some p) args w =
  match snd r with
  | Ret None =>
      (Ret tt,
       after [EvPrint (if rollback
                       then "Last migration rolled back successfully!"
                       else "Migrations applied successfully!")])
  | Ret (Some e) =>
      (Exit,
       after [EvFatal ((if rollback then "Rollback failed: "
                        else "Migration failed: ") +:+ Error E e)])
  | Exit => (Exit, after [])
  | Panic => (Panic, after [])
  end.
Proof.
  intros Hne Hp Hcmd. cbn zeta. rewrite (Run_engine_eq E rollback _ _ _ Hcmd).
  pose proof (Migrate_eq E rollback p t w Hne Hp) as Heq. cbn zeta in Heq.
  rewrite Heq.
  destruct (snd ((if rollback then engine_RollbackLast E
                  else engine_Migrate E) _ _ _ _)) as [[e|]| |];
    try reflexivity.
  unfold traced. cbn. rewrite <- app_assoc. reflexivity.
Qed.

(** [NewMigrationTool] leaves the registry, the database, the file
    system and the clock as they are. *)
Lemma NewMigrationTool_frame dsn (w : World E) :
  let w' := final (NewMigrationTool E dsn) w in
  registeredMigrations E w' = registeredMigrations E w /\
  database E w' = database E w /\
  fs E w' = fs E w /\ clock E w' = clock E w.
Proof.
  cbn zeta. unfold final. destruct (once E w) eqn:Ho.
  - rewrite NewMigrationTool_done by exact Ho. auto.
  - destruct (gorm_Open E dsn) as [d|err] eqn:Hd.
    + rewrite (NewMigrationTool_connects dsn d) by assumption. auto.
    + rewrite (NewMigrationTool_refused dsn err) by assumption. auto.
Qed.

(** The pointer [NewMigrationTool] returns points to a tool object. *)
Lemma constructed_tool (w : World E) :
  constructed E w ->
  forall dsn p w1,
    NewMigrationTool E dsn w = (Ret p, w1) ->
    exists q t, p = Some q /\ heap E w1 !! q = Some t.
Proof.
  intros Hw dsn p w1 Hnew. destruct (once E w) eqn:Ho.
  - rewrite NewMigrationTool_done in Hnew by exact Ho.
    injection Hnew as <- <-. destruct (Hw Ho) as (q & t & Hi & Hq). eauto.
  - destruct (gorm_Open E dsn) as [d|err] eqn:Hd.
    + rewrite (NewMigrationTool_connects dsn d) in Hnew by assumption.
      injection Hnew as <- <-.
      exists (length (heap E w)), (mkTool E d default_options).
      split; [reflexivity|]. cbn. now rewrite list_lookup_middle.
    + rewrite (NewMigrationTool_refused dsn err) in Hnew by assumption.
      discriminate.
Qed.

(** X6. [Run] with [-up] or [-down], a registry that is not empty and a
    constructed tool runs the engine once, and ends as the engine lets
    it. If the engine returns nil, [Run] returns after the success line.
    If the engine returns an error, the process exits with a fatal log
    that carries the text of the error. If the call of the engine does not
    return, because it panics (as on a migration whose [Migrate] function
    is nil) or because it ends the process, [Run] ends the same way and
    logs nothing after the call. In every case the database is left as
    the engine left it, and arguments after the command are ignored. *)
Theorem Run_engine_outcome (rollback : bool) (p : nat) t
    (args : list string) (w : World E) :
  registeredMigrations E w <> [] ->
  heap E w !! p = Some t ->
  args !! 1 = Some (if rollback then "-down" else "-up") ->
  let ms := registeredMigrations E w in
  let d := db E t in
  let o := options E t in
  let r := (if rollback then engine_RollbackLast E else engine_Migrate E)
             d o ms (database E w) in
  let after log :=
    mkWorld E ms (once E w) (instance E w) (heap E w) (fs E w) (fst r)
      (clock E w)
      (trace E w ++
       [EvNew d o ms;
        if rollback then EvRollbackLast d o ms else EvMigrate d o ms] ++
       log) in
  Run E (Some p) args w =
  match snd r with
  | Ret None =>
      (Ret tt,
       after [EvPrint (if rollback
                       then "Last migration rolled back successfully!"
                       else "Migrations applied successfully!")])
  | Ret (Some e) =>
      (Exit,
       after [EvFatal ((if rollback then "Rollback failed: "
                        else "Migration failed: ") +:+ Error E e)])
  | Exit => (Exit, after [])
  | Panic => (Panic, after [])
  end.
Proof. exact (Run_engine_with_tool rollback p t args w). Qed.

(** X7. [Run] with [-create] or [-create-tx] and a name returns exactly
    when the operating system refuses nothing, and then the file named
    after the clock and the name holds the text of the template. When the
    directory, the file or the write is refused, the process exits with a
    fatal log that carries the text of that error. Arguments after the
    name are ignored. *)
Theorem Run_create_outcome (tx : bool) (m : option nat)
    (args : list string) (name : string) (w : World E) :
  args !! 1 = Some (if tx then "-create-tx" else "-create") ->
  args !! 2 = Some name ->
  let path := file_path (clock E w) name in
  let content := Sprintf (template_ tx) [Format (clock E w)] in
  let fs1 :=
    mkFS (dirs (fs E w) ∪ list_to_set (parents "" migrations_dir))
      (files (fs E w)) in
  let fs2 := mkFS (dirs fs1) (<[path := ""]> (files fs1)) in
  let refused :=
    match os_MkdirAll_err E (fs E w) migrations_dir with
    | Some e => Some e
    | None =>
        match os_Create_err E fs1 path with
        | Some e => Some e
        | None => snd <$> os_Write_err E fs2 path content
        end
    end in
  let w' := final (Run E m args) w in
  match refused with
  | None =>
      outcome (Run E m args) w = Ret tt /\
      files (fs E w') !! path = Some content /\
      fatal (trace E w') = fatal (trace E w)
  | Some e =>
      outcome (Run E m args) w = Exit /\
      fatal (trace E w')
      = fatal (trace E w) ++
        [(if tx then "Failed to create transaction migration file: "
          else "Failed to create migration file: ") +:+ Error E e]
  end.
Proof.
  intros Hcmd Hname. cbn zeta. unfold outcome, final.
  rewrite (Run_create_eq E tx m args name w Hcmd Hname).
  rewrite Create_scaffold, scaffold_eq. cbn zeta. unfold fatal.
  destruct (os_MkdirAll_err E (fs E w) migrations_dir) as [e|].
  { cbn. rewrite !omap_app. cbn. now rewrite app_nil_r. }
  destruct (os_Create_err E _ _) as [e|].
  { cbn. rewrite !omap_app. cbn. now rewrite app_nil_r. }
  destruct (os_Write_err E _ _ _) as [[n e]|]; cbn.
  - rewrite !omap_app. cbn. now rewrite app_nil_r.
  - rewrite lookup_insert_eq, !omap_app. cbn. now rewrite app_nil_r.
Qed.

(** X8. The database is opened before the command is looked at: when the
    connection is refused, the program exits with a fatal log that carries
    the text of the error, whatever the command is (also for [-create],
    and with no command at all). The registrations are all that happened:
    no engine is built and the file system is not touched. *)
Theorem program_connection_refused (xs : list (Migration (Action E)))
    (dsn : string) (args : list string) err (w : World E) :
  once E w = false ->
  gorm_Open E dsn = inr err ->
  let w' := final (program E xs dsn args) w in
  outcome (program E xs dsn args) w = Exit /\
  trace E w'
  = trace E w ++
    [EvOpen dsn;
     EvFatal ("Failed to connect to the database: " +:+ Error E err)] /\
  fs E w' = fs E w /\
  registeredMigrations E w'
  = registeredMigrations E w ++
    map (fun x => mkGormMigration (ID x) (Migrate x) (Rollback x)) xs.
Proof.
  intros Ho Hd. cbn zeta. unfold outcome, final, program.
  rewrite bind_eq, RegisterAll_eq, bind_eq.
  rewrite (NewMigrationTool_refused dsn err) by assumption.
  cbn. auto.
Qed.

(** X9. The package variables stay in agreement: if [instance] points to
    a tool object whenever the constructor has completed, this is still so
    after any call of [RegisterMigration], [NewMigrationTool], [MigrateUp],
    [MigrateDown], either scaffolding method or [Run], however the call
    ends; and the pointer a call of [NewMigrationTool] returns is never
    nil: it points to a tool object. *)
Theorem constructed_invariant (w : World E) :
  constructed E w ->
  (forall x, constructed E (final (RegisterMigration E x) w)) /\
  (forall dsn, constructed E (final (NewMigrationTool E dsn) w)) /\
  (forall (rollback : bool) m,
     constructed E
       (final (if rollback then MigrateDown E m else MigrateUp E m) w)) /\
  (forall tx m name, constructed E (final (Create_ E tx m name) w)) /\
  (forall m args, constructed E (final (Run E m args) w)) /\
  (forall dsn p w1,
     NewMigrationTool E dsn w = (Ret p, w1) ->
     exists q t, p = Some q /\ heap E w1 !! q = Some t).
Proof.
  intros Hw. unfold constructed in *. repeat split.
  - intros x. unfold final. now rewrite RegisterMigration_eq.
  - intros dsn. unfold final.
    destruct (once E w) eqn:Ho.
    + rewrite NewMigrationTool_done by exact Ho. cbn. rewrite Ho. exact Hw.
    + destruct (gorm_Open E dsn) as [d|err] eqn:Hd.
      * rewrite (NewMigrationTool_connects dsn d) by assumption. cbn.
        intros _. exists (length (heap E w)), (mkTool E d default_options).
        split; [reflexivity|]. now rewrite list_lookup_middle.
      * rewrite (NewMigrationTool_refused dsn err) by assumption. cbn.
        now rewrite Ho.
  - intros rollback m. pose proof (Migrate_frame rollback m w) as Hf.
    cbn zeta in Hf. injection Hf as _ Ho Hi Hh _ _.
    now rewrite Ho, Hi, Hh.
  - intros tx m name. destruct (Create_frame tx m name w) as [_ Hf].
    injection Hf as _ Ho Hi Hh _. now rewrite Ho, Hi, Hh.
  - intros m args. destruct (Run_frame m args w) as [Hf _].
    injection Hf as _ Ho Hi Hh _. now rewrite Ho, Hi, Hh.
  - intros dsn p w1 Hnew. exact (constructed_tool w Hw dsn p w1 Hnew).
Qed.

(** X10. A program set up as the README does (registrations, then
    [NewMigrationTool], then [Run] on the pointer it returned) panics only
    inside the engine. The tool itself dereferences no nil receiver and
    reads no argument out of range, whatever the registrations, the
    connection string and the command line are: if the program panics,
    the command was [-up] or [-down], at least one migration was
    registered, the last thing the program did was to build the engine on
    the registered migrations and to call it, and it is that call which
    panicked (as the engine does on a migration whose [Migrate] function
    is nil). With an engine that does not panic the program does not
    panic. *)
Theorem program_panics_only_in_engine (xs : list (Migration (Action E)))
    (dsn : string) (args : list string) (w : World E) :
  constructed E w ->
  let ms :=
    registeredMigrations E w ++
    map (fun x => mkGormMigration (ID x) (Migrate x) (Rollback x)) xs in
  (outcome (program E xs dsn args) w = Panic ->
   exists (rollback : bool) d o tr,
     args !! 1 = Some (if rollback then "-down" else "-up") /\
     ms <> [] /\
     snd ((if rollback then engine_RollbackLast E else engine_Migrate E)
            d o ms (database E w)) = Panic /\
     trace E (final (program E xs dsn args) w)
     = tr ++
       [EvNew d o ms;
        if rollback then EvRollbackLast d o ms else EvMigrate d o ms]) /\
  ((forall d o s,
      snd (engine_Migrate E d o ms s) <> Panic /\
      snd (engine_RollbackLast E d o ms s) <> Panic) ->
   outcome (program E xs dsn args) w <> Panic).
Proof.
  intros Hw ms.
  assert (Hmain :
    outcome (program E xs dsn args) w = Panic ->
    exists (rollback : bool) d o tr,
      args !! 1 = Some (if rollback then "-down" else "-up") /\
      ms <> [] /\
      snd ((if rollback then engine_RollbackLast E else engine_Migrate E)
             d o ms (database E w)) = Panic /\
      trace E (final (program E xs dsn args) w)
      = tr ++
        [EvNew d o ms;
         if rollback then EvRollbackLast d o ms else EvMigrate d o ms]).
  { unfold outcome, final, program. rewrite bind_eq, RegisterAll_eq.
    fold ms. set (w0 := mkWorld E ms _ _ _ _ _ _ _).
    assert (Hw0 : constructed E w0) by exact Hw.
    rewrite bind_eq.
    destruct (NewMigrationTool E dsn w0) as [[p| |] w1] eqn:Hnew;
      [|discriminate|].
    - destruct (constructed_tool w0 Hw0 dsn p w1 Hnew) as (q & t & -> & Hq).
      destruct (NewMigrationTool_frame dsn w0) as (Hreg & Hdb & _).
      unfold final in Hreg, Hdb. rewrite Hnew in Hreg, Hdb.
      cbn [snd] in Hreg, Hdb.
      destruct (Run_frame (Some q) args w1) as [_ Hrf].
      intros Hpanic.
      destruct (Hrf q t eq_refl Hq Hpanic)
        as (rollback & Hcmd & Hne & Hpan & Htr).
      rewrite Hreg in Hne, Hpan, Htr. rewrite Hdb in Hpan.
      exists rollback, (db E t), (options E t), (trace E w1).
      unfold final in Htr. auto.
    - exfalso. revert Hnew. unfold NewMigrationTool. run.
      destruct (once E w0); run; [discriminate|].
      destruct (gorm_Open E dsn); run; discriminate. }
  split; [exact Hmain|].
  intros Hsafe Hpanic.
  destruct (Hmain Hpanic) as (rollback & d & o & tr & _ & _ & Hpan & _).
  destruct (Hsafe d o (database E w)) as [Hup Hdown].
  destruct rollback; contradiction.
Qed.

(** X11. From a fresh process whose database accepts the connection and
    in which at least one migration is registered, the program run with
    [-up] or [-down] opens one connection, builds one engine on the
    handle it got with the fixed options (table [migrations], column [id]
    of size 255, transactions on, unknown migrations tolerated), and gives
    it the migrations in the order their [init] functions registered
    them. The program ends as the call of the engine lets it: it returns
    when the engine returns nil, the process exits when the engine
    returns an error or ends the process itself, and the program panics
    when the engine panics. *)
Theorem program_hands_registrations_to_engine (rollback : bool)
    (xs : list (Migration (Action E))) (dsn : string) (args : list string)
    d (w : World E) :
  once E w = false ->
  gorm_Open E dsn = inl d ->
  args !! 1 = Some (if rollback then "-down" else "-up") ->
  let ms :=
    registeredMigrations E w ++
    map (fun x => mkGormMigration (ID x) (Migrate x) (Rollback x)) xs in
  ms <> [] ->
  let o := mkOptions "migrations" "id" 255 true false in
  let r := (if rollback then engine_RollbackLast E else engine_Migrate E)
             d o ms (database E w) in
  let w' := final (program E xs dsn args) w in
  opened (trace E w') = opened (trace E w) ++ [dsn] /\
  engines (trace E w') = engines (trace E w) ++ [(d, o)] /\
  engine_inputs (trace E w') = engine_inputs (trace E w) ++ [map gID ms] /\
  database E w' = fst r /\
  outcome (program E xs dsn args) w
  = match snd r with
    | Ret None => Ret tt
    | Ret (Some _) => Exit
    | Exit => Exit
    | Panic => Panic
    end.
Proof.
  intros Ho Hd Hcmd ms Hne. cbn zeta. unfold outcome, final, program.
  rewrite bind_eq, RegisterAll_eq, bind_eq.
  rewrite (NewMigrationTool_connects dsn d) by assumption.
  cbn [registeredMigrations heap fs database clock trace once instance].
  fold ms.
  set (w1 := mkWorld E ms true _ _ _ _ _ _).
  assert (Hp : heap E w1 !! length (heap E w)
               = Some (mkTool E d default_options))
    by (cbn; now rewrite list_lookup_middle).
  pose proof (Run_engine_with_tool rollback (length (heap E w)) _ args w1
                Hne Hp Hcmd) as Heq.
  cbn zeta in Heq. rewrite Heq. clear Heq.
  cbn [registeredMigrations heap fs database clock trace once instance w1
       db options].
  unfold opened, engines, engine_inputs.
  destruct (snd ((if rollback then engine_RollbackLast E
                  else engine_Migrate E) _ _ _ _)) as [[e|]| |];
    cbn [fst snd trace database]; rewrite !omap_app;
    destruct rollback; cbn; rewrite ?app_nil_r, <- ?app_assoc; auto.
Qed.

End ProgramFacts.

(** ** More on the stable sort *)

Section SortMore.
Context {A : Type} (less : A -> A -> bool).
Import GoSort.
Hypothesis less_asym : forall a b, less a b = true -> less b a = false.
Hypothesis geq_trans : forall a b c,
  less a b = false -> less b c = false -> less a c = false.

(** A sorted slice is left as it is. *)
Lemma SliceStable_sorted l : ordered less l -> SliceStable less l = l.
Proof.
  intros Hord. symmetry.
  apply (stable_sort_unique less less_asym geq_trans).
  split; [reflexivity|]. split; [exact Hord|reflexivity].
Qed.

Lemma SliceStable_idempotent l :
  SliceStable less (SliceStable less l) = SliceStable less l.
Proof.
  apply SliceStable_sorted, SliceStable_ordered; assumption.
Qed.

Lemma Permutation_List_filter (p : A -> bool) l l' :
  Permutation l l' -> Permutation (List.filter p l) (List.filter p l').
Proof.
  induction 1 as [|x l l' _ IH|x y l|l l' l'' _ IH1 _ IH2]; cbn.
  - constructor.
  - destruct (p x); [now constructor|exact IH].
  - destruct (p x), (p y); try reflexivity. apply perm_swap.
  - now rewrite IH1.
Qed.

(** Two arrangements of at most one element are equal. *)
Lemma Permutation_short (l l' : list A) :
  Permutation l l' -> length l <= 1 -> l = l'.
Proof.
  intros Hperm Hlen. destruct l as [|x [|y l]]; cbn in Hlen; try lia.
  - now apply Permutation_nil in Hperm.
  - pose proof (Permutation_length Hperm) as Hl.
    destruct l' as [|x' [|y' l']]; try discriminate.
    now rewrite (Permutation_length_1 Hperm).
Qed.

End SortMore.

Section ReverseOrder.
Variable E : Env.
Import GoSort.

(** Entries with distinct identifiers, none before or after another, are
    at most one entry. *)
Lemma class_short (p : GormMigration (Action E) -> bool) ms :
  List.NoDup (map gID ms) ->
  (forall a b, p a = true -> p b = true -> less_down a b = false) ->
  length (List.filter p ms) <= 1.
Proof.
  intros Hnd Hp.
  assert (Hall : forall a b,
            In a (List.filter p ms) -> In b (List.filter p ms) -> a = b).
  { intros a b [Ha Hpa]%filter_In [Hb Hpb]%filter_In.
    assert (Hid : gID a = gID b).
    { apply lt_total; [apply (Hp b a Hpb Hpa)|apply (Hp a b Hpa Hpb)]. }
    clear Hp Hpa Hpb. induction ms as [|x ms IH]; [contradiction|].
    cbn in Hnd. apply NoDup_cons_iff in Hnd as [Hx Hnd].
    destruct Ha as [->|Ha], Hb as [->|Hb]; auto.
    - exfalso. apply Hx. rewrite Hid. now apply in_map.
    - exfalso. apply Hx. rewrite <- Hid. now apply in_map. }
  pose proof (List.NoDup_filter p (NoDup_map_inv _ _ Hnd)) as Hf.
  destruct (List.filter p ms) as [|x [|y l]]; cbn; try lia.
  exfalso. apply NoDup_cons_iff in Hf as [Hx _]. apply Hx.
  rewrite (Hall x y); [now left|now left|right; now left].
Qed.

(** With distinct identifiers the descending order is the ascending order
    read backwards. *)
Lemma down_is_up_reversed (ms : list (GormMigration (Action E))) :
  List.NoDup (map gID ms) ->
  SliceStable less_down ms = rev (SliceStable less_up ms).
Proof.
  intros Hnd. symmetry.
  apply (stable_sort_unique less_down (less_down_asym E)
           (less_down_geq_trans E)).
  destruct (sorted_up E ms) as (Hperm & Hord & _).
  split; [|split].
  - rewrite Hperm at 1. apply Permutation_rev.
  - apply (rev_sorted (fun a b => less_up b a = false)). exact Hord.
  - intros p Hp. symmetry. apply Permutation_short.
    + apply Permutation_List_filter. rewrite Hperm at 1.
      apply Permutation_rev.
    + now apply class_short.
Qed.

End ReverseOrder.

(** ** The sorting revisions, call after call *)

Section SortingRevisions.
Variable E : Env.
Import GoSort.

Lemma Standalone_inputs (rollback : bool) (p : nat) t
    (w : Standalone.World E) :
  Standalone.heap E w !! p = Some t ->
  Standalone.registeredMigrations E t <> [] ->
  let ms :=
    SliceStable (if rollback then less_down else less_up)
      (Standalone.registeredMigrations E t) in
  let c := if rollback then Standalone.MigrateDown E (Some p)
           else Standalone.MigrateUp E (Some p) in
  engine_inputs (Standalone.trace E (final c w))
  = engine_inputs (Standalone.trace E w) ++ [map gID ms] /\
  Standalone.heap E (final c w)
  = <[p := Standalone.mkTool E (Standalone.db E t) ms
             (Standalone.options E t)]> (Standalone.heap E w).
Proof.
  intros Hp Hne. cbn zeta. unfold final.
  pose proof (Standalone_Migrate_eq E rollback p t w Hp Hne) as Heq.
  cbn zeta in Heq. destruct rollback; rewrite Heq; cbn [snd];
    cbn [Standalone.trace Standalone.heap]; rewrite engine_inputs_app;
    (split; [|reflexivity]); f_equal;
    match goal with
    | |- context [snd ?r] => destruct (snd r) as [[?|]| |]
    end; reflexivity.
Qed.

(** X12. In the stand-alone tool the sort is kept: after a first
    [MigrateUp] (or [MigrateDown]) the tool holds the sorted registry, a
    second call of the same method finds it sorted, leaves the tool as it
    is and hands the engine the same list again. *)
Theorem Standalone_sort_is_kept (rollback : bool) (p : nat) t
    (w : Standalone.World E) :
  Standalone.heap E w !! p = Some t ->
  Standalone.registeredMigrations E t <> [] ->
  let ms :=
    SliceStable (if rollback then less_down else less_up)
      (Standalone.registeredMigrations E t) in
  let c := if rollback then Standalone.MigrateDown E (Some p)
           else Standalone.MigrateUp E (Some p) in
  let w1 := final c w in
  let w2 := final c w1 in
  Standalone.heap E w1 !! p
  = Some (Standalone.mkTool E (Standalone.db E t) ms (Standalone.options E t))
  /\
  Standalone.heap E w2 = Standalone.heap E w1 /\
  engine_inputs (Standalone.trace E w2)
  = engine_inputs (Standalone.trace E w) ++ [map gID ms; map gID ms].
Proof.
  intros Hp Hne. cbn zeta.
  assert (Hlt : p < length (Standalone.heap E w))
    by (eapply lookup_lt_Some; exact Hp).
  destruct (Standalone_inputs rollback p t w Hp Hne) as [Hin Hheap].
  cbn zeta in Hin, Hheap.
  set (less := if rollback then less_down else less_up) in *.
  set (ms := SliceStable less (Standalone.registeredMigrations E t)) in *.
  set (c := if rollback then Standalone.MigrateDown E (Some p)
            else Standalone.MigrateUp E (Some p)) in *.
  set (t1 := Standalone.mkTool E (Standalone.db E t) ms
               (Standalone.options E t)) in *.
  assert (Hp1 : Standalone.heap E (final c w) !! p = Some t1)
    by (rewrite Hheap; now apply list_lookup_insert_eq).
  assert (Hne1 : Standalone.registeredMigrations E t1 <> []).
  { cbn. unfold ms. intros Hnil. apply Hne.
    now apply (SliceStable_nil_iff less). }
  destruct (Standalone_inputs rollback p t1 (final c w) Hp1 Hne1)
    as [Hin1 Hheap1].
  cbn zeta in Hin1, Hheap1. fold less c in Hin1, Hheap1.
  assert (Hidem : SliceStable less (Standalone.registeredMigrations E t1) = ms).
  { cbn. unfold ms, less.
    destruct rollback;
      [apply (SliceStable_idempotent less_down (less_down_asym E)
                (less_down_geq_trans E))
      |apply (SliceStable_idempotent less_up (less_up_asym E)
                (less_up_geq_trans E))]. }
  rewrite Hidem in Hin1, Hheap1. cbn in Hheap1. fold t1 in Hheap1.
  split; [exact Hp1|]. split.
  - rewrite Hheap1. now apply list_insert_id.
  - rewrite Hin1, Hin, <- app_assoc. reflexivity.
Qed.

(** X13. In the stand-alone tool, with identifiers that are all distinct,
    [MigrateDown] hands the engine the list that [MigrateUp] hands it,
    read backwards; this is so on the registry as given and also when
    [MigrateDown] runs after [MigrateUp]. *)
Theorem Standalone_rollback_reverses_apply (p : nat) t
    (w : Standalone.World E) :
  Standalone.heap E w !! p = Some t ->
  Standalone.registeredMigrations E t <> [] ->
  List.NoDup (map gID (Standalone.registeredMigrations E t)) ->
  let up := Standalone.MigrateUp E (Some p) in
  let down := Standalone.MigrateDown E (Some p) in
  let ids := map gID (SliceStable less_up (Standalone.registeredMigrations E t)) in
  engine_inputs (Standalone.trace E (final up w))
  = engine_inputs (Standalone.trace E w) ++ [ids] /\
  engine_inputs (Standalone.trace E (final down w))
  = engine_inputs (Standalone.trace E w) ++ [rev ids] /\
  engine_inputs (Standalone.trace E (final down (final up w)))
  = engine_inputs (Standalone.trace E w) ++ [ids; rev ids].
Proof.
  intros Hp Hne Hnd. cbn zeta.
  assert (Hlt : p < length (Standalone.heap E w))
    by (eapply lookup_lt_Some; exact Hp).
  destruct (Standalone_inputs false p t w Hp Hne) as [Hup Hheap].
  destruct (Standalone_inputs true p t w Hp Hne) as [Hdown _].
  cbn zeta in Hup, Hheap, Hdown.
  rewrite (down_is_up_reversed E _ Hnd), map_rev in Hdown.
  split; [exact Hup|]. split; [exact Hdown|].
  set (ms := SliceStable less_up (Standalone.registeredMigrations E t)) in *.
  set (t1 := Standalone.mkTool E (Standalone.db E t) ms
               (Standalone.options E t)) in *.
  assert (Hp1 : Standalone.heap E (final (Standalone.MigrateUp E (Some p)) w)
                !! p = Some t1)
    by (rewrite Hheap; now apply list_lookup_insert_eq).
  assert (Hne1 : Standalone.registeredMigrations E t1 <> []).
  { cbn. unfold ms. intros Hnil. apply Hne.
    now apply (SliceStable_nil_iff less_up). }
  destruct (Standalone_inputs true p t1 _ Hp1 Hne1) as [Hin1 _].
  cbn zeta in Hin1. cbn [Standalone.registeredMigrations t1] in Hin1.
  assert (Hnd1 : List.NoDup (map gID ms)).
  { eapply Permutation_NoDup; [|exact Hnd].
    apply Permutation_map, SliceStable_perm. }
  rewrite (down_is_up_reversed E _ Hnd1), map_rev in Hin1.
  unfold ms in Hin1.
  rewrite (SliceStable_idempotent less_up (less_up_asym E)
             (less_up_geq_trans E)) in Hin1.
  fold ms in Hin1. rewrite Hin1, Hup, <- app_assoc. reflexivity.
Qed.

(** X14. On a registry that is already in order the two revisions of
    [deadigations.go] do the same: if no entry is registered before one
    with a smaller identifier, [MigrateUp] with the sort and [MigrateUp]
    without it end alike, in the same state; likewise [MigrateDown] on a
    registry in descending order. *)
Theorem sorted_registry_revisions_agree (rollback : bool) (m : option nat)
    (w : Deadigations.World E) :
  ordered (if rollback then less_down else less_up)
    (Deadigations.registeredMigrations E w) ->
  (if rollback then Deadigations.MigrateDown_earlier E m
   else Deadigations.MigrateUp_earlier E m) w
  = (if rollback then Deadigations.MigrateDown E m
     else Deadigations.MigrateUp E m) w.
Proof.
  intros Hord.
  assert (Hs : SliceStable (if rollback then less_down else less_up)
                 (Deadigations.registeredMigrations E w)
               = Deadigations.registeredMigrations E w).
  { destruct rollback;
      [apply (SliceStable_sorted less_down (less_down_asym E)
                (less_down_geq_trans E))
      |apply (SliceStable_sorted less_up (less_up_asym E)
                (less_up_geq_trans E))]; exact Hord. }
  destruct rollback;
    unfold Deadigations.MigrateDown_earlier, Deadigations.MigrateUp_earlier,
      Deadigations.MigrateDown, Deadigations.MigrateUp;
    rewrite !bind_eq; unfold get at 1 3; cbv beta iota;
    (destruct (Nat.eqb (length (Deadigations.registeredMigrations E w)) 0);
     [reflexivity|]);
    rewrite bind_eq; unfold Deadigations.set_registry at 1; rewrite Hs;
    rewrite bind_eq; unfold get at 1; cbv beta iota;
    cbn [Deadigations.registeredMigrations]; destruct w; reflexivity.
Qed.

End SortingRevisions.

(** ** The stand-alone tool as a program *)

Ltac runS :=
  unfold outcome, final;
  cbv beta iota delta
    [mbind mret Prog_bind Prog_ret get exit panic
     StandaloneMain.lift StandaloneMain.emit StandaloneMain.set_fs
     StandaloneMain.Println StandaloneMain.Printf StandaloneMain.Fatal
     StandaloneMain.Fatalf StandaloneMain.index StandaloneMain.alloc
     StandaloneMain.Close Standalone.emit];
  cbn [StandaloneMain.core StandaloneMain.fs StandaloneMain.clock
       Standalone.heap Standalone.database Standalone.trace fst snd].

Section StandaloneProgram.
Variable E : Env.
Import GoString GoTime StandaloneMain.

(** The state in which the switch starts when the connection succeeds. *)
Lemma NewMigrationTool_eq dsn regs args (w : World E) :
  NewMigrationTool E dsn regs args w =
  match gorm_Open E dsn with
  | inr err =>
      (Exit,
       mkWorld E
         (Standalone.mkWorld E (Standalone.heap E (core E w))
            (Standalone.database E (core E w))
            (Standalone.trace E (core E w) ++
             [EvOpen dsn;
              EvFatal ("Failed to connect to the database: "
                       +:+ Error E err)]))
         (fs E w) (clock E w))
  | inl d =>
      dispatch E (Some (length (Standalone.heap E (core E w)))) args
        (mkWorld E
           (Standalone.mkWorld E
              (Standalone.heap E (core E w) ++
               [Standalone.mkTool E d regs Deadigations.default_options])
              (Standalone.database E (core E w))
              (Standalone.trace E (core E w) ++ [EvOpen dsn]))
           (fs E w) (clock E w))
  end.
Proof.
  unfold NewMigrationTool. rewrite bind_eq.
  destruct (gorm_Open E dsn) as [d|err]; runS.
  - reflexivity.
  - rewrite Sprintf_connect_failed, <- app_assoc. reflexivity.
Qed.

(** The switch on [-up] and [-down]. *)
Lemma dispatch_engine_eq (rollback : bool) (p : nat) t (args : list string)
    (w : World E) :
  Standalone.heap E (core E w) !! p = Some t ->
  Standalone.registeredMigrations E t <> [] ->
  args !! 1 = Some (if rollback then "-down" else "-up") ->
  let ms :=
    GoSort.SliceStable (if rollback then less_down else less_up)
      (Standalone.registeredMigrations E t) in
  let d := Standalone.db E t in
  let o := Standalone.options E t in
  let r := (if rollback then engine_RollbackLast E else engine_Migrate E)
             d o ms (Standalone.database E (core E w)) in
  let after log :=
    mkWorld E
      (Standalone.mkWorld E
         (<[p := Standalone.mkTool E d ms o]> (Standalone.heap E (core E w)))
         (fst r)
         (Standalone.trace E (core E w) ++
          [EvNew d o ms;
           if rollback then EvRollbackLast d o ms else EvMigrate d o ms] ++
          log))
      (fs E w) (clock E w) in
  dispatch E (Some p) args w =
  match snd r with
  | Ret None =>
      (Ret tt,
       after [EvPrint (if rollback
                       then "Last migration rolled back successfully!"
                       else "Migrations applied successfully!")])
  | Ret (Some e) =>
      (Exit,
       after [EvFatal ((if rollback then "Rollback failed: "
                        else "Migration failed: ") +:+ Error E e)])
  | Exit => (Exit, after [])
  | Panic => (Panic, after [])
  end.
Proof.
  intros Hp Hne Hcmd. cbn zeta.
  destruct args as [|a0 [|a1 rest]]; try discriminate.
  cbn in Hcmd. injection Hcmd as ->. unfold dispatch.
  cbn [length Nat.ltb Nat.leb]. unfold index. cbn [lookup list_lookup].
  rewrite bind_eq. unfold mret at 1, Prog_ret at 1.
  pose proof (Standalone_Migrate_eq E rollback p t (core E w) Hp Hne) as Heq.
  cbn zeta in Heq.
  destruct rollback; cbn [String.eqb Ascii.eqb Bool.eqb];
    rewrite bind_eq; unfold MigrateDown, MigrateUp, lift;
    rewrite Heq; cbn [fst snd];
    match goal with
    | |- context [snd ?r] => destruct (snd r) as [[e|]| |]
    end; runS;
    rewrite ?Sprintf_migration_failed, ?Sprintf_rollback_failed,
      <- ?app_assoc; reflexivity.
Qed.

(** The file system calls when the operating system refuses nothing. *)
Lemma MkdirAll_ok path (w : World E) :
  os_MkdirAll_err E (fs E w) path = None ->
  MkdirAll E path w =
  (Ret None,
   mkWorld E
     (Standalone.mkWorld E (Standalone.heap E (core E w))
        (Standalone.database E (core E w))
        (Standalone.trace E (core E w) ++ [EvMkdirAll path]))
     (mkFS (dirs (fs E w) ∪ list_to_set (Deadigations.parents "" path))
        (files (fs E w)))
     (clock E w)).
Proof. intros H. unfold MkdirAll. runS. rewrite H. reflexivity. Qed.

Lemma Create_ok path (w : World E) :
  os_Create_err E (fs E w) path = None ->
  Create E path w =
  (Ret None,
   mkWorld E
     (Standalone.mkWorld E (Standalone.heap E (core E w))
        (Standalone.database E (core E w))
        (Standalone.trace E (core E w) ++ [EvCreate path]))
     (mkFS (dirs (fs E w)) (<[path := ""]> (files (fs E w))))
     (clock E w)).
Proof. intros H. unfold Create. runS. rewrite H. reflexivity. Qed.

Lemma WriteString_ok path content (w : World E) :
  os_Write_err E (fs E w) path content = None ->
  WriteString E path content w =
  (Ret None,
   mkWorld E
     (Standalone.mkWorld E (Standalone.heap E (core E w))
        (Standalone.database E (core E w))
        (Standalone.trace E (core E w) ++ [EvWriteString path content]))
     (mkFS (dirs (fs E w))
        (<[path := default "" (files (fs E w) !! path) +:+ content]>
           (files (fs E w))))
     (clock E w)).
Proof. intros H. unfold WriteString. runS. rewrite H. reflexivity. Qed.

Lemma Sprintf_standalone_path file :
  Sprintf "./migrations/%s" [file] = "./migrations/" +:+ file.
Proof.
  transitivity ("./migrations/" +:+ (file +:+ "")); [reflexivity|].
  now rewrite app_nil_r_s.
Qed.

Lemma CreateMigrationFile_ok (m : option nat) (name : string) (w : World E) :
  let ts := Format (clock E w) in
  let path := "./migrations/" +:+ ts +:+ "_" +:+ ReplaceSpaces name +:+ ".go" in
  let content := Sprintf migrationTemplate [ts] in
  let fs1 :=
    mkFS (dirs (fs E w) ∪
          list_to_set (Deadigations.parents "" "./migrations"))
      (files (fs E w)) in
  let fs2 := mkFS (dirs fs1) (<[path := ""]> (files fs1)) in
  os_MkdirAll_err E (fs E w) "./migrations" = None ->
  os_Create_err E fs1 path = None ->
  os_Write_err E fs2 path content = None ->
  CreateMigrationFile E m name w =
  (Ret None,
   mkWorld E
     (Standalone.mkWorld E (Standalone.heap E (core E w))
        (Standalone.database E (core E w))
        (Standalone.trace E (core E w) ++
         [EvMkdirAll "./migrations"; EvCreate path;
          EvWriteString path content;
          EvPrint ("Migration file created: " +:+ path); EvClose path]))
     (mkFS (dirs fs1) (<[path := content]> (files fs1)))
     (clock E w)).
Proof.
  cbn zeta. intros Hmk Hcr Hwr. unfold CreateMigrationFile.
  rewrite bind_eq. unfold get at 1. cbv beta iota zeta.
  rewrite Sprintf_filename, Sprintf_standalone_path.
  set (path := "./migrations/" +:+ _) in *.
  set (content := Sprintf migrationTemplate _) in *.
  rewrite bind_eq, (MkdirAll_ok _ _ Hmk), bind_eq.
  rewrite Create_ok by exact Hcr. rewrite bind_eq.
  rewrite WriteString_ok by exact Hwr.
  cbn [core fs clock Standalone.heap Standalone.database Standalone.trace
       dirs files].
  rewrite lookup_insert_eq, insert_insert_eq. cbn [default].
  unfold Printf, Close. runS.
  assert (Hmsg : Sprintf "Migration file created: %s" [path]
                 = "Migration file created: " +:+ path).
  { transitivity ("Migration file created: " +:+ (path +:+ ""));
      [reflexivity|]. now rewrite app_nil_r_s. }
  rewrite Hmsg, <- !app_assoc. reflexivity.
Qed.

Lemma standalone_lines ts :
  count_char (ascii_of_nat 10) ts = 0 ->
  Generated.split_lines (Sprintf migrationTemplate [ts])
  = <[8 := Templates.ID_line ts]> migrationTemplate_lines.
Proof.
  intros Hts.
  assert (Hc : Sprintf migrationTemplate [ts]
               = String.substring 0 108 migrationTemplate +:+
                 (ts +:+ String.substring 110 297 migrationTemplate))
    by reflexivity.
  rewrite Hc, split_lines_append, split_lines_app by exact Hts.
  reflexivity.
Qed.

(** X15. When the database accepts the connection, the stand-alone
    program run with [-up] or [-down] on a registry that is not empty
    opens one connection, builds one engine on it with the fixed options,
    and hands the engine the registry it was given sorted by identifier
    with a stable sort, ascending for [-up] and descending for [-down].
    The program ends as the call of the engine lets it: it returns when
    the engine returns nil, the process exits when the engine returns an
    error or ends the process itself, and the program panics when the
    engine panics. *)
Theorem standalone_program_sorts (rollback : bool) (dsn : string)
    (regs : list (GormMigration (Action E))) (args : list string) d
    (w : World E) :
  gorm_Open E dsn = inl d ->
  regs <> [] ->
  args !! 1 = Some (if rollback then "-down" else "-up") ->
  let less := if rollback then less_down else less_up in
  let ms := GoSort.SliceStable less regs in
  let o := mkOptions "migrations" "id" 255 true false in
  let r := (if rollback then engine_RollbackLast E else engine_Migrate E)
             d o ms (Standalone.database E (core E w)) in
  let c := NewMigrationTool E dsn regs args in
  let tr := Standalone.trace E (core E (final c w)) in
  GoSort.stable_sort_of less regs ms /\
  opened tr = opened (Standalone.trace E (core E w)) ++ [dsn] /\
  engines tr = engines (Standalone.trace E (core E w)) ++ [(d, o)] /\
  engine_inputs tr
  = engine_inputs (Standalone.trace E (core E w)) ++ [map gID ms] /\
  outcome c w = match snd r with
                | Ret None => Ret tt
                | Ret (Some _) => Exit
                | Exit => Exit
                | Panic => Panic
                end.
Proof.
  intros Hd Hne Hcmd. cbn zeta.
  split; [destruct rollback; [apply sorted_down|apply sorted_up]|].
  unfold outcome, final. rewrite NewMigrationTool_eq, Hd.
  set (w1 := mkWorld E _ _ _).
  assert (Hp : Standalone.heap E (core E w1)
               !! length (Standalone.heap E (core E w))
               = Some (Standalone.mkTool E d regs Deadigations.default_options))
    by (cbn; now rewrite list_lookup_middle).
  pose proof (dispatch_engine_eq rollback _ _ args w1 Hp Hne Hcmd) as Heq.
  cbn zeta in Heq. rewrite Heq. clear Heq.
  cbn [Standalone.db Standalone.options Standalone.registeredMigrations
       core w1 Standalone.database Standalone.trace Standalone.heap].
  unfold opened, engines, engine_inputs.
  destruct (snd ((if rollback then engine_RollbackLast E
                  else engine_Migrate E) _ _ _ _)) as [[e|]| |];
    cbn [fst snd core Standalone.trace]; rewrite !omap_app;
    destruct rollback; cbn; rewrite ?app_nil_r, <- ?app_assoc; auto.
Qed.

(** X16. The stand-alone program opens the database before it looks at
    the command line and keeps no singleton. When the connection is
    refused it exits with a fatal log, whatever the arguments are. When
    it is accepted and no command is given, the program still has opened
    the connection and built a tool before it logs the usage hint and
    returns, so two such runs open two connections and build two tools.
    A command other than [-up], [-down] and [-create] (so also
    [-create-tx]) ends the process after the connection was opened. *)
Theorem standalone_opens_before_dispatch (dsn : string)
    (regs : list (GormMigration (Action E))) (args : list string)
    (w : World E) :
  let c := NewMigrationTool E dsn regs args in
  let tr := Standalone.trace E (core E w) in
  let hp := Standalone.heap E (core E w) in
  (forall err,
     gorm_Open E dsn = inr err ->
     outcome c w = Exit /\
     Standalone.trace E (core E (final c w))
     = tr ++ [EvOpen dsn;
              EvFatal ("Failed to connect to the database: "
                       +:+ Error E err)] /\
     Standalone.heap E (core E (final c w)) = hp /\
     fs E (final c w) = fs E w) /\
  (forall d,
     gorm_Open E dsn = inl d ->
     length args < 2 ->
     outcome c w = Ret tt /\
     Standalone.trace E (core E (final c w))
     = tr ++ [EvOpen dsn;
              EvPrint "No command provided. Use -up, -down, or -create"] /\
     Standalone.heap E (core E (final c w))
     = hp ++ [Standalone.mkTool E d regs Deadigations.default_options] /\
     opened (Standalone.trace E (core E (final c (final c w))))
     = opened tr ++ [dsn; dsn] /\
     length (Standalone.heap E (core E (final c (final c w))))
     = 2 + length hp) /\
  (forall d cmd,
     gorm_Open E dsn = inl d ->
     args !! 1 = Some cmd ->
     cmd <> "-up" -> cmd <> "-down" -> cmd <> "-create" ->
     outcome c w = Exit /\
     Standalone.trace E (core E (final c w))
     = tr ++ [EvOpen dsn;
              EvFatal "Invalid command. Use -up, -down, or -create"]).
Proof.
  cbn zeta. split; [|split].
  - intros err Hd. unfold outcome, final. rewrite NewMigrationTool_eq, Hd.
    cbn. auto.
  - intros d Hd Hlen.
    assert (Hrun : forall w0 : World E,
      NewMigrationTool E dsn regs args w0 =
      (Ret tt,
       mkWorld E
         (Standalone.mkWorld E
            (Standalone.heap E (core E w0) ++
             [Standalone.mkTool E d regs Deadigations.default_options])
            (Standalone.database E (core E w0))
            (Standalone.trace E (core E w0) ++
             [EvOpen dsn;
              EvPrint "No command provided. Use -up, -down, or -create"]))
         (fs E w0) (clock E w0))).
    { intros w0. rewrite NewMigrationTool_eq, Hd.
      destruct args as [|a0 [|a1 rest]]; cbn in Hlen; try lia;
        unfold dispatch; cbn [length Nat.ltb Nat.leb]; unfold Println; runS;
        now rewrite <- app_assoc. }
    unfold outcome, final. rewrite !Hrun. cbn.
    repeat split.
    + unfold opened. rewrite !omap_app. cbn. now rewrite <- app_assoc.
    + rewrite !List.length_app. cbn. lia.
  - intros d cmd Hd Hcmd Hup Hdown Hcreate.
    assert (Hrun :
      NewMigrationTool E dsn regs args w =
      (Exit,
       mkWorld E
         (Standalone.mkWorld E
            (Standalone.heap E (core E w) ++
             [Standalone.mkTool E d regs Deadigations.default_options])
            (Standalone.database E (core E w))
            (Standalone.trace E (core E w) ++
             [EvOpen dsn;
              EvFatal "Invalid command. Use -up, -down, or -create"]))
         (fs E w) (clock E w))).
    { rewrite NewMigrationTool_eq, Hd.
      destruct args as [|a0 [|a1 rest]]; cbn in Hcmd; try discriminate.
      injection Hcmd as ->. unfold dispatch. cbn [length Nat.ltb Nat.leb].
      unfold index. cbn [lookup list_lookup]. rewrite bind_eq.
      unfold mret at 1, Prog_ret at 1.
      apply String.eqb_neq in Hup, Hdown, Hcreate.
      rewrite Hup, Hdown, Hcreate. unfold Fatal. runS.
      now rewrite <- app_assoc. }
    unfold outcome, final. rewrite Hrun. cbn. auto.
Qed.

(** X17. When the database accepts the connection, the stand-alone
    program run with [-create] and a name, on an operating system that
    refuses nothing, returns after it has written the template to
    [./migrations/<timestamp>_<name>.go], spaces of the
    name being underscores. For a wall clock the text is that of the
    template line by line, with the timestamp as the [ID]; the call that
    registers is written without a package name. *)
Theorem standalone_program_creates (dsn name : string)
    (regs : list (GormMigration (Action E))) (args : list string) d
    (w : World E) :
  let ts := Format (clock E w) in
  let path := "./migrations/" +:+ ts +:+ "_" +:+ ReplaceSpaces name +:+ ".go" in
  let content := Sprintf migrationTemplate [ts] in
  let fs1 :=
    mkFS (dirs (fs E w) ∪
          list_to_set (Deadigations.parents "" "./migrations"))
      (files (fs E w)) in
  let fs2 := mkFS (dirs fs1) (<[path := ""]> (files fs1)) in
  let c := NewMigrationTool E dsn regs args in
  gorm_Open E dsn = inl d ->
  args !! 1 = Some "-create" ->
  args !! 2 = Some name ->
  os_MkdirAll_err E (fs E w) "./migrations" = None ->
  os_Create_err E fs1 path = None ->
  os_Write_err E fs2 path content = None ->
  outcome c w = Ret tt /\
  files (fs E (final c w)) = <[path := content]> (files (fs E w)) /\
  "./migrations" ∈ dirs (fs E (final c w)) /\
  created (Standalone.trace E (core E (final c w)))
  = created (Standalone.trace E (core E w)) ++ [path] /\
  engine_events (Standalone.trace E (core E (final c w)))
  = engine_events (Standalone.trace E (core E w)) /\
  (wall_clock (clock E w) ->
   Generated.split_lines content
   = <[8 := Templates.ID_line ts]> migrationTemplate_lines /\
   Generated.field "ID" (Generated.split_lines content)
   = Some (dq +:+ ts +:+ dq +:+ ",") /\
   filter (fun l => String.prefix "RegisterMigration("
                      (Generated.strip_tabs l) = true)
     (Generated.split_lines content)
   = [Templates.ind 1 "RegisterMigration(Migration{"]).
Proof.
  cbn zeta. intros Hd Hcmd Hname Hmk Hcr Hwr.
  set (w1 := mkWorld E
               (Standalone.mkWorld E
                  (Standalone.heap E (core E w) ++
                   [Standalone.mkTool E d regs Deadigations.default_options])
                  (Standalone.database E (core E w))
                  (Standalone.trace E (core E w) ++ [EvOpen dsn]))
               (fs E w) (clock E w)).
  pose proof (CreateMigrationFile_ok
                (Some (length (Standalone.heap E (core E w)))) name w1
                Hmk Hcr Hwr) as Hok.
  cbn zeta in Hok.
  assert (Hrun : NewMigrationTool E dsn regs args w
                 = (Ret tt,
                    snd (CreateMigrationFile E
                           (Some (length (Standalone.heap E (core E w))))
                           name w1))).
  { rewrite NewMigrationTool_eq, Hd. fold w1.
    destruct args as [|a0 [|a1 [|a2 rest]]]; try discriminate.
    cbn in Hcmd, Hname. injection Hcmd as ->. injection Hname as ->.
    unfold dispatch. cbn [length Nat.ltb Nat.leb]. unfold index.
    cbn [lookup list_lookup]. rewrite bind_eq.
    unfold mret at 1, Prog_ret at 1. cbn [String.eqb Ascii.eqb Bool.eqb].
    rewrite bind_eq. unfold mret at 1, Prog_ret at 1.
    rewrite bind_eq. unfold mret at 1, Prog_ret at 1.
    rewrite bind_eq, Hok. reflexivity. }
  unfold outcome, final. rewrite Hrun, Hok.
  cbn [fst snd core fs clock Standalone.trace dirs files w1].
  split; [reflexivity|]. split; [reflexivity|].
  split; [clear; set_solver|].
  split; [unfold created; rewrite !omap_app; cbn;
          now rewrite !app_nil_r|].
  split; [unfold engine_events; rewrite !omap_app; cbn;
          now rewrite !app_nil_r|].
  intros Hclock. destruct (Format_wall_clock _ Hclock) as [_ Hdig].
  assert (Hnl : count_char (ascii_of_nat 10) (Format (clock E w)) = 0)
    by (apply all_digits_count; [reflexivity|exact Hdig]).
  rewrite standalone_lines by exact Hnl.
  generalize (Format (clock E w)). intros ts.
  repeat split; vm_compute; reflexivity.
Qed.

End StandaloneProgram.

(** ** The further properties at concrete inputs *)

Section MoreInstances.
Import Demo Samples.

Lemma later_wall_clock : GoTime.wall_clock later.
Proof. unfold GoTime.wall_clock. cbn. lia. Qed.

(** X1 at [noon] and the second after it. *)
Lemma timestamps_sort_like_the_clock_witness :
  GoTime.wall_clock noon /\ GoTime.wall_clock later /\
  GoString.lt (GoTime.Format noon) (GoTime.Format later) = true.
Proof.
  split; [exact noon_wall_clock|]. split; [exact later_wall_clock|].
  apply (proj1 (proj2 (timestamps_sort_like_the_clock noon later
                         noon_wall_clock later_wall_clock))).
  reflexivity.
Defined.

(** X2 at the names [add users] and [add_users] in one second. *)
Lemma file_path_collision_witness :
  GoTime.wall_clock noon /\
  Deadigations.file_path noon "add users"
  = Deadigations.file_path noon "add_users".
Proof.
  split; [exact noon_wall_clock|].
  apply (proj2 (file_path_collision noon noon "add users" "add_users"
                  noon_wall_clock noon_wall_clock)).
  split; reflexivity.
Defined.

(** X5 at two calls of the scaffolder in a fresh directory. *)
Lemma scaffold_directories_witness :
  os_MkdirAll_err env (Deadigations.fs env ready) Deadigations.migrations_dir
  = None /\
  "./migrator/migrations"
  ∈ dirs (Deadigations.fs env
            (final (Deadigations.Create_ env false (Some 0) "add users")
               ready)).
Proof.
  split; [reflexivity|].
  exact (proj1 (scaffold_directories env false true (Some 0) (Some 0)
                  "add users" "add orders" ready eq_refl)).
Defined.

(** X6 at [migrator -up] with the three migrations registered, and with
    a migration registered without functions on an engine that panics
    when it calls a nil function. *)
Lemma Run_engine_outcome_witness :
  Deadigations.heap env registered !! 0 = Some tool /\
  outcome (Deadigations.Run env (Some 0) ["migrator"; "-up"]) registered
  = Ret tt /\
  Deadigations.heap fragile bare_registered !! 0
  = Some (Deadigations.mkTool fragile "host=db"
            Deadigations.default_options) /\
  outcome (Deadigations.Run fragile (Some 0) ["migrator"; "-up"])
    bare_registered
  = Panic.
Proof.
  assert (Hp : Deadigations.heap env registered !! 0 = Some tool)
    by reflexivity.
  assert (Hne : Deadigations.registeredMigrations env registered <> [])
    by (vm_compute; discriminate).
  assert (Hp' : Deadigations.heap fragile bare_registered !! 0
                = Some (Deadigations.mkTool fragile "host=db"
                          Deadigations.default_options))
    by reflexivity.
  assert (Hne' :
    Deadigations.registeredMigrations fragile bare_registered <> [])
    by (vm_compute; discriminate).
  split; [exact Hp|]. split; [|split; [exact Hp'|]]; unfold outcome.
  - rewrite (Run_engine_outcome env false 0 tool ["migrator"; "-up"]
               registered Hne Hp eq_refl).
    reflexivity.
  - rewrite (Run_engine_outcome fragile false 0 _ ["migrator"; "-up"]
               bare_registered Hne' Hp' eq_refl).
    reflexivity.
Defined.

(** X7 at [migrator -create "add users"] on a system that refuses
    nothing. *)
Lemma Run_create_outcome_witness :
  ["migrator"; "-create"; "add users"] !! 2 = Some "add users" /\
  outcome
    (Deadigations.Run env (Some 0) ["migrator"; "-create"; "add users"])
    ready
  = Ret tt.
Proof.
  split; [reflexivity|].
  exact (proj1 (Run_create_outcome env false (Some 0)
                  ["migrator"; "-create"; "add users"] "add users" ready
                  eq_refl eq_refl)).
Defined.

(** X8 at the empty connection string, which the database refuses. *)
Lemma program_connection_refused_witness :
  gorm_Open env "" = inr "empty dsn" /\
  outcome (program env three "" ["migrator"; "-create"; "add users"])
    (start env [])
  = Exit.
Proof.
  split; [reflexivity|].
  exact (proj1 (program_connection_refused env three ""
                  ["migrator"; "-create"; "add users"] "empty dsn"
                  (start env []) eq_refl eq_refl)).
Defined.

Lemma start_constructed : constructed env (start env []).
Proof. intros H. discriminate. Qed.

(** X9 at the process that has just started. *)
Lemma constructed_invariant_witness :
  constructed env (start env []) /\ constructed env ready.
Proof.
  split; [exact start_constructed|].
  exact (proj1 (proj2 (constructed_invariant env (start env [])
                         start_constructed)) "host=db").
Defined.

Lemma start_constructed_fragile : constructed fragile (start fragile []).
Proof. intros H. discriminate. Qed.

(** X10 at a program that registers a migration without functions and
    runs [-up] on an engine that panics when it calls a nil function, and
    at the program of [env], whose engine does not panic. *)
Lemma program_panics_only_in_engine_witness :
  constructed fragile (start fragile []) /\
  outcome (program fragile bare "host=db" ["migrator"; "-up"])
    (start fragile []) = Panic /\
  (exists (rollback : bool) d o tr,
     ["migrator"; "-up"] !! 1 = Some (if rollback then "-down" else "-up") /\
     Deadigations.registeredMigrations fragile (start fragile []) ++
     map (fun x => mkGormMigration (ID x) (Migrate x) (Rollback x)) bare
     <> [] /\
     snd ((if rollback then engine_RollbackLast fragile
           else engine_Migrate fragile) d o
            (Deadigations.registeredMigrations fragile (start fragile []) ++
             map (fun x => mkGormMigration (ID x) (Migrate x) (Rollback x))
               bare)
            (Deadigations.database fragile (start fragile []))) = Panic /\
     Deadigations.trace fragile
       (final (program fragile bare "host=db" ["migrator"; "-up"])
          (start fragile []))
     = tr ++
       [EvNew d o
          (Deadigations.registeredMigrations fragile (start fragile []) ++
           map (fun x => mkGormMigration (ID x) (Migrate x) (Rollback x))
             bare);
        if rollback
        then EvRollbackLast d o
               (Deadigations.registeredMigrations fragile (start fragile []) ++
                map (fun x => mkGormMigration (ID x) (Migrate x) (Rollback x))
                  bare)
        else EvMigrate d o
               (Deadigations.registeredMigrations fragile (start fragile []) ++
                map (fun x => mkGormMigration (ID x) (Migrate x) (Rollback x))
                  bare)]) /\
  (outcome (program env three "host=db" ["migrator"; "-up"])
     (start env []) = Panic -> False).
Proof.
  split; [exact start_constructed_fragile|]. split; [reflexivity|]. split.
  - exact (proj1 (program_panics_only_in_engine fragile bare "host=db"
                    ["migrator"; "-up"] (start fragile [])
                    start_constructed_fragile) eq_refl).
  - apply (proj2 (program_panics_only_in_engine env three "host=db"
                    ["migrator"; "-up"] (start env []) start_constructed)).
    intros d o s. split; discriminate.
Defined.

(** X11 at the three migrations and [migrator -up]. *)
Lemma program_hands_registrations_to_engine_witness :
  gorm_Open env "host=db" = inl "host=db" /\
  engine_inputs
    (Deadigations.trace env
       (final (program env three "host=db" ["migrator"; "-up"])
          (start env [])))
  = [["3"; "1"; "2"]].
Proof.
  split; [reflexivity|].
  assert (Hne : Deadigations.registeredMigrations env (start env []) ++
                map (fun x => mkGormMigration (ID x) (Migrate x) (Rollback x))
                  three <> []) by discriminate.
  exact (proj1 (proj2 (proj2
           (program_hands_registrations_to_engine env false three "host=db"
              ["migrator"; "-up"] "host=db" (start env [])
              eq_refl eq_refl eq_refl Hne)))).
Defined.

(** X12 at the stand-alone tool that holds the migrations 3, 1, 2. *)
Lemma Standalone_sort_is_kept_witness :
  Standalone.heap env standalone !! 0 = Some standalone_tool /\
  engine_inputs
    (Standalone.trace env
       (final (Standalone.MigrateUp env (Some 0))
          (final (Standalone.MigrateUp env (Some 0)) standalone)))
  = [map gID (GoSort.SliceStable less_up entries);
     map gID (GoSort.SliceStable less_up entries)].
Proof.
  assert (Hp : Standalone.heap env standalone !! 0 = Some standalone_tool)
    by reflexivity.
  assert (Hne : Standalone.registeredMigrations env standalone_tool <> [])
    by discriminate.
  split; [exact Hp|].
  exact (proj2 (proj2 (Standalone_sort_is_kept env false 0 standalone_tool
                         standalone Hp Hne))).
Defined.

Lemma entries_distinct : List.NoDup (map gID entries).
Proof.
  repeat constructor; cbn; intuition discriminate.
Qed.

(** X13 at the stand-alone tool that holds the migrations 3, 1, 2. *)
Lemma Standalone_rollback_reverses_apply_witness :
  List.NoDup (map gID entries) /\
  engine_inputs
    (Standalone.trace env
       (final (Standalone.MigrateDown env (Some 0))
          (final (Standalone.MigrateUp env (Some 0)) standalone)))
  = [map gID (GoSort.SliceStable less_up entries);
     rev (map gID (GoSort.SliceStable less_up entries))].
Proof.
  assert (Hp : Standalone.heap env standalone !! 0 = Some standalone_tool)
    by reflexivity.
  assert (Hne : Standalone.registeredMigrations env standalone_tool <> [])
    by discriminate.
  split; [exact entries_distinct|].
  exact (proj2 (proj2 (Standalone_rollback_reverses_apply env 0
                         standalone_tool standalone Hp Hne
                         entries_distinct))).
Defined.

Lemma in_order_ordered :
  GoSort.ordered less_up (Deadigations.registeredMigrations env in_order).
Proof.
  unfold GoSort.ordered.
  repeat (constructor; [|repeat constructor]). constructor.
Qed.

(** X14 at a registry registered as 1, 2, 3. *)
Lemma sorted_registry_revisions_agree_witness :
  GoSort.ordered less_up (Deadigations.registeredMigrations env in_order) /\
  Deadigations.MigrateUp_earlier env (Some 0) in_order
  = Deadigations.MigrateUp env (Some 0) in_order.
Proof.
  split; [exact in_order_ordered|].
  exact (sorted_registry_revisions_agree env false (Some 0) in_order
           in_order_ordered).
Defined.

(** X15 at the stand-alone program given the migrations 3, 1, 2. *)
Lemma standalone_program_sorts_witness :
  gorm_Open env "host=db" = inl "host=db" /\
  engine_inputs
    (Standalone.trace env
       (StandaloneMain.core env
          (final
             (StandaloneMain.NewMigrationTool env "host=db" entries
                ["migrator"; "-up"]) main_start)))
  = [map gID (GoSort.SliceStable less_up entries)].
Proof.
  split; [reflexivity|].
  assert (Hne : entries <> []) by discriminate.
  exact (proj1 (proj2 (proj2 (proj2
           (standalone_program_sorts env false "host=db" entries
              ["migrator"; "-up"] "host=db" main_start eq_refl Hne
              eq_refl))))).
Defined.

(** X17 at the stand-alone program and the name [add users]. *)
Lemma standalone_program_creates_witness :
  gorm_Open env "host=db" = inl "host=db" /\
  outcome
    (StandaloneMain.NewMigrationTool env "host=db" entries
       ["migrator"; "-create"; "add users"]) main_start
  = Ret tt.
Proof.
  split; [reflexivity|].
  exact (proj1 (standalone_program_creates env "host=db" "add users" entries
                  ["migrator"; "-create"; "add users"] "host=db" main_start
                  eq_refl eq_refl eq_refl eq_refl eq_refl eq_refl)).
Defined.

(** X16 at the stand-alone program run without a command. *)
Lemma standalone_opens_before_dispatch_witness :
  gorm_Open env "host=db" = inl "host=db" /\
  outcome (StandaloneMain.NewMigrationTool env "host=db" entries ["migrator"])
    main_start
  = Ret tt /\
  gorm_Open env "" = inr "empty dsn" /\
  outcome (StandaloneMain.NewMigrationTool env "" entries ["migrator"; "-up"])
    main_start
  = Exit.
Proof.
  split; [reflexivity|]. split.
  - assert (Hlen : length ["migrator"] < 2) by (cbn; lia).
    exact (proj1 (proj1 (proj2 (standalone_opens_before_dispatch env
                                  "host=db" entries ["migrator"] main_start))
                    "host=db" eq_refl Hlen)).
  - split; [reflexivity|].
    exact (proj1 (proj1 (standalone_opens_before_dispatch env "" entries
                           ["migrator"; "-up"] main_start)
                    "empty dsn" eq_refl)).
Defined.

End MoreInstances.

(** ** The commands keep apart *)

Section Separation.
Variable E : Env.
Import Deadigations.

(** X18. The two halves of the tool do not meet. [MigrateUp] and
    [MigrateDown] never touch the file system: they make no directory,
    create, write or close no file. The scaffolding methods never open a
    connection and never build or run the engine. This holds however the
    calls end. *)
Theorem commands_keep_apart (rollback tx : bool) (m : option nat)
    (name : string) (w : World E) :
  let engine := if rollback then MigrateDown E m else MigrateUp E m in
  let scaffolder := Create_ E tx m name in
  fs E (final engine w) = fs E w /\
  fs_events (trace E (final engine w)) = fs_events (trace E w) /\
  opened (trace E (final engine w)) = opened (trace E w) /\
  engine_events (trace E (final scaffolder w)) = engine_events (trace E w) /\
  opened (trace E (final scaffolder w)) = opened (trace E w) /\
  database E (final scaffolder w) = database E w.
Proof.
  cbn zeta.
  assert (Hengine :
    fs E (final (if rollback then MigrateDown E m else MigrateUp E m) w)
    = fs E w /\
    exists es,
      trace E (final (if rollback then MigrateDown E m else MigrateUp E m) w)
      = trace E w ++ es /\ fs_events es = [] /\ opened es = []).
  { unfold final.
    destruct (decide (registeredMigrations E w = [])) as [Hreg|Hne].
    - destruct (empty_registry_no_engine_frame E m w Hreg) as [Hu Hd].
      destruct rollback; rewrite ?Hu, ?Hd; cbn; eauto.
    - assert (Hlen : Nat.eqb (length (registeredMigrations E w)) 0 = false)
        by (destruct (registeredMigrations E w); [congruence|reflexivity]).
      destruct m as [p|]; [destruct (heap E w !! p) as [t|] eqn:Hp|].
      + pose proof (Migrate_eq E rollback p t w Hne Hp) as Heq.
        cbn zeta in Heq. destruct rollback; rewrite Heq; cbn [snd fs trace];
          (split; [reflexivity|]); eexists; (split; [reflexivity|]);
          match goal with
          | |- context [snd ?r] => destruct (snd r) as [[?|]| |]
          end; split; reflexivity.
      + destruct rollback; unfold MigrateDown, MigrateUp; run; rewrite Hlen;
          run; rewrite Hp; cbn; (split; [reflexivity|]); exists [];
          now rewrite app_nil_r.
      + destruct rollback; unfold MigrateDown, MigrateUp; run; rewrite Hlen;
          cbn; (split; [reflexivity|]); exists []; now rewrite app_nil_r. }
  destruct Hengine as (Hfs & es & Htr & Hes1 & Hes2).
  split; [exact Hfs|].
  split; [rewrite Htr; unfold fs_events in *; rewrite omap_app, Hes1;
          apply app_nil_r|].
  split; [rewrite Htr; unfold opened in *; rewrite omap_app, Hes2;
          apply app_nil_r|].
  unfold final. rewrite Create_scaffold, scaffold_eq. cbn zeta.
  unfold engine_events, opened.
  destruct (os_MkdirAll_err E (fs E w) migrations_dir) as [e|];
    [|destruct (os_Create_err E _ _) as [e|];
      [|destruct (os_Write_err E _ _ _) as [[n e]|]]];
    cbn; rewrite !omap_app; cbn; rewrite !app_nil_r; auto.
Qed.

End Separation.
